(** * pylgrim: the single-point-positioning solver of [proto/]

    A shallow embedding of [proto/least_squares.py] (the reference solver)
    and [proto/rover_position.py] (the older prototype of the same solver),
    and the properties of the specification that concern them.

    Numbers are numpy [float64] values.  Their arithmetic is kept behind the
    interface [Float]; the solver is written once over that interface and is
    run on exact rationals ([Q]) in the examples, and on binary64 itself
    where the rounding of a sum decides the outcome.  The collaborators that
    live outside [proto/] (ephemeris evaluation, coordinate transforms, the
    troposphere model, numpy's matrix inverse) are taken as parameters. *)

From Stdlib Require Import ZArith QArith Qabs Qreduction List String Ascii Bool Arith Lia.
From Stdlib Require PrimFloat SpecFloat FloatOps.
Import ListNotations.
Open Scope string_scope.
Open Scope list_scope.

Set Implicit Arguments.

(** ** Vectors *)

(** An ECEF position, as [eph2pos] returns it. *)
Record vec3 (F : Type) : Type := V3 { vx : F; vy : F; vz : F }.

(** The solver's estimate [xyzt]: position and receiver clock bias. *)
Record vec4 (F : Type) : Type := V4 { x4 : F; y4 : F; z4 : F; t4 : F }.

Arguments V3 {F} vx vy vz.
Arguments V4 {F} x4 y4 z4 t4.

(** ** Python run-time: exceptions, printed lines, the result of a call *)

(** The exceptions the two modules can raise. *)
Inductive exn : Type :=
| KeyError          (* [navs[r]], [obs.obs_data['P2']] on a missing key *)
| IndexError        (* list index out of range *)
| ValueError        (* [min([])], [list.index] of an absent value, shape mismatch *)
| TypeError         (* arithmetic on [None] *)
| UnboundLocalError (* a local read before its first assignment *)
| RecursionError    (* maximum recursion depth exceeded *)
| LinAlgError.      (* numpy: singular matrix *)

(** What a run leaves behind.  The first four are lines the program
    prints.  The last two are bookkeeping of the model and print nothing:
    a mark for every entry into the body of the Gauss-Newton [for] loop, and
    the correction that iteration computed. *)
Inductive event (F : Type) : Type :=
| WarnTooFew (n : nat)               (* "Warning: too few satellites: n" *)
| WarnBadMeasurement                 (* "Warning: bad measurement!" *)
| PrintExcluded (r : string)         (* "Satellite r excluded" *)
| PrintCorrection (x_hat : vec4 F)   (* "(x,y,z,cdt) = ..." *)
| Iteration (itr : nat)              (* loop body entered with index [itr] *)
| Correction (x_hat : vec4 F).       (* [x_hat] after [x_hat[3] /= c] *)

Arguments WarnTooFew {F} n.
Arguments WarnBadMeasurement {F}.
Arguments PrintExcluded {F} r.
Arguments PrintCorrection {F} x_hat.
Arguments Iteration {F} itr.
Arguments Correction {F} x_hat.

Inductive res (A : Type) : Type :=
| Ok (a : A)
| Raise (e : exn).

Arguments Ok {A} a.
Arguments Raise {A} e.

(** A computation: the events it produced, then its value or exception. *)
Definition M (F A : Type) : Type := (list (event F) * res A)%type.

Definition ret {F A} (a : A) : M F A := ([], Ok a).

Definition raise {F A} (e : exn) : M F A := ([], Raise e).

Definition emit {F} (e : event F) : M F unit := ([e], Ok tt).

Definition bind {F A B} (m : M F A) (k : A -> M F B) : M F B :=
  match m with
  | (log, Ok a) => let (log', r) := k a in (log ++ log', r)
  | (log, Raise e) => (log, Raise e)
  end.

Definition lift {F A} (r : res A) : M F A := ([], r).

(** The bookkeeping marks of a log, and the lines really printed. *)
Fixpoint iterations {F} (log : list (event F)) : nat :=
  match log with
  | [] => 0
  | Iteration _ :: log' => S (iterations log')
  | _ :: log' => iterations log'
  end.

Fixpoint corrections {F} (log : list (event F)) : list (vec4 F) :=
  match log with
  | [] => []
  | Correction x_hat :: log' => x_hat :: corrections log'
  | _ :: log' => corrections log'
  end.

Fixpoint printed {F} (log : list (event F)) : list (event F) :=
  match log with
  | [] => []
  | Iteration _ :: log' => printed log'
  | Correction _ :: log' => printed log'
  | e :: log' => e :: printed log'
  end.

Declare Scope py_scope.
Delimit Scope py_scope with py.
Notation "x <- m ;; k" := (bind m (fun x => k))
  (at level 61, m at next level, right associativity) : py_scope.
Notation "m ;;; k" := (bind m (fun _ => k))
  (at level 61, right associativity) : py_scope.
Open Scope py_scope.

(** [l[i]] *)
Definition py_getitem {A} (l : list A) (i : nat) : res A :=
  match nth_error l i with
  | Some a => Ok a
  | None => Raise IndexError
  end.

(** [d[k]] on a dict with string keys, held as an association list. *)
Fixpoint dict_get {V} (d : list (string * V)) (k : string) : res V :=
  match d with
  | [] => Raise KeyError
  | (k', v) :: d' => if String.eqb k' k then Ok v else dict_get d' k
  end.

(** [c in s] for a one-character string [c]. *)
Fixpoint char_in (c : ascii) (s : string) : bool :=
  match s with
  | EmptyString => false
  | String a s' => Ascii.eqb a c || char_in c s'
  end.

(** [range(n)] *)
Definition range (n : nat) : list nat := seq 0 n.

(** ** numpy float64 behind an interface *)

Class Float (F : Type) : Type := {
  fadd : F -> F -> F;
  fsub : F -> F -> F;
  fmul : F -> F -> F;
  fdiv : F -> F -> F;
  fsqrt : F -> F;
  fabs : F -> F;
  flt : F -> F -> bool;      (* [x < y] *)
  feq : F -> F -> bool;      (* [x == y] *)
  of_int : Z -> F;           (* an [int] used where a float is expected *)
  f1em10 : F                 (* the literal [1e-10] *)
}.

(** The laws of [<] and [==] on numbers that are not NaN. *)
Class FloatOrder (F : Type) `{Float F} : Prop := {
  flt_irrefl : forall x, flt x x = false;
  flt_trans : forall x y z, flt x y = true -> flt y z = true -> flt x z = true;
  flt_negtrans : forall x y z, flt x y = false -> flt y z = false -> flt x z = false;
  feq_flt : forall x y, feq x y = negb (flt x y) && negb (flt y x)
}.

Arguments FloatOrder F {_}.

Section Numeric.
Context {F : Type} `{Float F}.

Definition zero : F := of_int 0.

(** Truth value of a measurement cell: [None] and [0.0] are false. *)
Definition truthy (v : option F) : bool :=
  match v with
  | None => false
  | Some x => negb (feq x zero)
  end.

(** [x ** 2] *)
Definition fsq (x : F) : F := fmul x x.

(** Python's [sum(l)]: starts from [0] and adds from the left. *)
Definition py_sum (l : list F) : F := fold_left fadd l zero.

(** [min(l)]: keeps the first item that no later item is [<] than. *)
Definition py_min (l : list F) : res F :=
  match l with
  | [] => Raise ValueError
  | x :: xs => Ok (fold_left (fun m y => if flt y m then y else m) xs x)
  end.

(** [l.index(v)]: position of the first item equal to [v]. *)
Fixpoint py_index (v : F) (l : list F) : res nat :=
  match l with
  | [] => Raise ValueError
  | x :: xs =>
      if feq x v then Ok 0%nat
      else match py_index v xs with
           | Ok i => Ok (S i)
           | Raise e => Raise e
           end
  end.

(** *** Matrices as lists of rows ([numpy.matrix]) *)

Definition matrix : Type := list (list F).

Definition column (j : nat) (m : matrix) : list F :=
  map (fun row => nth j row zero) m.

(** [m.transpose()] *)
Definition transpose (m : matrix) : matrix :=
  match m with
  | [] => []
  | r :: _ => map (fun j => column j m) (range (List.length r))
  end.

Definition dot (u v : list F) : F :=
  py_sum (map (fun p => fmul (fst p) (snd p)) (combine u v)).

(** [a * b] on matrices *)
Definition mmul (a b : matrix) : matrix :=
  map (fun row => map (fun col => dot row col) (transpose b)) a.

(** [m.flatten().getA()[0]] *)
Definition flatten (m : matrix) : list F := List.concat m.

End Numeric.

(** ** The collaborators and the loop skeleton *)

(** How the [for] loop was left. *)
Inductive loop_exit : Type :=
| Broke      (* by [break] *)
| RanOut.    (* the range was used up *)

(** Code of the repository outside [proto/], and numpy's inverse. *)
Class Collaborators (F : Type) `{Float F} : Type := {
  (* coord.ecef.ecef_to_lat_lon_alt(xyzt, deg=False) *)
  ecef_to_lat_lon_alt : list F -> F * F * F;
  (* coord.ecef.sat_elev(observer, satellite, deg): deg is True by default *)
  sat_elev : bool -> list F -> vec3 F -> F;
  (* delays.tropmodel(lla, elevation, vmf_coeffs) *)
  tropmodel : F * F * F -> F -> list F -> F;
  (* numpy.matrix.I; raises LinAlgError on a singular matrix *)
  matrix_inverse : list (list F) -> res (list (list F))
}.

Arguments Collaborators F {_}.

Section Vectors.
Context {F : Type} `{Float F}.

Definition list3 (v : vec3 F) : list F := [vx v; vy v; vz v].

Definition list4 (v : vec4 F) : list F := [x4 v; y4 v; z4 v; t4 v].

(** [xyzt[:3]] *)
Definition firstn3 (v : vec4 F) : vec3 F := V3 (x4 v) (y4 v) (z4 v).

(** [xyzt += x_hat], element by element. *)
Definition vadd4 (a b : vec4 F) : vec4 F :=
  V4 (fadd (x4 a) (x4 b)) (fadd (y4 a) (y4 b))
     (fadd (z4 a) (z4 b)) (fadd (t4 a) (t4 b)).

(** [np.sqrt(sum([k ** 2 for k in x_hat[:3]]))] *)
Definition delta (x_hat : vec4 F) : F :=
  fsqrt (py_sum [fsq (x4 x_hat); fsq (y4 x_hat); fsq (z4 x_hat)]).

(** [np.sqrt(sum([(x - xyzt[i]) ** 2 for i, x in enumerate(XYZ)]))] *)
Definition geometric_range (xyzt : vec4 F) (XYZ : vec3 F) : F :=
  fsqrt (py_sum [fsq (fsub (vx XYZ) (x4 xyzt));
                 fsq (fsub (vy XYZ) (y4 xyzt));
                 fsq (fsub (vz XYZ) (z4 xyzt))]).

(** [np.append((xyzt[:3] - XYZ) / rho, [c])] *)
Definition design_row (c : Z) (xyzt : vec4 F) (XYZ : vec3 F) (rho : F) : list F :=
  [fdiv (fsub (x4 xyzt) (vx XYZ)) rho;
   fdiv (fsub (y4 xyzt) (vy XYZ)) rho;
   fdiv (fsub (z4 xyzt) (vz XYZ)) rho;
   of_int c].

(** The skeleton both solvers share:
<<
    for itr in itrs:
        (st, x_hat) = body(st)
        if delta(x_hat) < threshold: break
        st = after(st, x_hat)
>>
    It marks every entry into the body and every correction computed. *)
Fixpoint for_break {St : Type} (body : St -> M F (St * vec4 F))
    (threshold : F) (after : St -> vec4 F -> St)
    (itrs : list nat) (st : St) : M F (St * loop_exit) :=
  match itrs with
  | [] => ret (st, RanOut)
  | itr :: rest =>
      emit (Iteration itr) ;;;
      r <- body st ;;
      emit (Correction (snd r)) ;;;
      if flt (delta (snd r)) threshold then ret (fst r, Broke)
      else for_break body threshold after rest (after (fst r) (snd r))
  end.

End Vectors.

Section NormalEquations.
Context {F : Type} `{Float F} `{!Collaborators F}.

(** [x_hat_matrix = ((AT * A).I * AT * l)] with [l] the transposed
    one-row matrix of the residuals, then
    [x_hat = x_hat_matrix.flatten().getA()[0]] and [x_hat[3] /= c]. *)
Definition x_hat_of (c : Z) (A AT : list (list F)) (l : list F) : res (vec4 F) :=
  match matrix_inverse (mmul AT A) with
  | Raise e => Raise e
  | Ok Q =>
      match flatten (mmul (mmul Q AT) (transpose [l])) with
      | [x0; x1; x2; x3] => Ok (V4 x0 x1 x2 (fdiv x3 (of_int c)))
      | _ => Raise ValueError
      end
  end.

End NormalEquations.

(** ** [proto/least_squares.py] *)

Module LeastSquares.
Section Solver.
Context {F : Type} `{Float F} `{!Collaborators F}.

(** A broadcast ephemeris record ([NavGPS] of [parse_rinex]): its reference
  time and the two evaluators the solver calls. *)
Record NavGPS : Type := {
t_oe : F;
eph2pos : F -> vec3 F;
time_offset : F -> F
}.

(** One epoch of observations ([ObsGPS] of [parse_rinex]). *)
Record ObsGPS : Type := {
date : F;
PRN_number : list string;
obs_data : list (string * list (option F));   (* code -> one cell per satellite *)
prn : string -> nat                           (* the method [obs.prn(r)] *)
}.

Definition c : Z := 299792428.      (* speed of light *)
Definition elev_mask : Z := 8.      (* satellite elevation mask *)

(** [diff_array = [abs(n.t_oe - t) for n in nav_array]] *)
Definition diff_array (t : F) (nav_array : list NavGPS) : list F :=
map (fun n => fabs (fsub (t_oe n) t)) nav_array.

(** [nav_array[diff_array.index(min(diff_array))]] *)
Definition nav_nearest_in_time (t : F) (nav_array : list NavGPS) : res NavGPS :=
match py_min (diff_array t nav_array) with
| Raise e => Raise e
| Ok m =>
    match py_index m (diff_array t nav_array) with
    | Raise e => Raise e
    | Ok i => py_getitem nav_array i
    end
end.

(** [distance(R1, R2)] *)
Definition distance (R1 R2 : list F) : F :=
fsqrt (py_sum (map (fun p => fsq (fsub (fst p) (snd p))) (combine R1 R2))).

(** [obs.obs_data[code][obs.prn(r)]] *)
Definition cell (obs : ObsGPS) (code r : string) : res (option F) :=
match dict_get (obs_data obs) code with
| Raise e => Raise e
| Ok col => py_getitem col (prn obs r)
end.

(** [obs.obs_data['C1'][obs.prn(r)] and obs.obs_data['P2'][obs.prn(r)]
   and ('G' in r)], with the short cut of [and]. *)
Definition usable (obs : ObsGPS) (r : string) : res bool :=
match cell obs "C1" r with
| Raise e => Raise e
| Ok c1 =>
    if truthy c1 then
      match cell obs "P2" r with
      | Raise e => Raise e
      | Ok p2 => if truthy p2 then Ok (char_in "G"%char r) else Ok false
      end
    else Ok false
end.

(** [len(init_pos)] is non-zero and the satellite is below the mask. *)
Definition below_mask (init_pos : option (vec3 F)) (now : F) (nnt : NavGPS) : bool :=
match init_pos with
| None => false
| Some p =>
    let sat_coord := eph2pos nnt now in
    flt (sat_elev true (list3 p) sat_coord) (of_int elev_mask)
end.

(** The satellite [r] passes every test of the loop below and gets the
  record [nnt]. *)
Definition admitted (obs : ObsGPS) (navs : list (string * list NavGPS))
  (init_pos : option (vec3 F)) (r : string) (nnt : NavGPS) : Prop :=
usable obs r = Ok true /\
(exists nav_array, dict_get navs r = Ok nav_array /\
                   nav_nearest_in_time (date obs) nav_array = Ok nnt) /\
below_mask init_pos (date obs) nnt = false.

(** The loop [for r in obs.PRN_number], [sats] being what was collected
  so far. *)
Fixpoint select_sats (obs : ObsGPS) (navs : list (string * list NavGPS))
  (init_pos : option (vec3 F)) (prns : list string)
  (sats : list (string * NavGPS)) : M F (list (string * NavGPS)) :=
match prns with
| [] => ret sats
| r :: rest =>
    ok <- lift (usable obs r) ;;
    if ok : bool then
      nav_array <- lift (dict_get navs r) ;;
      nnt <- lift (nav_nearest_in_time (date obs) nav_array) ;;
      if below_mask init_pos (date obs) nnt
      then select_sats obs navs init_pos rest sats
      else select_sats obs navs init_pos rest (sats ++ [(r, nnt)])
    else select_sats obs navs init_pos rest sats
end.

(** One pass of the body of that loop, on the satellite [r]: an exception,
    no entry (a failed test or [continue]), or the record of the new
    entry. *)
Definition examine (obs : ObsGPS) (navs : list (string * list NavGPS))
  (init_pos : option (vec3 F)) (r : string) : res (option NavGPS) :=
match usable obs r with
| Raise e => Raise e
| Ok false => Ok None
| Ok true =>
    match dict_get navs r with
    | Raise e => Raise e
    | Ok nav_array =>
        match nav_nearest_in_time (date obs) nav_array with
        | Raise e => Raise e
        | Ok nnt => if below_mask init_pos (date obs) nnt then Ok None else Ok (Some nnt)
        end
    end
end.

(** The entries the loop adds for the satellites [prns], when no pass
    raises. *)
Definition entries (obs : ObsGPS) (navs : list (string * list NavGPS))
  (init_pos : option (vec3 F)) (prns : list string) : list (string * NavGPS) :=
flat_map (fun r => match examine obs navs init_pos r with
                   | Ok (Some nnt) => [(r, nnt)]
                   | _ => []
                   end) prns.

(** [P = np.array([obs.obs_data['C1'][obs.prn(s[0])] for s in sats])] *)
Fixpoint pseudoranges (obs : ObsGPS) (sats : list (string * NavGPS)) : res (list F) :=
match sats with
| [] => Ok []
| s :: rest =>
    match cell obs "C1" (fst s) with
    | Raise e => Raise e
    | Ok None => Raise TypeError
    | Ok (Some p) =>
        match pseudoranges obs rest with
        | Raise e => Raise e
        | Ok ps => Ok (p :: ps)
        end
    end
end.

(** [np.array([s[1].eph2pos(t) for s in sats])] *)
Definition positions (sats : list (string * NavGPS)) (t : F) : list (vec3 F) :=
map (fun s => eph2pos (snd s) t) sats.

(** What the loop body reads and writes. *)
Record locals : Type := {
xyzt : vec4 F;
XYZs : list (vec3 F);
A_AT : option (list (list F) * list (list F))   (* [A], [AT]; unbound before the loop *)
}.

(** One entry of the l-vector:
  [P[i] - rho[i] + c * s[1].time_offset(now + xyzt[3])
     - tropmodel(lla, sat_elev(xyzt[:3], XYZs[i], deg=False), vmf_coeffs)] *)
Definition residual (now : F) (vmf_coeffs : list F) (xyzt : vec4 F) (lla : F * F * F)
  (s : string * NavGPS) (P_i rho_i : F) (XYZ_i : vec3 F) : F :=
fsub (fadd (fsub P_i rho_i)
           (fmul (of_int c) (time_offset (snd s) (fadd now (t4 xyzt)))))
     (tropmodel lla (sat_elev false (list3 (firstn3 xyzt)) XYZ_i) vmf_coeffs).

(** [[... for i, s in enumerate(sats)]] over [P[i]], [rho[i]], [XYZs[i]] *)
Fixpoint l_vector (now : F) (vmf_coeffs : list F) (xyzt : vec4 F) (lla : F * F * F)
  (sats : list (string * NavGPS)) (P rho : list F) (XYZs : list (vec3 F)) : list F :=
match sats, P, rho, XYZs with
| s :: sats', P_i :: P', rho_i :: rho', XYZ_i :: XYZs' =>
    residual now vmf_coeffs xyzt lla s P_i rho_i XYZ_i
      :: l_vector now vmf_coeffs xyzt lla sats' P' rho' XYZs'
| _, _, _, _ => []
end.

(** [rho]: the geometric ranges from the current estimate. *)
Definition rho_of (st : locals) : list F :=
map (geometric_range (xyzt st)) (XYZs st).

(** [l], before it is made a column. *)
Definition l_of (now : F) (vmf_coeffs : list F)
  (sats : list (string * NavGPS)) (P : list F) (st : locals) : list F :=
let lla := ecef_to_lat_lon_alt (list4 (xyzt st)) in
l_vector now vmf_coeffs (xyzt st) lla sats P (rho_of st) (XYZs st).

(** [A = np.matrix([np.append((xyzt[:3] - XYZs[i]) / rho[i], [c]) ...])] *)
Definition A_of (st : locals) : list (list F) :=
map (fun p => design_row c (xyzt st) (fst p) (snd p))
    (combine (XYZs st) (rho_of st)).

(** The body of [for itr in range(10)] up to [xyzt += x_hat]. *)
Definition iteration (now : F) (vmf_coeffs : list F)
  (sats : list (string * NavGPS)) (P : list F) (st : locals)
  : M F (locals * vec4 F) :=
let l := l_of now vmf_coeffs sats P st in
let A := A_of st in
let AT := transpose A in
x_hat <- lift (x_hat_of c A AT l) ;;
ret ({| xyzt := vadd4 (xyzt st) x_hat; XYZs := XYZs st; A_AT := Some (A, AT) |},
     x_hat).

(** [XYZs = np.array([s[1].eph2pos(now + x_hat[3]) for s in sats])] *)
Definition reevaluate (now : F) (sats : list (string * NavGPS))
  (st : locals) (x_hat : vec4 F) : locals :=
{| xyzt := xyzt st;
   XYZs := positions sats (fadd now (t4 x_hat));
   A_AT := A_AT st |}.

(** [xyzt = [1e-10, 1e-10, 1e-10, 0.]], or [init_pos + [0.]]. *)
Definition initial_point (init_pos : option (vec3 F)) : vec4 F :=
match init_pos with
| None => V4 f1em10 f1em10 f1em10 zero
| Some p => V4 (vx p) (vy p) (vz p) zero
end.

Definition gauss_newton (now : F) (vmf_coeffs : list F)
  (sats : list (string * NavGPS)) (P : list F) (st : locals)
  : M F (locals * loop_exit) :=
for_break (iteration now vmf_coeffs sats P) (of_int 1)
          (reevaluate now sats) (range 10) st.

(** What follows the loop: the geodetic position and the rotation [R] are
  computed and dropped, [Q = (AT * A).I] is computed, [xyzt[:3]] is
  returned. *)
Definition finish (st : locals) : M F (option (vec3 F)) :=
match A_AT st with
| None => raise UnboundLocalError
| Some (A, AT) =>
    Q <- lift (matrix_inverse (mmul AT A)) ;;
    ret (Some (firstn3 (xyzt st)))
end.

(** [least_squares(obs, navs, init_pos, vmf_coeffs)]; [None] stands for the
  default [init_pos=''] and for the returned [None]. *)
Definition least_squares (obs : ObsGPS) (navs : list (string * list NavGPS))
  (init_pos : option (vec3 F)) (vmf_coeffs : list F) : M F (option (vec3 F)) :=
let now := date obs in
sats <- select_sats obs navs init_pos (PRN_number obs) [] ;;
if (3 <? List.length sats)%nat then
  P <- lift (pseudoranges obs sats) ;;
  let st0 := {| xyzt := initial_point init_pos;
                XYZs := positions sats now;
                A_AT := None |} in
  r <- gauss_newton now vmf_coeffs sats P st0 ;;
  finish (fst r)
else
  emit (WarnTooFew (List.length sats)) ;;;
  ret None.

End Solver.

Arguments NavGPS F : clear implicits.
Arguments ObsGPS F : clear implicits.
Arguments locals F : clear implicits.

End LeastSquares.

(** ** [proto/rover_position.py] *)

(** [datetime] values: the epoch of an observation, the date of a record. *)
Class DateTime (T F : Type) : Type := {
  total_seconds : T -> T -> F;   (* [(a - b).total_seconds()] *)
  plus_seconds : T -> F -> T     (* [t + dt.timedelta(seconds=x)] *)
}.

Module RoverPosition.
Section Solver.
Context {F : Type} `{Float F} `{!Collaborators F} {T : Type} `{!DateTime T F}.

Record NavGPS : Type := {
date : T;
utc2gps : T -> T;
eph2pos : T -> vec3 F;
time_offset : T -> F
}.

Record ObsGPS : Type := {
obs_date : T;                                 (* [obs.date] *)
PRN_number : list string;
obs_data : list (string * list (option F));
ionofree_pseudorange : string -> F            (* the method of that name *)
}.

(** The argument [init_pos]: the default [''], a list [[x, y, z]] given by
  a caller, or the array [xyzt] the function passes to itself. *)
Inductive init_arg : Type :=
| NoInit
| InitList (p : vec3 F)
| InitArray (a : vec4 F).

Definition c : Z := 299792428.      (* speed of light *)
Definition elev_mask : Z := 10.     (* satellite elevation mask *)

(** [len(init_pos)] as a truth value *)
Definition given (init_pos : init_arg) : bool :=
match init_pos with
| NoInit => false
| _ => true
end.

(** [[abs((n.date - n.utc2gps(t)).total_seconds()) for n in nav_array]] *)
Definition diff_array (t : T) (nav_array : list NavGPS) : list F :=
map (fun n => fabs (total_seconds (date n) (utc2gps n t))) nav_array.

Definition nav_nearest_in_time (t : T) (nav_array : list NavGPS) : res NavGPS :=
match py_min (diff_array t nav_array) with
| Raise e => Raise e
| Ok m =>
    match py_index m (diff_array t nav_array) with
    | Raise e => Raise e
    | Ok i => py_getitem nav_array i
    end
end.

(** [obs.obs_data[code][i]] *)
Definition cell (obs : ObsGPS) (code : string) (i : nat) : res (option F) :=
match dict_get (obs_data obs) code with
| Raise e => Raise e
| Ok col => py_getitem col i
end.

(** [obs.obs_data['C1'][i] and obs.obs_data['P2'][i] and 'G' in r] *)
Definition usable (obs : ObsGPS) (i : nat) (r : string) : res bool :=
match cell obs "C1" i with
| Raise e => Raise e
| Ok c1 =>
    if truthy c1 then
      match cell obs "P2" i with
      | Raise e => Raise e
      | Ok p2 => if truthy p2 then Ok (char_in "G"%char r) else Ok false
      end
    else Ok false
end.

Definition observer (init_pos : init_arg) : list F :=
match init_pos with
| NoInit => []
| InitList p => list3 p
| InitArray a => list4 a
end.

Definition below_mask (init_pos : init_arg) (now : T) (nnt : NavGPS) : bool :=
if given init_pos then
  let sat_coord := eph2pos nnt now in
  flt (sat_elev true (observer init_pos) sat_coord) (of_int elev_mask)
else false.

(** The satellite [r], met at index [i], passes every test of the loop
  below and gets the record [nnt]. *)
Definition admitted (obs : ObsGPS) (navs : list (string * list NavGPS))
  (init_pos : init_arg) (i : nat) (r : string) (nnt : NavGPS) : Prop :=
usable obs i r = Ok true /\
(exists nav_array, dict_get navs r = Ok nav_array /\
                   nav_nearest_in_time (obs_date obs) nav_array = Ok nnt) /\
below_mask init_pos (obs_date obs) nnt = false.

(** The loop [for i, r in enumerate(obs.PRN_number)] from index [i] on. *)
Fixpoint select_sats (obs : ObsGPS) (navs : list (string * list NavGPS))
  (init_pos : init_arg) (i : nat) (prns : list string)
  (sats : list (string * NavGPS)) : M F (list (string * NavGPS)) :=
match prns with
| [] => ret sats
| r :: rest =>
    ok <- lift (usable obs i r) ;;
    if ok : bool then
      nav_array <- lift (dict_get navs r) ;;
      nnt <- lift (nav_nearest_in_time (obs_date obs) nav_array) ;;
      if below_mask init_pos (obs_date obs) nnt
      then emit (PrintExcluded r) ;;;
           select_sats obs navs init_pos (S i) rest sats
      else select_sats obs navs init_pos (S i) rest (sats ++ [(r, nnt)])
    else select_sats obs navs init_pos (S i) rest sats
end.

(** One pass of the body of that loop, on the satellite [r] met at index
    [i]: an exception, or one of three ends. *)
Inductive verdict : Type :=
| Skipped                  (* a test of the [if] failed *)
| Masked                   (* "Satellite r excluded", [continue] *)
| Entered (nnt : NavGPS).  (* [sats += [(r, nnt)]] *)

Definition examine (obs : ObsGPS) (navs : list (string * list NavGPS))
  (init_pos : init_arg) (i : nat) (r : string) : res verdict :=
match usable obs i r with
| Raise e => Raise e
| Ok false => Ok Skipped
| Ok true =>
    match dict_get navs r with
    | Raise e => Raise e
    | Ok nav_array =>
        match nav_nearest_in_time (obs_date obs) nav_array with
        | Raise e => Raise e
        | Ok nnt =>
            if below_mask init_pos (obs_date obs) nnt then Ok Masked else Ok (Entered nnt)
        end
    end
end.

(** The entries the loop adds, and the lines it prints, for the satellites
    [prns] met from index [i] on, when no pass raises. *)
Fixpoint entries (obs : ObsGPS) (navs : list (string * list NavGPS))
  (init_pos : init_arg) (i : nat) (prns : list string) : list (string * NavGPS) :=
match prns with
| [] => []
| r :: rest =>
    match examine obs navs init_pos i r with
    | Ok (Entered nnt) => (r, nnt) :: entries obs navs init_pos (S i) rest
    | _ => entries obs navs init_pos (S i) rest
    end
end.

Fixpoint exclusions (obs : ObsGPS) (navs : list (string * list NavGPS))
  (init_pos : init_arg) (i : nat) (prns : list string) : list (event F) :=
match prns with
| [] => []
| r :: rest =>
    match examine obs navs init_pos i r with
    | Ok Masked => PrintExcluded r :: exclusions obs navs init_pos (S i) rest
    | _ => exclusions obs navs init_pos (S i) rest
    end
end.

(** [P = np.array([obs.ionofree_pseudorange(s[0]) for s in sats])] *)
Definition pseudoranges (obs : ObsGPS) (sats : list (string * NavGPS)) : list F :=
map (fun s => ionofree_pseudorange obs (fst s)) sats.

Definition positions (sats : list (string * NavGPS)) (t : T) : list (vec3 F) :=
map (fun s => eph2pos (snd s) t) sats.

Record locals : Type := {
xyzt : vec4 F;
XYZs : list (vec3 F)
}.

(** [P[i] - rho[i] + c*s[1].time_offset(now+dt.timedelta(seconds=xyzt[3]))];
  the line with [tropmodel] is commented out ("TODO: tropomodel"). *)
Definition residual (now : T) (xyzt : vec4 F)
  (s : string * NavGPS) (P_i rho_i : F) : F :=
fadd (fsub P_i rho_i)
     (fmul (of_int c) (time_offset (snd s) (plus_seconds now (t4 xyzt)))).

Fixpoint l_vector (now : T) (xyzt : vec4 F)
  (sats : list (string * NavGPS)) (P rho : list F) : list F :=
match sats, P, rho with
| s :: sats', P_i :: P', rho_i :: rho' =>
    residual now xyzt s P_i rho_i :: l_vector now xyzt sats' P' rho'
| _, _, _ => []
end.

Definition rho_of (st : locals) : list F :=
map (geometric_range (xyzt st)) (XYZs st).

Definition A_of (st : locals) : list (list F) :=
map (fun p => design_row c (xyzt st) (fst p) (snd p))
    (combine (XYZs st) (rho_of st)).

Definition l_of (now : T) (sats : list (string * NavGPS)) (P : list F)
  (st : locals) : list F :=
l_vector now (xyzt st) sats P (rho_of st).

(** The body of [for itr in range(10)] up to [xyzt += x_hat]; [lla] is
  computed and not used. *)
Definition iteration (now : T) (sats : list (string * NavGPS)) (P : list F)
  (st : locals) : M F (locals * vec4 F) :=
let A := A_of st in
let AT := transpose A in
let l := l_of now sats P st in
x_hat <- lift (x_hat_of c A AT l) ;;
emit (PrintCorrection x_hat) ;;;
ret ({| xyzt := vadd4 (xyzt st) x_hat; XYZs := XYZs st |}, x_hat).

(** [XYZs = np.array([s[1].eph2pos(now+dt.timedelta(seconds=x_hat[3])) for s in sats])] *)
Definition reevaluate (now : T) (sats : list (string * NavGPS))
  (st : locals) (x_hat : vec4 F) : locals :=
{| xyzt := xyzt st; XYZs := positions sats (plus_seconds now (t4 x_hat)) |}.

(** [xyzt = [1e-10,1e-10,1e-10,0.]], or [init_pos + [0.]]: a list grows by
  one item, an array of four has [0.] added to each item. *)
Definition initial_point (init_pos : init_arg) : vec4 F :=
match init_pos with
| NoInit => V4 f1em10 f1em10 f1em10 zero
| InitList p => V4 (vx p) (vy p) (vz p) zero
| InitArray a => V4 (fadd (x4 a) zero) (fadd (y4 a) zero)
                    (fadd (z4 a) zero) (fadd (t4 a) zero)
end.

Definition gauss_newton (now : T) (sats : list (string * NavGPS)) (P : list F)
  (st : locals) : M F (locals * loop_exit) :=
for_break (iteration now sats P) (of_int 10) (reevaluate now sats) (range 10) st.

(** The function down to the end of its loop: [None] where it returns
  [None], the final [xyzt] otherwise. *)
Definition solve (obs : ObsGPS) (navs : list (string * list NavGPS))
  (init_pos : init_arg) : M F (option (vec4 F)) :=
let now := obs_date obs in
sats <- select_sats obs navs init_pos 0 (PRN_number obs) [] ;;
if (3 <? List.length sats)%nat then
  let P := pseudoranges obs sats in
  let st0 := {| xyzt := initial_point init_pos; XYZs := positions sats now |} in
  r <- gauss_newton now sats P st0 ;;
  ret (Some (xyzt (fst r)))
else if ((List.length sats <=? 3)%nat && given init_pos)%bool then
  emit (WarnTooFew (List.length sats)) ;;;
  ret None
else
  emit WarnBadMeasurement ;;;
  ret None.

(** [least_squares(obs, navs, init_pos)], which ends
<<
  if len(init_pos): return xyzt
  else: return least_squares(obs, navs, xyzt)
>>
  [depth] is the number of nested calls the interpreter still allows. *)
Fixpoint least_squares_at (depth : nat) (obs : ObsGPS)
  (navs : list (string * list NavGPS)) (init_pos : init_arg)
  : M F (option (vec4 F)) :=
match depth with
| O => raise RecursionError
| S depth' =>
    r <- solve obs navs init_pos ;;
    match r with
    | None => ret None
    | Some xyzt =>
        if given init_pos then ret (Some xyzt)
        else least_squares_at depth' obs navs (InitArray xyzt)
    end
end.

(** CPython's default recursion limit. *)
Definition recursion_limit : nat := 1000.

Definition least_squares (obs : ObsGPS) (navs : list (string * list NavGPS))
  (init_pos : init_arg) : M F (option (vec4 F)) :=
least_squares_at recursion_limit obs navs init_pos.

End Solver.

Arguments NavGPS F T : clear implicits.
Arguments ObsGPS F T : clear implicits.
Arguments init_arg F : clear implicits.
Arguments verdict F T : clear implicits.
Arguments locals F : clear implicits.

End RoverPosition.

(** ** Running the solvers: exact rational arithmetic *)

Module Rational.

(** The square root, exact on squares of rationals (rounded down to a
    multiple of [1/den] elsewhere). *)
Definition Qsqrt (q : Q) : Q :=
  Qred (Z.sqrt (Qnum q * Zpos (Qden q)) # Qden q).

Definition Qltb (x y : Q) : bool := negb (Qle_bool y x).

#[export] Instance Float_Q : Float Q := {
  fadd x y := Qred (x + y);
  fsub x y := Qred (x - y);
  fmul x y := Qred (x * y);
  fdiv x y := Qred (x / y);
  fsqrt := Qsqrt;
  fabs x := Qred (Qabs x);
  flt := Qltb;
  feq := Qeq_bool;
  of_int := inject_Z;
  f1em10 := 1 # 10000000000
}.

#[export] Instance DateTime_Q : DateTime Q Q := {
  total_seconds a b := Qred (a - b);
  plus_seconds t x := Qred (t + x)
}.

(** Gauss-Jordan elimination on the rows of [m | I]. *)
Fixpoint split_pivot (col : nat) (rows : list (list Q))
    : option (list Q * list (list Q)) :=
  match rows with
  | [] => None
  | r :: rs =>
      if Qeq_bool (nth col r 0) 0 then
        match split_pivot col rs with
        | Some (p, rest) => Some (p, r :: rest)
        | None => None
        end
      else Some (r, rs)
  end.

Definition normalise (col : nat) (row : list Q) : list Q :=
  map (fun a => Qred (a / nth col row 0)) row.

Definition eliminate (col : nat) (piv row : list Q) : list Q :=
  map (fun ab => Qred (fst ab - nth col row 0 * snd ab)) (combine row piv).

Fixpoint gauss_jordan (cols : list nat) (done todo : list (list Q))
    : option (list (list Q)) :=
  match cols with
  | [] => Some done
  | col :: cols' =>
      match split_pivot col todo with
      | None => None
      | Some (p, rest) =>
          let p' := normalise col p in
          gauss_jordan cols' (map (eliminate col p') done ++ [p'])
                       (map (eliminate col p') rest)
      end
  end.

Definition unit_row (n i : nat) : list Q :=
  map (fun j => if Nat.eqb i j then 1 else 0) (range n).

Definition Qinverse (m : list (list Q)) : res (list (list Q)) :=
  let n := List.length m in
  let augmented := map (fun ir => snd ir ++ unit_row n (fst ir)) (combine (range n) m) in
  match gauss_jordan (range n) [] augmented with
  | Some rows => Ok (map (skipn n) rows)
  | None => Raise LinAlgError
  end.

End Rational.

(** ** Running the solvers: binary64 arithmetic *)

Module Binary64.

(** numpy's [float64] is IEEE 754 binary64 with rounding to nearest, ties
    to even: the primitive type of the kernel. *)
Abbreviation binary64 := PrimFloat.float (only parsing).

(** An [int] becomes the nearest binary64 number. *)
Definition of_Z (z : Z) : binary64 :=
  FloatOps.SF2Prim (SpecFloat.binary_normalize FloatOps.prec FloatOps.emax z 0 false).

#[export] Instance Float_binary64 : Float binary64 := {
  fadd := PrimFloat.add;
  fsub := PrimFloat.sub;
  fmul := PrimFloat.mul;
  fdiv := PrimFloat.div;
  fsqrt := PrimFloat.sqrt;
  fabs := PrimFloat.abs;
  flt := PrimFloat.ltb;
  feq := PrimFloat.eqb;
  of_int := of_Z;
  f1em10 := PrimFloat.div (of_Z 1) (of_Z 10000000000)
}.

(** Gauss-Jordan elimination on the rows of [m | I], the pivot of a column
    being its entry of largest magnitude.  numpy's LAPACK routine orders its
    operations differently, so its last bits can differ. *)
Definition magnitude (col : nat) (row : list binary64) : binary64 :=
  PrimFloat.abs (nth col row (of_Z 0)).

Fixpoint largest_pivot (col : nat) (rows : list (list binary64))
    : option (list binary64 * list (list binary64)) :=
  match rows with
  | [] => None
  | r :: rs =>
      match largest_pivot col rs with
      | Some (p, rest) =>
          if PrimFloat.ltb (magnitude col r) (magnitude col p)
          then Some (p, r :: rest)
          else Some (r, p :: rest)
      | None => Some (r, [])
      end
  end.

Definition scale (col : nat) (row : list binary64) : list binary64 :=
  map (fun a => PrimFloat.div a (nth col row (of_Z 0))) row.

Definition reduce (col : nat) (piv row : list binary64) : list binary64 :=
  map (fun ab => PrimFloat.sub (fst ab) (PrimFloat.mul (nth col row (of_Z 0)) (snd ab)))
      (combine row piv).

Fixpoint elimination (cols : list nat) (done todo : list (list binary64))
    : option (list (list binary64)) :=
  match cols with
  | [] => Some done
  | col :: cols' =>
      match largest_pivot col todo with
      | None => None
      | Some (p, rest) =>
          if PrimFloat.eqb (nth col p (of_Z 0)) (of_Z 0) then None
          else
            let p' := scale col p in
            elimination cols' (map (reduce col p') done ++ [p'])
                        (map (reduce col p') rest)
      end
  end.

Definition identity_row (n i : nat) : list binary64 :=
  map (fun j => if Nat.eqb i j then of_Z 1 else of_Z 0) (range n).

Definition inverse (m : list (list binary64)) : res (list (list binary64)) :=
  let n := List.length m in
  let augmented :=
    map (fun ir => snd ir ++ identity_row n (fst ir)) (combine (range n) m) in
  match elimination (range n) [] augmented with
  | Some rows => Ok (map (skipn n) rows)
  | None => Raise LinAlgError
  end.

End Binary64.

(** ** Sample epochs

    Four satellites that stand still, each with a clock that drifts
    linearly, a fifth one low over the horizon, and stand-ins for the
    collaborators.  All distances from the starting point are rational, so
    the rational run of the solver is exact. *)

Module Sample.
Import Rational.

(** Stand-in for [sat_elev]: 5 degrees for a satellite with a small [z],
    45 degrees otherwise. *)
Definition elevation (deg : bool) (observer : list Q) (sat : vec3 Q) : Q :=
  if Qltb (vz sat) 1000000 then 5 else 45.

(** Stand-ins: no geodesy, a constant tropospheric delay of 2 m, the exact
    inverse. *)
#[export] Instance collaborators : Collaborators Q := {
  ecef_to_lat_lon_alt _ := (0, 0, 0);
  sat_elev := elevation;
  tropmodel _ _ _ := 2;
  matrix_inverse := Qinverse
}.

Definition tiny : Q := 1 # 10000000000.
Definition now : Q := 100000.

(** A position given by its offset from the default starting point. *)
Definition sat (x y z : Q) : vec3 Q :=
  V3 (Qred (x + tiny)) (Qred (y + tiny)) (Qred (z + tiny)).

Definition S1 : vec3 Q := sat 4000000 2000000 4000000.       (* range  6000 km *)
Definition S2 : vec3 Q := sat 4000000 8000000 8000000.       (* range 12000 km *)
Definition S3 : vec3 Q := sat 4000000 6000000 12000000.      (* range 14000 km *)
Definition S4 : vec3 Q := sat 4000000 12000000 18000000.     (* range 22000 km *)
Definition S5 : vec3 Q := sat 20000000 0 0.                  (* low *)

(** Four more, all of them low. *)
Definition L1 : vec3 Q := sat 200000 200000 100000.          (* range  300 km *)
Definition L2 : vec3 Q := sat 200000 600000 300000.          (* range  700 km *)
Definition L3 : vec3 Q := sat 200000 400000 400000.          (* range  600 km *)
Definition L4 : vec3 Q := sat 200000 1400000 500000.         (* range 1500 km *)

Definition names : list string := ["G01"; "G02"; "G03"; "G04"; "G05"].

Fixpoint position_in (l : list string) (r : string) : nat :=
  match l with
  | [] => 0
  | r' :: l' => if String.eqb r' r then 0 else S (position_in l' r)
  end.

(** Code ranges that make the first correction vanish (range + 2 m). *)
Definition P_settled : list (option Q) :=
  [Some 6000002; Some 12000002; Some 14000002; Some 22000002; Some 20000002].

(** Code ranges that make the corrections alternate between
    [(8000 km, 0, 0)] and its opposite. *)
Definition P_swinging : list (option Q) :=
  [Some (901377290 # 3); Some (927377290 # 3);
   Some (2180547010 # 7); Some (3523716730 # 11)].

(** Code ranges to the low satellites that make the corrections
    alternate between [(400 km, 0, 0)] and its opposite. *)
Definition P_low : list (option Q) :=
  [Some (899477284 # 3); Some (2102646996 # 7);
   Some (900777284 # 3); Some (903717284 # 3)].

(** The fifth cell of P2 is blank. *)
Definition P2_blank : list (option Q) :=
  [Some 6000002; Some 12000002; Some 14000002; Some 22000002; None].

Module LS.
Import LeastSquares.

Definition record (t : Q) (S : vec3 Q) : NavGPS Q :=
  {| t_oe := t;
     eph2pos := fun _ => S;
     time_offset := fun t' => Qred (- (2 * 299792428) * (t' - now)) |}.

Definition navs : list (string * list (NavGPS Q)) :=
  [("G01", [record now S1]); ("G02", [record now S2]);
   ("G03", [record now S3]); ("G04", [record now S4]);
   ("G05", [record now S5])].

(** Same table, no record for G02. *)
Definition navs_gap : list (string * list (NavGPS Q)) :=
  [("G01", [record now S1]); ("G02", []);
   ("G03", [record now S3]); ("G04", [record now S4])].

Definition epoch (prns : list string) (C1 P2 : list (option Q)) : ObsGPS Q :=
  {| date := now;
     PRN_number := prns;
     obs_data := [("C1", C1); ("P2", P2)];
     prn := position_in names |}.

Definition obs_settled : ObsGPS Q := epoch (firstn 4 names) P_settled P_settled.
Definition obs_swinging : ObsGPS Q := epoch (firstn 4 names) P_swinging P_swinging.
Definition obs_three : ObsGPS Q := epoch (firstn 3 names) P_settled P_settled.
Definition obs_five : ObsGPS Q := epoch names P_settled P_settled.
Definition obs_blank_P2 : ObsGPS Q := epoch names P_settled P2_blank.

Definition origin : vec3 Q := V3 tiny tiny tiny.

(** Two records of one satellite, two hours before and one hour after
    the epoch [t]. *)
Definition two_records (t : Q) : list (NavGPS Q) :=
  [record (fsub t 7200) S1; record (fadd t 3600) S1].

(** The working set of the four-satellite epochs, their code ranges,
    and the state the loop starts in without an a-priori position. *)
Definition working_set : list (string * NavGPS Q) :=
  [("G01", record now S1); ("G02", record now S2);
   ("G03", record now S3); ("G04", record now S4)].

Definition ranges_settled : list Q := [6000002; 12000002; 14000002; 22000002].

Definition ranges_swinging : list Q :=
  [901377290 # 3; 927377290 # 3; 2180547010 # 7; 3523716730 # 11].

Definition start : locals Q :=
  {| xyzt := V4 tiny tiny tiny 0; XYZs := [S1; S2; S3; S4]; A_AT := None |}.

(** The result of a computation that is known to complete. *)
Definition value {A} (m : M Q A) (default : A) : A :=
  match snd m with
  | Ok a => a
  | Raise _ => default
  end.

Definition loop_swinging : locals Q * loop_exit :=
  value (gauss_newton now [] working_set ranges_swinging start) (start, Broke).

(** Four satellites in one place: the design matrix has four equal rows. *)
Definition navs_coincident : list (string * list (NavGPS Q)) :=
  [("G01", [record now S1]); ("G02", [record now S1]);
   ("G03", [record now S1]); ("G04", [record now S1])].

Definition working_set_coincident : list (string * NavGPS Q) :=
  [("G01", record now S1); ("G02", record now S1);
   ("G03", record now S1); ("G04", record now S1)].

(** An epoch of satellites that are not GPS, and one without any C1 range. *)
Definition obs_glonass : ObsGPS Q :=
  {| date := now;
     PRN_number := ["R01"; "R02"; "R03"; "R04"];
     obs_data := [("C1", P_settled); ("P2", P_settled)];
     prn := position_in ["R01"; "R02"; "R03"; "R04"] |}.

Definition obs_no_C1 : ObsGPS Q :=
  {| date := now;
     PRN_number := firstn 4 names;
     obs_data := [("C1", [None; Some 0; None; Some 0])];
     prn := position_in names |}.
End LS.

Module Rover.
Import RoverPosition.

Definition record (t : Q) (S : vec3 Q) : NavGPS Q Q :=
  {| date := t;
     utc2gps := fun t' => Qred (t' + 16);
     eph2pos := fun _ => S;
     time_offset := fun t' => Qred (- (2 * 299792428) * (t' - now)) |}.

Definition navs : list (string * list (NavGPS Q Q)) :=
  [("G01", [record now S1]); ("G02", [record now S2]);
   ("G03", [record now S3]); ("G04", [record now S4]);
   ("G05", [record now S5])].

(** The combined code range is taken to be the C1 cell. *)
Definition combined (C1 : list (option Q)) (r : string) : Q :=
  match nth_error C1 (position_in names r) with
  | Some (Some p) => p
  | _ => 0
  end.

Definition epoch (prns : list string) (C1 P2 : list (option Q)) : ObsGPS Q Q :=
  {| obs_date := now;
     PRN_number := prns;
     obs_data := [("C1", C1); ("P2", P2)];
     ionofree_pseudorange := combined C1 |}.

Definition obs_three : ObsGPS Q Q := epoch (firstn 3 names) P_settled P_settled.
Definition obs_five : ObsGPS Q Q := epoch names P_settled P_settled.
Definition origin : vec3 Q := V3 tiny tiny tiny.

Definition working_set : list (string * NavGPS Q Q) :=
  [("G01", record now S1); ("G02", record now S2);
   ("G03", record now S3); ("G04", record now S4)].

Definition ranges_settled : list Q := [6000002; 12000002; 14000002; 22000002].

Definition start : locals Q :=
  {| xyzt := V4 tiny tiny tiny 0; XYZs := [S1; S2; S3; S4] |}.

(** The epoch of the low satellites, and a call on it without an
    a-priori position. *)
Definition navs_low : list (string * list (NavGPS Q Q)) :=
  [("G01", [record now L1]); ("G02", [record now L2]);
   ("G03", [record now L3]); ("G04", [record now L4])].

Definition obs_low : ObsGPS Q Q := epoch (firstn 4 names) P_low P_low.

Definition run_low : M Q (option (vec4 Q)) :=
  least_squares obs_low navs_low NoInit.
End Rover.

End Sample.

(** ** A sample epoch far from the origin, in binary64

    The a-priori position is [(2^60, 2^60, 2^60)].  From [2^59] to [2^60]
    neighbouring binary64 numbers are 128 m apart, from [2^60] to [2^61]
    256 m: adding a number between -64 and 128 to [2^60] gives [2^60] again.
    Four satellites stand still at 25166 km from that position, between 35
    and 74 degrees above its horizon, with clocks that are not off. *)

Module Distant.
Import Binary64.

(** Stand-in for [sat_elev]: 5 degrees for a satellite less than 1000 km
    above the observer along [z], 45 degrees otherwise. *)
Definition elevation (deg : bool) (observer : list binary64) (sat : vec3 binary64)
    : binary64 :=
  if PrimFloat.ltb (PrimFloat.sub (vz sat) (nth 2 observer (of_Z 0))) (of_Z 1000000)
  then of_Z 5 else of_Z 45.

(** Stand-ins: no geodesy, a constant tropospheric delay of 2 m, the inverse
    by elimination. *)
#[export] Instance collaborators : Collaborators binary64 := {
  ecef_to_lat_lon_alt _ := (of_Z 0, of_Z 0, of_Z 0);
  sat_elev := elevation;
  tropmodel _ _ _ := of_Z 2;
  matrix_inverse := inverse
}.

Definition far : Z := 2 ^ 60.
Definition leg : Z := 2 ^ 23.       (* 8388.608 km *)

Definition a_priori : vec3 binary64 := V3 (of_Z far) (of_Z far) (of_Z far).

(** A position given by its offset from the a-priori position, in legs;
    an offset [(x, y, z)] with [x^2 + y^2 + z^2 = 9] is 3 legs away. *)
Definition sat (x y z : Z) : vec3 binary64 :=
  V3 (of_Z (far + x * leg)) (of_Z (far + y * leg)) (of_Z (far + z * leg)).

Definition now : binary64 := of_Z 100000.

Definition record (S : vec3 binary64) : LeastSquares.NavGPS binary64 :=
  {| LeastSquares.t_oe := now;
     LeastSquares.eph2pos := fun _ => S;
     LeastSquares.time_offset := fun _ => of_Z 0 |}.

Definition navs : list (string * list (LeastSquares.NavGPS binary64)) :=
  [("G01", [record (sat (-1) 2 2)]); ("G02", [record (sat 2 (-1) 2)]);
   ("G03", [record (sat 2 2 1)]); ("G04", [record (sat 1 2 2)])].

Definition epoch (C1 : list Z) : LeastSquares.ObsGPS binary64 :=
  {| LeastSquares.date := now;
     LeastSquares.PRN_number := ["G01"; "G02"; "G03"; "G04"];
     LeastSquares.obs_data := [("C1", map (fun p => Some (of_Z p)) C1);
                               ("P2", map (fun p => Some (of_Z p)) C1)];
     LeastSquares.prn := Sample.position_in Sample.names |}.

(** Code ranges that make every residual vanish (range + 2 m). *)
Definition obs_at_rest : LeastSquares.ObsGPS binary64 :=
  epoch [25165826; 25165826; 25165826; 25165826]%Z.

(** Code ranges that ask for a step of 9 m along [x]: the residuals are
    [3], [-6], [-6] and [-3]. *)
Definition obs_stalled : LeastSquares.ObsGPS binary64 :=
  epoch [25165829; 25165820; 25165820; 25165823]%Z.

(** Two whole calls with the a-priori position. *)
Definition run_at_rest : M binary64 (option (vec3 binary64)) :=
  LeastSquares.least_squares obs_at_rest navs (Some a_priori) [].

Definition run_stalled : M binary64 (option (vec3 binary64)) :=
  LeastSquares.least_squares obs_stalled navs (Some a_priori) [].

End Distant.

(** * Properties *)

(** ** Computations and their logs *)

Section Logs.
Context {F : Type}.

Lemma bind_ok_run {A B} (m : M F A) (k : A -> M F B) l1 a :
  m = (l1, Ok a) -> bind m k = (l1 ++ fst (k a), snd (k a)).
Proof. intros ->. unfold bind. now destruct (k a). Qed.

Lemma bind_lift_ok {A B} (a : A) (k : A -> M F B) :
  bind (lift (Ok a)) k = k a.
Proof. unfold bind, lift. now destruct (k a). Qed.

Lemma iterations_app (l1 l2 : list (event F)) :
  iterations (l1 ++ l2) = (iterations l1 + iterations l2)%nat.
Proof.
  induction l1 as [|e l1 IH]; simpl; [reflexivity|].
  destruct e; simpl; rewrite IH; reflexivity.
Qed.

Lemma corrections_app (l1 l2 : list (event F)) :
  corrections (l1 ++ l2) = corrections l1 ++ corrections l2.
Proof.
  induction l1 as [|e l1 IH]; simpl; [reflexivity|].
  destruct e; simpl; rewrite IH; reflexivity.
Qed.

Lemma printed_app (l1 l2 : list (event F)) :
  printed (l1 ++ l2) = printed l1 ++ printed l2.
Proof.
  induction l1 as [|e l1 IH]; simpl; [reflexivity|].
  destruct e; simpl; rewrite IH; reflexivity.
Qed.

End Logs.

(** ** The loop skeleton *)

Section ForBreak.
Context {F : Type} `{Float F} {St : Type}.
Variable body : St -> M F (St * vec4 F).
Variable threshold : F.
Variable after : St -> vec4 F -> St.

(** The body leaves no bookkeeping marks of its own. *)
Hypothesis body_quiet :
  forall st, iterations (fst (body st)) = 0%nat /\ corrections (fst (body st)) = [].

Lemma for_break_step (itr : nat) (rest : list nat) (st : St) :
  for_break body threshold after (itr :: rest) st =
  match body st with
  | (lb, Raise e) => (Iteration itr :: lb, Raise e)
  | (lb, Ok r) =>
      if flt (delta (snd r)) threshold
      then (Iteration itr :: lb ++ [Correction (snd r)], Ok (fst r, Broke))
      else (Iteration itr :: lb ++ Correction (snd r)
              :: fst (for_break body threshold after rest (after (fst r) (snd r))),
            snd (for_break body threshold after rest (after (fst r) (snd r))))
  end.
Proof.
  simpl. unfold bind, emit, ret.
  destruct (body st) as [lb [r|e]]; simpl; [|reflexivity].
  destruct (flt (delta (snd r)) threshold); simpl.
  - reflexivity.
  - destruct (for_break body threshold after rest (after (fst r) (snd r))) as [lr out].
    reflexivity.
Qed.

Lemma for_break_iterations (itrs : list nat) (st : St) :
  (iterations (fst (for_break body threshold after itrs st)) <= List.length itrs)%nat.
Proof.
  revert st. induction itrs as [|itr rest IH]; intros st.
  - simpl. lia.
  - rewrite for_break_step.
    destruct (body_quiet st) as [Hi _].
    destruct (body st) as [lb [r|e]]; simpl in Hi |- *.
    + destruct (flt (delta (snd r)) threshold); simpl;
        rewrite iterations_app, Hi; simpl.
      * lia.
      * specialize (IH (after (fst r) (snd r))). lia.
    + rewrite Hi. lia.
Qed.

(** What a completed run of the loop has logged. *)
Lemma for_break_ok (itrs : list nat) (st : St) log st' ex :
  for_break body threshold after itrs st = (log, Ok (st', ex)) ->
  iterations log = List.length (corrections log) /\
  match ex with
  | Broke =>
      exists cs x, corrections log = cs ++ [x] /\
        Forall (fun y => flt (delta y) threshold = false) cs /\
        flt (delta x) threshold = true /\
        (List.length cs < List.length itrs)%nat
  | RanOut =>
      List.length (corrections log) = List.length itrs /\
      Forall (fun y => flt (delta y) threshold = false) (corrections log)
  end.
Proof.
  revert st log. induction itrs as [|itr rest IH]; intros st log.
  - simpl. unfold ret. intros Heq. inversion Heq; subst. simpl. auto.
  - rewrite for_break_step.
    destruct (body_quiet st) as [Hi Hc].
    destruct (body st) as [lb [r|e]]; simpl in Hi, Hc; [|discriminate].
    destruct (flt (delta (snd r)) threshold) eqn:Hlt.
    + intros Heq. inversion Heq; subst. simpl.
      rewrite iterations_app, corrections_app, Hi, Hc. simpl. split; [reflexivity|].
      exists [], (snd r). simpl. repeat split; auto. lia.
    + destruct (for_break body threshold after rest (after (fst r) (snd r)))
        as [lr out] eqn:Hrest.
      simpl. intros Heq. inversion Heq; subst.
      destruct (IH _ _ Hrest) as [Hn Hex].
      simpl. rewrite iterations_app, corrections_app, Hi, Hc. simpl.
      split; [now rewrite Hn|].
      destruct ex.
      * destruct Hex as (cs & x & Hcs & Hall & Hx & Hlen).
        exists (snd r :: cs), x. rewrite Hcs. simpl. repeat split; auto. lia.
      * destruct Hex as [Hlen Hall]. split; [now rewrite Hlen|]. auto.
Qed.

(** The estimate a completed run ends with is the one it started with,
    plus every correction, whole. *)
Lemma for_break_estimate (get : St -> vec4 F) :
  (forall st lb st' x, body st = (lb, Ok (st', x)) -> get st' = vadd4 (get st) x) ->
  (forall st x, get (after st x) = get st) ->
  forall itrs st log st' ex,
    for_break body threshold after itrs st = (log, Ok (st', ex)) ->
    get st' = fold_left vadd4 (corrections log) (get st).
Proof.
  intros Hbody Hafter itrs. induction itrs as [|itr rest IH]; intros st log st' ex.
  - simpl. unfold ret. intros Heq. inversion Heq; subst. reflexivity.
  - rewrite for_break_step.
    destruct (body_quiet st) as [_ Hc].
    destruct (body st) as [lb [r|e]] eqn:Hb; simpl in Hc; [|discriminate].
    destruct r as [st1 x]. simpl. pose proof (Hbody _ _ _ _ Hb) as Hst1.
    destruct (flt (delta x) threshold).
    + intros Heq. inversion Heq; subst.
      simpl. rewrite corrections_app, Hc. simpl. now rewrite Hst1.
    + destruct (for_break body threshold after rest (after st1 x)) as [lr out] eqn:Hrest.
      simpl. intros Heq. inversion Heq; subst.
      simpl. rewrite corrections_app, Hc. simpl.
      rewrite (IH _ _ _ _ Hrest), Hafter, Hst1. reflexivity.
Qed.

(** What every iteration establishes and [after] keeps holds at the end. *)
Lemma for_break_invariant (I : St -> Prop) :
  (forall st lb st' x, body st = (lb, Ok (st', x)) -> I st') ->
  (forall st x, I st -> I (after st x)) ->
  forall itrs st log st' ex,
    itrs <> [] ->
    for_break body threshold after itrs st = (log, Ok (st', ex)) ->
    I st'.
Proof.
  intros Hbody Hafter itrs. induction itrs as [|itr rest IH]; intros st log st' ex Hne.
  - congruence.
  - rewrite for_break_step.
    destruct (body st) as [lb [r|e]] eqn:Hb; [|discriminate].
    destruct r as [st1 x]. simpl. pose proof (Hbody _ _ _ _ Hb) as Hst1.
    destruct (flt (delta x) threshold).
    + intros Heq. inversion Heq; subst. exact Hst1.
    + destruct (for_break body threshold after rest (after st1 x)) as [lr out] eqn:Hrest.
      simpl. intros Heq. inversion Heq; subst.
      destruct rest as [|itr' rest'].
      * simpl in Hrest. unfold ret in Hrest. inversion Hrest; subst. auto.
      * eapply IH; [discriminate|exact Hrest].
Qed.

End ForBreak.

(** ** The normal equations *)

Section NormalEquationsFacts.
Context {F : Type} `{Float F} `{!Collaborators F}.

Lemma x_hat_of_ok (c : Z) (A AT : list (list F)) (l : list F) (x_hat : vec4 F) :
  x_hat_of c A AT l = Ok x_hat ->
  exists Q x0 x1 x2 x3,
    matrix_inverse (mmul AT A) = Ok Q /\
    flatten (mmul (mmul Q AT) (transpose [l])) = [x0; x1; x2; x3] /\
    x_hat = V4 x0 x1 x2 (fdiv x3 (of_int c)).
Proof.
  unfold x_hat_of. destruct (matrix_inverse (mmul AT A)) as [Q|e]; [|discriminate].
  destruct (flatten (mmul (mmul Q AT) (transpose [l])))
    as [|x0 [|x1 [|x2 [|x3 [|x5 rest]]]]] eqn:Hflat; try discriminate.
  intros Heq. inversion Heq; subst. exists Q, x0, x1, x2, x3. auto.
Qed.

End NormalEquationsFacts.

(** ** One iteration and the loop of [least_squares.py] *)

Section LeastSquaresLoop.
Context {F : Type} `{Float F} `{!Collaborators F}.
Import LeastSquares.

Lemma ls_iteration_ok now vmf sats P st lb st' x_hat :
  iteration now vmf sats P st = (lb, Ok (st', x_hat)) ->
  lb = [] /\
  x_hat_of c (A_of st) (transpose (A_of st)) (l_of now vmf sats P st) = Ok x_hat /\
  xyzt st' = vadd4 (xyzt st) x_hat /\
  XYZs st' = XYZs st /\
  A_AT st' = Some (A_of st, transpose (A_of st)).
Proof.
  unfold iteration.
  destruct (x_hat_of c (A_of st) (transpose (A_of st)) (l_of now vmf sats P st))
    as [x|e]; simpl; [|discriminate].
  intros Heq. inversion Heq; subst. simpl. auto.
Qed.

Lemma ls_iteration_quiet now vmf sats P st :
  iterations (fst (iteration now vmf sats P st)) = 0%nat /\
  corrections (fst (iteration now vmf sats P st)) = [].
Proof.
  unfold iteration.
  destruct (x_hat_of c (A_of st) (transpose (A_of st)) (l_of now vmf sats P st));
    simpl; auto.
Qed.

Lemma ls_loop_invertible now vmf sats P st log st' ex :
  gauss_newton now vmf sats P st = (log, Ok (st', ex)) ->
  exists A AT Q, A_AT st' = Some (A, AT) /\ matrix_inverse (mmul AT A) = Ok Q.
Proof.
  unfold gauss_newton. intros Hrun.
  eapply for_break_invariant
    with (I := fun s => exists A AT Q, A_AT s = Some (A, AT) /\
                                       matrix_inverse (mmul AT A) = Ok Q);
    [| | |exact Hrun]; [| |discriminate].
  - intros s lb s' x Hb. apply ls_iteration_ok in Hb.
    destruct Hb as (_ & Hx & _ & _ & HA).
    apply x_hat_of_ok in Hx. destruct Hx as (Q & _ & _ & _ & _ & HQ & _).
    eauto.
  - intros s x HI. exact HI.
Qed.

End LeastSquaresLoop.

(** ** One iteration and the loop of [rover_position.py] *)

Section RoverPositionLoop.
Context {F : Type} `{Float F} `{!Collaborators F} {T : Type} `{!DateTime T F}.
Import RoverPosition.

Lemma rover_iteration_ok now sats P st lb st' x_hat :
  iteration now sats P st = (lb, Ok (st', x_hat)) ->
  lb = [PrintCorrection x_hat] /\
  x_hat_of c (A_of st) (transpose (A_of st)) (l_of now sats P st) = Ok x_hat /\
  xyzt st' = vadd4 (xyzt st) x_hat /\
  XYZs st' = XYZs st.
Proof.
  unfold iteration.
  destruct (x_hat_of c (A_of st) (transpose (A_of st)) (l_of now sats P st))
    as [x|e]; simpl; [|discriminate].
  intros Heq. inversion Heq; subst. simpl. auto.
Qed.

Lemma rover_iteration_quiet now sats P st :
  iterations (fst (iteration now sats P st)) = 0%nat /\
  corrections (fst (iteration now sats P st)) = [].
Proof.
  unfold iteration.
  destruct (x_hat_of c (A_of st) (transpose (A_of st)) (l_of now sats P st));
    simpl; auto.
Qed.

End RoverPositionLoop.

(** ** The satellite filter of [least_squares.py] *)

Section LeastSquaresFilter.
Context {F : Type} `{Float F} `{!Collaborators F}.
Import LeastSquares.

Variable obs : ObsGPS F.
Variable navs : list (string * list (NavGPS F)).
Variable init_pos : option (vec3 F).

Lemma ls_select_step (r : string) (rest : list string) (sats : list (string * NavGPS F)) :
  select_sats obs navs init_pos (r :: rest) sats =
  match usable obs r with
  | Raise e => ([], Raise e)
  | Ok false => select_sats obs navs init_pos rest sats
  | Ok true =>
      match dict_get navs r with
      | Raise e => ([], Raise e)
      | Ok nav_array =>
          match nav_nearest_in_time (date obs) nav_array with
          | Raise e => ([], Raise e)
          | Ok nnt =>
              if below_mask init_pos (date obs) nnt
              then select_sats obs navs init_pos rest sats
              else select_sats obs navs init_pos rest (sats ++ [(r, nnt)])
          end
      end
  end.
Proof.
  cbn [select_sats].
  destruct (usable obs r) as [[|]|e]; rewrite ?bind_lift_ok; try reflexivity.
  destruct (dict_get navs r) as [nav_array|e]; rewrite ?bind_lift_ok; try reflexivity.
  destruct (nav_nearest_in_time (date obs) nav_array) as [nnt|e];
    rewrite ?bind_lift_ok; reflexivity.
Qed.

(** The filter prints nothing and logs nothing. *)
Lemma ls_select_silent (prns : list string) (sats : list (string * NavGPS F)) :
  fst (select_sats obs navs init_pos prns sats) = [].
Proof.
  revert sats. induction prns as [|r rest IH]; intros sats; [reflexivity|].
  rewrite ls_select_step.
  destruct (usable obs r) as [[|]|e]; auto.
  destruct (dict_get navs r) as [nav_array|e]; auto.
  destruct (nav_nearest_in_time (date obs) nav_array) as [nnt|e]; auto.
  destruct (below_mask init_pos (date obs) nnt); auto.
Qed.

(** The working set: what was there, and the admitted satellites. *)
Lemma ls_select_members (prns : list string) (acc : list (string * NavGPS F)) log sats :
  select_sats obs navs init_pos prns acc = (log, Ok sats) ->
  forall s, In s sats <->
            In s acc \/ (In (fst s) prns /\ admitted obs navs init_pos (fst s) (snd s)).
Proof.
  revert acc. induction prns as [|r rest IH]; intros acc.
  - simpl. unfold ret. intros Heq. inversion Heq; subst. intros s. tauto.
  - rewrite ls_select_step. unfold admitted in *.
    destruct (usable obs r) as [[|]|e] eqn:Hu; try discriminate.
    + destruct (dict_get navs r) as [nav_array|e] eqn:Hd; try discriminate.
      destruct (nav_nearest_in_time (date obs) nav_array) as [nnt|e] eqn:Hn;
        try discriminate.
      destruct (below_mask init_pos (date obs) nnt) eqn:Hb.
      * intros Hrun s. rewrite (IH _ Hrun s). simpl. split.
        -- intros [Hacc|[Hin Hadm]]; auto.
        -- intros [Hacc|[[Hr|Hin] Hadm]]; auto.
           exfalso. destruct Hadm as (_ & (arr & Hd' & Hn') & Hb').
           rewrite <- Hr in Hd'. rewrite Hd in Hd'. inversion Hd'; subst arr.
           rewrite Hn in Hn'. inversion Hn'; subst. congruence.
      * intros Hrun s. rewrite (IH _ Hrun s). rewrite in_app_iff. simpl. split.
        -- intros [[Hacc|[Hs|[]]]|[Hin Hadm]]; auto.
           subst s. simpl. right. split; auto. split; auto. split; eauto.
        -- intros [Hacc|[[Hr|Hin] Hadm]]; auto.
           left. right. left.
           destruct Hadm as (_ & (arr & Hd' & Hn') & _).
           rewrite <- Hr in Hd'. rewrite Hd in Hd'. inversion Hd'; subst arr.
           rewrite Hn in Hn'. inversion Hn'. destruct s; simpl in *; congruence.
    + intros Hrun s. rewrite (IH _ Hrun s). simpl. split.
      * intros [Hacc|[Hin Hadm]]; auto.
      * intros [Hacc|[[Hr|Hin] Hadm]]; auto.
        exfalso. destruct Hadm as (Hu' & _). rewrite <- Hr in Hu'. congruence.
Qed.

Lemma ls_usable_true (r : string) :
  usable obs r = Ok true ->
  exists c1 p2,
    cell obs "C1" r = Ok (Some c1) /\ feq c1 zero = false /\
    cell obs "P2" r = Ok (Some p2) /\ feq p2 zero = false /\
    char_in "G"%char r = true.
Proof.
  unfold usable.
  destruct (cell obs "C1" r) as [[c1|]|e]; simpl; try discriminate.
  destruct (feq c1 zero) eqn:H1; simpl; try discriminate.
  destruct (cell obs "P2" r) as [[p2|]|e]; simpl; try discriminate.
  destruct (feq p2 zero) eqn:H2; simpl; try discriminate.
  intros Heq. injection Heq as Hg. exists c1, p2. repeat split; auto.
Qed.

(** [P] holds the C1 cell of every satellite of the working set. *)
Lemma ls_pseudoranges_C1 (sats : list (string * NavGPS F)) (P : list F) :
  pseudoranges obs sats = Ok P ->
  Forall2 (fun s p => cell obs "C1" (fst s) = Ok (Some p)) sats P.
Proof.
  revert P. induction sats as [|s rest IH]; intros P; simpl.
  - intros Heq. inversion Heq. constructor.
  - destruct (cell obs "C1" (fst s)) as [[p|]|e] eqn:Hc; try discriminate.
    destruct (pseudoranges obs rest) as [ps|e]; try discriminate.
    intros Heq. inversion Heq; subst. constructor; auto.
Qed.

(** A working set that came through the filter has its C1 cells filled,
    so building [P] cannot fail. *)
Lemma ls_pseudoranges_total (sats : list (string * NavGPS F)) :
  (forall s, In s sats -> usable obs (fst s) = Ok true) ->
  exists P, pseudoranges obs sats = Ok P.
Proof.
  induction sats as [|s rest IH]; intros Hall; simpl.
  - eauto.
  - destruct (ls_usable_true (fst s) (Hall s (or_introl eq_refl)))
      as (c1 & p2 & Hc1 & _). rewrite Hc1.
    destruct IH as [ps Hps]; [intros s' Hs'; apply Hall; now right|].
    rewrite Hps. eauto.
Qed.

End LeastSquaresFilter.

(** ** The satellite filter of [rover_position.py] *)

Section RoverPositionFilter.
Context {F : Type} `{Float F} `{!Collaborators F} {T : Type} `{!DateTime T F}.
Import RoverPosition.

Variable obs : ObsGPS F T.
Variable navs : list (string * list (NavGPS F T)).
Variable init_pos : init_arg F.

Lemma rover_select_step (i : nat) (r : string) (rest : list string)
    (sats : list (string * NavGPS F T)) :
  select_sats obs navs init_pos i (r :: rest) sats =
  match usable obs i r with
  | Raise e => ([], Raise e)
  | Ok false => select_sats obs navs init_pos (S i) rest sats
  | Ok true =>
      match dict_get navs r with
      | Raise e => ([], Raise e)
      | Ok nav_array =>
          match nav_nearest_in_time (obs_date obs) nav_array with
          | Raise e => ([], Raise e)
          | Ok nnt =>
              if below_mask init_pos (obs_date obs) nnt
              then (PrintExcluded r
                      :: fst (select_sats obs navs init_pos (S i) rest sats),
                    snd (select_sats obs navs init_pos (S i) rest sats))
              else select_sats obs navs init_pos (S i) rest (sats ++ [(r, nnt)])
          end
      end
  end.
Proof.
  cbn [select_sats].
  destruct (usable obs i r) as [[|]|e]; rewrite ?bind_lift_ok; try reflexivity.
  destruct (dict_get navs r) as [nav_array|e]; rewrite ?bind_lift_ok; try reflexivity.
  destruct (nav_nearest_in_time (obs_date obs) nav_array) as [nnt|e];
    rewrite ?bind_lift_ok; try reflexivity.
  destruct (below_mask init_pos (obs_date obs) nnt); [|reflexivity].
  unfold bind, emit.
  destruct (select_sats obs navs init_pos (S i) rest sats). reflexivity.
Qed.

(** The filter logs no iteration and no correction. *)
Lemma rover_select_quiet (i : nat) (prns : list string)
    (sats : list (string * NavGPS F T)) :
  iterations (fst (select_sats obs navs init_pos i prns sats)) = 0%nat /\
  corrections (fst (select_sats obs navs init_pos i prns sats)) = [].
Proof.
  revert i sats. induction prns as [|r rest IH]; intros i sats; [simpl; auto|].
  rewrite rover_select_step.
  destruct (usable obs i r) as [[|]|e]; auto.
  destruct (dict_get navs r) as [nav_array|e]; auto.
  destruct (nav_nearest_in_time (obs_date obs) nav_array) as [nnt|e]; auto.
  destruct (below_mask init_pos (obs_date obs) nnt); auto.
  simpl. apply IH.
Qed.

Lemma rover_select_members (i : nat) (prns : list string)
    (acc : list (string * NavGPS F T)) log sats :
  select_sats obs navs init_pos i prns acc = (log, Ok sats) ->
  forall s, In s sats <->
            In s acc \/
            (exists j, nth_error prns j = Some (fst s) /\
                       admitted obs navs init_pos (i + j) (fst s) (snd s)).
Proof.
  revert i acc log. induction prns as [|r rest IH]; intros i acc log.
  - simpl. unfold ret. intros Heq. inversion Heq; subst. intros s. split; auto.
    intros [Hacc|[j [Hj _]]]; auto. destruct j; discriminate.
  - rewrite rover_select_step. unfold admitted in *.
    assert (Hshift : forall s : string * NavGPS F T,
               (exists j, nth_error (r :: rest) j = Some (fst s) /\
                          (usable obs (i + j) (fst s) = Ok true /\
                           (exists nav_array, dict_get navs (fst s) = Ok nav_array /\
                              nav_nearest_in_time (obs_date obs) nav_array = Ok (snd s)) /\
                           below_mask init_pos (obs_date obs) (snd s) = false)) <->
               (r = fst s /\
                (usable obs i (fst s) = Ok true /\
                 (exists nav_array, dict_get navs (fst s) = Ok nav_array /\
                    nav_nearest_in_time (obs_date obs) nav_array = Ok (snd s)) /\
                 below_mask init_pos (obs_date obs) (snd s) = false)) \/
               (exists j, nth_error rest j = Some (fst s) /\
                          (usable obs (S i + j) (fst s) = Ok true /\
                           (exists nav_array, dict_get navs (fst s) = Ok nav_array /\
                              nav_nearest_in_time (obs_date obs) nav_array = Ok (snd s)) /\
                           below_mask init_pos (obs_date obs) (snd s) = false))).
    { intros s. split.
      - intros [[|j] [Hj Hadm]].
        + left. simpl in Hj. inversion Hj. rewrite Nat.add_0_r in Hadm. auto.
        + right. exists j. simpl in Hj. rewrite Nat.add_succ_r in Hadm. auto.
      - intros [[Hr Hadm]|[j [Hj Hadm]]].
        + exists 0%nat. simpl. rewrite Nat.add_0_r. split; [congruence|auto].
        + exists (S j). simpl. rewrite Nat.add_succ_r. auto. }
    destruct (usable obs i r) as [[|]|e] eqn:Hu; try discriminate.
    + destruct (dict_get navs r) as [nav_array|e] eqn:Hd; try discriminate.
      destruct (nav_nearest_in_time (obs_date obs) nav_array) as [nnt|e] eqn:Hn;
        try discriminate.
      destruct (below_mask init_pos (obs_date obs) nnt) eqn:Hb.
      * destruct (select_sats obs navs init_pos (S i) rest acc) as [lr out] eqn:Hrest.
        simpl. intros Heq. inversion Heq; subst out.
        intros s. rewrite (IH _ _ _ Hrest s), Hshift. split.
        -- intros [Hacc|Hex]; auto.
        -- intros [Hacc|[[Hr Hadm]|Hex]]; auto.
           exfalso. destruct Hadm as (_ & (arr & Hd' & Hn') & Hb').
           rewrite <- Hr in Hd'. rewrite Hd in Hd'. inversion Hd'; subst arr.
           rewrite Hn in Hn'. inversion Hn'; subst. congruence.
      * intros Hrun s. rewrite (IH _ _ _ Hrun s), Hshift, in_app_iff. simpl. split.
        -- intros [[Hacc|[Hs|[]]]|Hex]; auto.
           subst s. simpl. right. left. split; auto. split; auto. split; eauto.
        -- intros [Hacc|[[Hr Hadm]|Hex]]; auto.
           left. right. left.
           destruct Hadm as (_ & (arr & Hd' & Hn') & _).
           rewrite <- Hr in Hd'. rewrite Hd in Hd'. inversion Hd'; subst arr.
           rewrite Hn in Hn'. inversion Hn'. destruct s; simpl in *; congruence.
    + intros Hrun s. rewrite (IH _ _ _ Hrun s), Hshift. split.
      * intros [Hacc|Hex]; auto.
      * intros [Hacc|[[Hr Hadm]|Hex]]; auto.
        exfalso. destruct Hadm as (Hu' & _). rewrite <- Hr in Hu'. congruence.
Qed.

Lemma rover_usable_true (i : nat) (r : string) :
  usable obs i r = Ok true ->
  exists c1 p2,
    cell obs "C1" i = Ok (Some c1) /\ feq c1 zero = false /\
    cell obs "P2" i = Ok (Some p2) /\ feq p2 zero = false /\
    char_in "G"%char r = true.
Proof.
  unfold usable.
  destruct (cell obs "C1" i) as [[c1|]|e]; simpl; try discriminate.
  destruct (feq c1 zero) eqn:H1; simpl; try discriminate.
  destruct (cell obs "P2" i) as [[p2|]|e]; simpl; try discriminate.
  destruct (feq p2 zero) eqn:H2; simpl; try discriminate.
  intros Heq. injection Heq as Hg. exists c1, p2. repeat split; auto.
Qed.

End RoverPositionFilter.

(** ** [min] and [index] on numbers that are not NaN *)

Section Nearest.
Context {F : Type} `{FloatOrder F}.

Lemma flt_asym (x y : F) : flt x y = true -> flt y x = false.
Proof.
  intros Hxy. destruct (flt y x) eqn:Hyx; [|reflexivity].
  pose proof (flt_trans _ _ _ Hxy Hyx) as Hxx. rewrite flt_irrefl in Hxx. discriminate.
Qed.

Lemma feq_true_iff (x y : F) :
  feq x y = true <-> flt x y = false /\ flt y x = false.
Proof.
  rewrite feq_flt. destruct (flt x y), (flt y x); simpl; split; intros; intuition discriminate.
Qed.

Lemma fold_min_spec (xs : list F) (x : F) :
  let m := fold_left (fun m y => if flt y m then y else m) xs x in
  In m (x :: xs) /\ forall y, In y (x :: xs) -> flt y m = false.
Proof.
  revert x.
  assert (Hgen : forall xs m0 (seen : list F),
             In m0 seen -> (forall y, In y seen -> flt y m0 = false) ->
             let m := fold_left (fun m y => if flt y m then y else m) xs m0 in
             In m (seen ++ xs) /\ forall y, In y (seen ++ xs) -> flt y m = false).
  { clear xs. induction xs as [|z zs IH]; intros m0 seen Hin Hmin; simpl.
    - rewrite app_nil_r. auto.
    - replace (seen ++ z :: zs) with ((seen ++ [z]) ++ zs)
        by (rewrite <- app_assoc; reflexivity).
      apply IH.
      + destruct (flt z m0); apply in_or_app; [right; simpl; auto|left; auto].
      + intros y Hy. apply in_app_or in Hy. destruct (flt z m0) eqn:Hz.
        * destruct Hy as [Hy|[Hy|[]]].
          -- apply flt_negtrans with m0; [auto|]. now apply flt_asym.
          -- subst y. apply flt_irrefl.
        * destruct Hy as [Hy|[Hy|[]]]; [auto|]. now subst y. }
  intros x. specialize (Hgen xs x [x]). simpl in Hgen. apply Hgen.
  - auto.
  - intros y [Hy|[]]. subst y. apply flt_irrefl.
Qed.

Lemma py_index_found (v : F) (l : list F) :
  In v l ->
  exists i x, py_index v l = Ok i /\ nth_error l i = Some x /\ feq x v = true /\
              forall j y, (j < i)%nat -> nth_error l j = Some y -> feq y v = false.
Proof.
  induction l as [|a l IH]; intros Hin; [destruct Hin|].
  simpl. destruct (feq a v) eqn:Ha.
  - exists 0%nat, a. repeat split; auto. intros j y Hj. lia.
  - destruct Hin as [Hin|Hin].
    + subst a. assert (Hvv : feq v v = true).
      { apply feq_true_iff. split; apply flt_irrefl. }
      congruence.
    + destruct (IH Hin) as (i & x & Hidx & Hnth & Hx & Hfirst).
      rewrite Hidx. exists (S i), x. repeat split; auto.
      intros [|j] y Hj Hy; simpl in Hy.
      * inversion Hy; subst. exact Ha.
      * apply (Hfirst j y); [lia|exact Hy].
Qed.

(** [l[keys.index(min(keys))]] with [keys = [key(n) for n in l]]: the
    first item of [l] whose key no other key is below. *)
Lemma first_minimal {N : Type} (key : N -> F) (l : list N) :
  l <> [] ->
  exists i n,
    match py_min (map key l) with
    | Raise e => Raise e
    | Ok m =>
        match py_index m (map key l) with
        | Raise e => Raise e
        | Ok i => py_getitem l i
        end
    end = Ok n /\
    nth_error l i = Some n /\
    (forall m, In m l -> flt (key m) (key n) = false) /\
    (forall j m, (j < i)%nat -> nth_error l j = Some m -> flt (key n) (key m) = true).
Proof.
  destruct l as [|a l]; [congruence|]. intros _.
  cbn [map py_min].
  destruct (fold_min_spec (map key l) (key a)) as [Hin Hmin].
  set (m := fold_left (fun m y => if flt y m then y else m) (map key l) (key a)) in *.
  change (key a :: map key l) with (map key (a :: l)) in *.
  destruct (py_index_found _ _ Hin) as (i & x & Hidx & Hnth & Hx & Hfirst).
  rewrite Hidx. rewrite nth_error_map in Hnth.
  destruct (nth_error (a :: l) i) as [n|] eqn:Hn; [|discriminate].
  simpl in Hnth. inversion Hnth; subst x.
  apply feq_true_iff in Hx. destruct Hx as [Hnm Hmn].
  exists i, n. unfold py_getitem. rewrite Hn. repeat split.
  - intros m' Hm'. apply flt_negtrans with m; [|exact Hmn].
    apply Hmin. now apply in_map.
  - intros j m' Hj Hm'.
    assert (Hne : feq (key m') m = false).
    { apply (Hfirst j); [exact Hj|]. rewrite nth_error_map, Hm'. reflexivity. }
    assert (Hle : flt (key m') m = false).
    { apply Hmin. apply in_map. eapply nth_error_In; eauto. }
    rewrite feq_flt, Hle in Hne. simpl in Hne.
    destruct (flt m (key m')) eqn:Hlt; [|discriminate].
    destruct (flt (key n) (key m')) eqn:Hgoal; [reflexivity|].
    rewrite (flt_negtrans _ _ _ Hmn Hgoal) in Hlt. discriminate.
Qed.

End Nearest.

Import Rational Sample.

(** ** Order on the rationals *)

Section RationalOrder.
Import Rational.

Lemma Qltb_true (x y : Q) : Qltb x y = true <-> (x < y)%Q.
Proof.
  unfold Qltb. rewrite negb_true_iff. split.
  - intros Hle. apply Qnot_le_lt. intros Hyx.
    apply Qle_bool_iff in Hyx. congruence.
  - intros Hlt. destruct (Qle_bool y x) eqn:Hle; [|reflexivity].
    apply Qle_bool_iff in Hle. exfalso. exact (Qlt_not_le _ _ Hlt Hle).
Qed.

Lemma Qltb_false (x y : Q) : Qltb x y = false <-> (y <= x)%Q.
Proof.
  unfold Qltb. rewrite negb_false_iff. apply Qle_bool_iff.
Qed.

#[export] Instance FloatOrder_Q : FloatOrder Q.
Proof.
  split; simpl.
  - intros x. apply Qltb_false. apply Qle_refl.
  - intros x y z Hxy Hyz. apply Qltb_true in Hxy, Hyz. apply Qltb_true.
    eapply Qlt_trans; eauto.
  - intros x y z Hxy Hyz. apply Qltb_false in Hxy, Hyz. apply Qltb_false.
    eapply Qle_trans; eauto.
  - intros x y. unfold Qltb. rewrite !negb_involutive.
    destruct (Qeq_bool x y) eqn:Heq.
    + apply Qeq_bool_iff in Heq. symmetry. apply andb_true_iff.
      split; apply Qle_bool_iff; rewrite Heq; apply Qle_refl.
    + symmetry. apply andb_false_iff.
      destruct (Qle_bool y x) eqn:Hyx; [|auto]. right.
      destruct (Qle_bool x y) eqn:Hxy; [|reflexivity].
      apply Qle_bool_iff in Hyx, Hxy.
      assert (Hq : (x == y)%Q) by (apply Qle_antisym; assumption).
      apply Qeq_bool_iff in Hq. congruence.
Qed.

End RationalOrder.

(** * The claims *)

Section UpdateAsAUnit.
Context {F : Type} `{Float F} `{!Collaborators F} {T : Type} `{!DateTime T F}.

(** C1.  In every Gauss-Newton iteration the solution [x0, x1, x2, x3] of
    the normal equations is added to the estimate: [x0, x1, x2] to the
    position and [x3 / c] to the clock bias, all four at once; and the
    estimate a completed loop ends with is its starting point plus every
    correction computed on the way, each one whole.  This holds in
    [least_squares.py] and in [rover_position.py]. *)
Theorem estimate_updated_as_a_unit :
  (forall now vmf sats P st lb st' x_hat,
      LeastSquares.iteration now vmf sats P st = (lb, Ok (st', x_hat)) ->
      exists Q x0 x1 x2 x3,
        matrix_inverse
          (mmul (transpose (LeastSquares.A_of st)) (LeastSquares.A_of st)) = Ok Q /\
        flatten (mmul (mmul Q (transpose (LeastSquares.A_of st)))
                      (transpose [LeastSquares.l_of now vmf sats P st]))
          = [x0; x1; x2; x3] /\
        x_hat = V4 x0 x1 x2 (fdiv x3 (of_int 299792428)) /\
        LeastSquares.xyzt st' =
          V4 (fadd (x4 (LeastSquares.xyzt st)) x0)
             (fadd (y4 (LeastSquares.xyzt st)) x1)
             (fadd (z4 (LeastSquares.xyzt st)) x2)
             (fadd (t4 (LeastSquares.xyzt st)) (fdiv x3 (of_int 299792428)))) /\
  (forall now vmf sats P st log st' ex,
      LeastSquares.gauss_newton now vmf sats P st = (log, Ok (st', ex)) ->
      LeastSquares.xyzt st' =
        fold_left vadd4 (corrections log) (LeastSquares.xyzt st)) /\
  (forall (now : T) sats P st lb st' x_hat,
      RoverPosition.iteration now sats P st = (lb, Ok (st', x_hat)) ->
      exists Q x0 x1 x2 x3,
        matrix_inverse
          (mmul (transpose (RoverPosition.A_of st)) (RoverPosition.A_of st)) = Ok Q /\
        flatten (mmul (mmul Q (transpose (RoverPosition.A_of st)))
                      (transpose [RoverPosition.l_of now sats P st]))
          = [x0; x1; x2; x3] /\
        x_hat = V4 x0 x1 x2 (fdiv x3 (of_int 299792428)) /\
        RoverPosition.xyzt st' =
          V4 (fadd (x4 (RoverPosition.xyzt st)) x0)
             (fadd (y4 (RoverPosition.xyzt st)) x1)
             (fadd (z4 (RoverPosition.xyzt st)) x2)
             (fadd (t4 (RoverPosition.xyzt st)) (fdiv x3 (of_int 299792428)))) /\
  (forall (now : T) sats P st log st' ex,
      RoverPosition.gauss_newton now sats P st = (log, Ok (st', ex)) ->
      RoverPosition.xyzt st' =
        fold_left vadd4 (corrections log) (RoverPosition.xyzt st)).
Proof.
  repeat split.
  - intros now vmf sats P st lb st' x_hat Hrun.
    apply ls_iteration_ok in Hrun. destruct Hrun as (_ & Hx & Hupd & _).
    apply x_hat_of_ok in Hx. destruct Hx as (Q & x0 & x1 & x2 & x3 & HQ & Hflat & Hx).
    exists Q, x0, x1, x2, x3. repeat split; auto.
    rewrite Hupd, Hx. reflexivity.
  - intros now vmf sats P st log st' ex Hrun. unfold LeastSquares.gauss_newton in Hrun.
    eapply for_break_estimate with (get := @LeastSquares.xyzt F); [| | |exact Hrun].
    + apply ls_iteration_quiet.
    + intros s lb s' x Hb. apply ls_iteration_ok in Hb. tauto.
    + reflexivity.
  - intros now sats P st lb st' x_hat Hrun.
    apply rover_iteration_ok in Hrun. destruct Hrun as (_ & Hx & Hupd & _).
    apply x_hat_of_ok in Hx. destruct Hx as (Q & x0 & x1 & x2 & x3 & HQ & Hflat & Hx).
    exists Q, x0, x1, x2, x3. repeat split; auto.
    rewrite Hupd, Hx. reflexivity.
  - intros now sats P st log st' ex Hrun. unfold RoverPosition.gauss_newton in Hrun.
    eapply for_break_estimate with (get := @RoverPosition.xyzt F); [| | |exact Hrun].
    + apply rover_iteration_quiet.
    + intros s lb s' x Hb. apply rover_iteration_ok in Hb. tauto.
    + reflexivity.
Qed.

End UpdateAsAUnit.

Lemma estimate_updated_as_a_unit_witness :
  LeastSquares.gauss_newton Sample.now [] Sample.LS.working_set
      Sample.LS.ranges_swinging Sample.LS.start
    = (fst (LeastSquares.gauss_newton Sample.now [] Sample.LS.working_set
              Sample.LS.ranges_swinging Sample.LS.start),
       Ok Sample.LS.loop_swinging) /\
  LeastSquares.xyzt (fst Sample.LS.loop_swinging) =
    fold_left vadd4
      (corrections (fst (LeastSquares.gauss_newton Sample.now [] Sample.LS.working_set
                           Sample.LS.ranges_swinging Sample.LS.start)))
      (LeastSquares.xyzt Sample.LS.start).
Proof.
  assert (Hrun : LeastSquares.gauss_newton Sample.now [] Sample.LS.working_set
      Sample.LS.ranges_swinging Sample.LS.start
    = (fst (LeastSquares.gauss_newton Sample.now [] Sample.LS.working_set
              Sample.LS.ranges_swinging Sample.LS.start),
       Ok Sample.LS.loop_swinging)) by (vm_compute; reflexivity).
  split; [exact Hrun|].
  destruct Sample.LS.loop_swinging as [st' ex].
  exact (proj1 (proj2 (@estimate_updated_as_a_unit Q _ _ Q _)) _ _ _ _ _ _ _ _ Hrun).
Defined.

Section SpeedOfLight.
Context {F : Type} `{Float F} `{!Collaborators F}.

(** C2.  The constant [c] of both solvers is 299792428, which is not the
    speed of light 299792458; it is the last entry of every row of the
    design matrix, and the number the fourth correction component is
    divided by. *)
Theorem speed_of_light_constant :
  LeastSquares.c = 299792428%Z /\
  RoverPosition.c = 299792428%Z /\
  LeastSquares.c <> 299792458%Z /\
  RoverPosition.c <> 299792458%Z /\
  (forall (st : LeastSquares.locals F) row,
      In row (LeastSquares.A_of st) -> nth_error row 3 = Some (of_int 299792428)) /\
  (forall (st : RoverPosition.locals F) row,
      In row (RoverPosition.A_of st) -> nth_error row 3 = Some (of_int 299792428)).
Proof.
  repeat split; try reflexivity; try discriminate.
  - intros st row Hin. unfold LeastSquares.A_of in Hin.
    apply in_map_iff in Hin. destruct Hin as (p & Hrow & _). now subst row.
  - intros st row Hin. unfold RoverPosition.A_of in Hin.
    apply in_map_iff in Hin. destruct Hin as (p & Hrow & _). now subst row.
Qed.

End SpeedOfLight.

Lemma speed_of_light_constant_witness :
  In (design_row 299792428 (LeastSquares.xyzt Sample.LS.start) Sample.S1 6000000)
     (LeastSquares.A_of Sample.LS.start) /\
  nth_error (design_row 299792428 (LeastSquares.xyzt Sample.LS.start) Sample.S1 6000000) 3
    = Some 299792428%Q.
Proof.
  assert (Hin : In (design_row 299792428 (LeastSquares.xyzt Sample.LS.start)
                               Sample.S1 6000000)
                   (LeastSquares.A_of Sample.LS.start)).
  { vm_compute. left. reflexivity. }
  split; [exact Hin|].
  exact (proj1 (proj2 (proj2 (proj2 (proj2 (@speed_of_light_constant Q _))))) _ _ Hin).
Defined.

Section Residuals.
Context {F : Type} `{Float F} `{!Collaborators F} {T : Type} `{!DateTime T F}.

Lemma ls_l_vector_nth now vmf xyzt lla sats P rho XYZs i s p r X :
  nth_error sats i = Some s -> nth_error P i = Some p ->
  nth_error rho i = Some r -> nth_error XYZs i = Some X ->
  nth_error (LeastSquares.l_vector now vmf xyzt lla sats P rho XYZs) i
    = Some (LeastSquares.residual now vmf xyzt lla s p r X).
Proof.
  revert sats P rho XYZs.
  induction i as [|i IH]; intros [|s0 sats] [|p0 P] [|r0 rho] [|X0 XYZs];
    simpl; try discriminate.
  - congruence.
  - apply IH.
Qed.

Lemma rover_l_vector_nth (now : T) xyzt sats P rho i s p r :
  nth_error sats i = Some s -> nth_error P i = Some p ->
  nth_error rho i = Some r ->
  nth_error (RoverPosition.l_vector now xyzt sats P rho) i
    = Some (RoverPosition.residual now xyzt s p r).
Proof.
  revert sats P rho.
  induction i as [|i IH]; intros [|s0 sats] [|p0 P] [|r0 rho];
    simpl; try discriminate.
  - congruence.
  - apply IH.
Qed.

(** C3.  In [least_squares.py] the entry of the l-vector for satellite
    entry [i] is the code range minus the geometric range from the current
    estimate, plus [c] times the satellite clock offset at the epoch
    shifted by the current clock bias, minus the tropospheric delay for
    the satellite's elevation and the receiver's geodetic position.  In
    [rover_position.py] the entry is the same sum without the tropospheric
    delay. *)
Theorem residual_of_each_satellite :
  (forall now vmf sats P (st : LeastSquares.locals F) i s P_i XYZ_i,
      nth_error sats i = Some s ->
      nth_error P i = Some P_i ->
      nth_error (LeastSquares.XYZs st) i = Some XYZ_i ->
      let xyzt := LeastSquares.xyzt st in
      let rho_i := geometric_range xyzt XYZ_i in
      let lla := ecef_to_lat_lon_alt [x4 xyzt; y4 xyzt; z4 xyzt; t4 xyzt] in
      let elevation := sat_elev false [x4 xyzt; y4 xyzt; z4 xyzt] XYZ_i in
      nth_error (LeastSquares.l_of now vmf sats P st) i =
        Some (fsub (fadd (fsub P_i rho_i)
                         (fmul (of_int 299792428)
                               (LeastSquares.time_offset (snd s) (fadd now (t4 xyzt)))))
                   (tropmodel lla elevation vmf))) /\
  (forall (now : T) sats P (st : RoverPosition.locals F) i s P_i XYZ_i,
      nth_error sats i = Some s ->
      nth_error P i = Some P_i ->
      nth_error (RoverPosition.XYZs st) i = Some XYZ_i ->
      let xyzt := RoverPosition.xyzt st in
      let rho_i := geometric_range xyzt XYZ_i in
      nth_error (RoverPosition.l_of now sats P st) i =
        Some (fadd (fsub P_i rho_i)
                   (fmul (of_int 299792428)
                         (RoverPosition.time_offset (snd s)
                            (plus_seconds now (t4 xyzt)))))).
Proof.
  split.
  - intros now vmf sats P st i s P_i XYZ_i Hs HP HX xyzt rho_i lla elevation.
    unfold LeastSquares.l_of.
    rewrite ls_l_vector_nth with (s := s) (p := P_i) (r := rho_i) (X := XYZ_i); auto.
    unfold LeastSquares.rho_of. rewrite nth_error_map, HX. reflexivity.
  - intros now sats P st i s P_i XYZ_i Hs HP HX xyzt rho_i.
    unfold RoverPosition.l_of.
    rewrite rover_l_vector_nth with (s := s) (p := P_i) (r := rho_i); auto.
    unfold RoverPosition.rho_of. rewrite nth_error_map, HX. reflexivity.
Qed.

End Residuals.

(** On the sample epoch, where the code range of G01 is its geometric range
    plus the tropospheric delay of 2 m: the entry of [least_squares.py] is
    0, the entry of [rover_position.py] is 2. *)
Lemma residual_of_each_satellite_witness :
  (nth_error Sample.LS.working_set 0 = Some ("G01", Sample.LS.record Sample.now Sample.S1) /\
   nth_error Sample.LS.ranges_settled 0 = Some 6000002%Q /\
   nth_error (LeastSquares.XYZs Sample.LS.start) 0 = Some Sample.S1 /\
   nth_error (LeastSquares.l_of Sample.now [] Sample.LS.working_set
                Sample.LS.ranges_settled Sample.LS.start) 0 = Some 0%Q) /\
  (nth_error Sample.Rover.working_set 0
     = Some ("G01", Sample.Rover.record Sample.now Sample.S1) /\
   nth_error Sample.Rover.ranges_settled 0 = Some 6000002%Q /\
   nth_error (RoverPosition.XYZs Sample.Rover.start) 0 = Some Sample.S1 /\
   nth_error (RoverPosition.l_of Sample.now Sample.Rover.working_set
                Sample.Rover.ranges_settled Sample.Rover.start) 0 = Some 2%Q).
Proof.
  split.
  - assert (Hs : nth_error Sample.LS.working_set 0
                 = Some ("G01", Sample.LS.record Sample.now Sample.S1)) by reflexivity.
    assert (HP : nth_error Sample.LS.ranges_settled 0 = Some 6000002%Q) by reflexivity.
    assert (HX : nth_error (LeastSquares.XYZs Sample.LS.start) 0 = Some Sample.S1)
      by reflexivity.
    split; [exact Hs|]. split; [exact HP|]. split; [exact HX|].
    rewrite (proj1 (@residual_of_each_satellite Q _ _ Q _) Sample.now []
               _ _ _ _ _ _ _ Hs HP HX).
    vm_compute. reflexivity.
  - assert (Hs : nth_error Sample.Rover.working_set 0
                 = Some ("G01", Sample.Rover.record Sample.now Sample.S1)) by reflexivity.
    assert (HP : nth_error Sample.Rover.ranges_settled 0 = Some 6000002%Q) by reflexivity.
    assert (HX : nth_error (RoverPosition.XYZs Sample.Rover.start) 0 = Some Sample.S1)
      by reflexivity.
    split; [exact Hs|]. split; [exact HP|]. split; [exact HX|].
    rewrite (proj2 (@residual_of_each_satellite Q _ _ Q _) Sample.now
               _ _ _ _ _ _ _ Hs HP HX).
    vm_compute. reflexivity.
Defined.

Section TooFewSatellites.
Context {F : Type} `{Float F} `{!Collaborators F} {T : Type} `{!DateTime T F}.

Lemma rover_least_squares_unfold depth (obs : RoverPosition.ObsGPS F T) navs init_pos :
  RoverPosition.least_squares_at (S depth) obs navs init_pos =
  bind (RoverPosition.solve obs navs init_pos)
       (fun r => match r with
                 | None => ret None
                 | Some xyzt =>
                     if RoverPosition.given init_pos then ret (Some xyzt)
                     else RoverPosition.least_squares_at depth obs navs
                            (RoverPosition.InitArray xyzt)
                 end).
Proof. reflexivity. Qed.

(** C4.  When the filter leaves fewer than 4 satellites, a call returns
    [None] after printing one warning, and its log has no entry into the
    loop body.  [least_squares.py] warns "too few satellites";
    [rover_position.py] warns the same when an a-priori position was given
    and "bad measurement!" otherwise. *)
Theorem too_few_satellites_no_estimate :
  (forall obs navs init_pos vmf log sats,
      LeastSquares.select_sats obs navs init_pos (LeastSquares.PRN_number obs) []
        = (log, Ok sats) ->
      (List.length sats < 4)%nat ->
      LeastSquares.least_squares obs navs init_pos vmf
        = (log ++ [WarnTooFew (List.length sats)], Ok None) /\
      iterations (fst (LeastSquares.least_squares obs navs init_pos vmf)) = 0%nat) /\
  (forall (obs : RoverPosition.ObsGPS F T) navs init_pos log sats,
      RoverPosition.select_sats obs navs init_pos 0 (RoverPosition.PRN_number obs) []
        = (log, Ok sats) ->
      (List.length sats < 4)%nat ->
      RoverPosition.least_squares obs navs init_pos
        = (log ++ [if RoverPosition.given init_pos
                   then WarnTooFew (List.length sats)
                   else WarnBadMeasurement],
           Ok None) /\
      iterations (fst (RoverPosition.least_squares obs navs init_pos)) = 0%nat).
Proof.
  split.
  - intros obs navs init_pos vmf log sats Hsel Hlen.
    assert (Hrun : LeastSquares.least_squares obs navs init_pos vmf
                   = (log ++ [WarnTooFew (List.length sats)], Ok None)).
    { unfold LeastSquares.least_squares.
      rewrite (bind_ok_run _ Hsel).
      assert (Hlt : (3 <? List.length sats)%nat = false) by (apply Nat.ltb_ge; lia).
      rewrite Hlt. reflexivity. }
    split; [exact Hrun|].
    rewrite Hrun. simpl. rewrite iterations_app. simpl.
    pose proof (ls_select_silent obs navs init_pos (LeastSquares.PRN_number obs) [])
      as Hsilent.
    rewrite Hsel in Hsilent. simpl in Hsilent. subst log. reflexivity.
  - intros obs navs init_pos log sats Hsel Hlen.
    assert (Hrun : RoverPosition.least_squares obs navs init_pos
                   = (log ++ [if RoverPosition.given init_pos
                              then WarnTooFew (List.length sats)
                              else WarnBadMeasurement],
                      Ok None)).
    { unfold RoverPosition.least_squares, RoverPosition.recursion_limit.
      rewrite rover_least_squares_unfold.
      assert (Hsolve : RoverPosition.solve obs navs init_pos
                       = (log ++ [if RoverPosition.given init_pos
                                  then WarnTooFew (List.length sats)
                                  else WarnBadMeasurement],
                          Ok None)).
      { unfold RoverPosition.solve.
        rewrite (bind_ok_run _ Hsel).
        assert (Hlt : (3 <? List.length sats)%nat = false) by (apply Nat.ltb_ge; lia).
        assert (Hle : (List.length sats <=? 3)%nat = true) by (apply Nat.leb_le; lia).
        rewrite Hlt, Hle. simpl.
        destruct (RoverPosition.given init_pos); reflexivity. }
      rewrite (bind_ok_run _ Hsolve). simpl. rewrite app_nil_r. reflexivity. }
    split; [exact Hrun|].
    rewrite Hrun. simpl. rewrite iterations_app.
    pose proof (rover_select_quiet obs navs init_pos 0 (RoverPosition.PRN_number obs) [])
      as [Hquiet _].
    rewrite Hsel in Hquiet. simpl in Hquiet. rewrite Hquiet.
    destruct (RoverPosition.given init_pos); reflexivity.
Qed.

End TooFewSatellites.

(** The epoch with exactly three satellites. *)
Lemma too_few_satellites_no_estimate_witness :
  (LeastSquares.select_sats Sample.LS.obs_three Sample.LS.navs None
     (LeastSquares.PRN_number Sample.LS.obs_three) []
     = ([], Ok (firstn 3 Sample.LS.working_set)) /\
   (List.length (firstn 3 Sample.LS.working_set) < 4)%nat /\
   LeastSquares.least_squares Sample.LS.obs_three Sample.LS.navs None []
     = ([WarnTooFew 3], Ok None)) /\
  (RoverPosition.select_sats Sample.Rover.obs_three Sample.Rover.navs
     (RoverPosition.InitList Sample.Rover.origin) 0
     (RoverPosition.PRN_number Sample.Rover.obs_three) []
     = ([], Ok (firstn 3 Sample.Rover.working_set)) /\
   (List.length (firstn 3 Sample.Rover.working_set) < 4)%nat /\
   RoverPosition.least_squares Sample.Rover.obs_three Sample.Rover.navs
     (RoverPosition.InitList Sample.Rover.origin)
     = ([WarnTooFew 3], Ok None)).
Proof.
  split.
  - assert (Hsel : LeastSquares.select_sats Sample.LS.obs_three Sample.LS.navs None
                     (LeastSquares.PRN_number Sample.LS.obs_three) []
                   = ([], Ok (firstn 3 Sample.LS.working_set)))
      by (vm_compute; reflexivity).
    assert (Hlen : (List.length (firstn 3 Sample.LS.working_set) < 4)%nat)
      by (simpl; lia).
    split; [exact Hsel|]. split; [exact Hlen|].
    exact (proj1 (proj1 (@too_few_satellites_no_estimate Q _ _ Q _)
                    _ _ _ [] _ _ Hsel Hlen)).
  - assert (Hsel : RoverPosition.select_sats Sample.Rover.obs_three Sample.Rover.navs
                     (RoverPosition.InitList Sample.Rover.origin) 0
                     (RoverPosition.PRN_number Sample.Rover.obs_three) []
                   = ([], Ok (firstn 3 Sample.Rover.working_set)))
      by (vm_compute; reflexivity).
    assert (Hlen : (List.length (firstn 3 Sample.Rover.working_set) < 4)%nat)
      by (simpl; lia).
    split; [exact Hsel|]. split; [exact Hlen|].
    exact (proj1 (proj2 (@too_few_satellites_no_estimate Q _ _ Q _)
                    _ _ _ _ _ Hsel Hlen)).
Defined.

Section RationalTimes.

Lemma Qred_known (x y : Q) : (x == y)%Q -> Qred x = Qred y.
Proof. apply Qred_complete. Qed.

(** A record dated two hours before [t] is 7200 s away from [t]. *)
Lemma two_hours_before (t : Q) : fabs (fsub (fsub t 7200) t) = 7200%Q.
Proof.
  cbn [fabs fsub fadd Float_Q].
  transitivity (Qred 7200); [|reflexivity]. apply Qred_known.
  rewrite !Qred_correct.
  assert (Hd : (t - 7200 - t == - (7200))%Q) by ring.
  rewrite Hd. reflexivity.
Qed.

(** A record dated one hour after [t] is 3600 s away from [t]. *)
Lemma one_hour_after (t : Q) : fabs (fsub (fadd t 3600) t) = 3600%Q.
Proof.
  cbn [fabs fsub fadd Float_Q].
  transitivity (Qred 3600); [|reflexivity]. apply Qred_known.
  rewrite !Qred_correct.
  assert (Hd : (t + 3600 - t == 3600)%Q) by ring.
  rewrite Hd. reflexivity.
Qed.

(** The same records seen from the epoch moved to GPS time (16 s later). *)
Lemma two_hours_before_gps (t : Q) :
  fabs (total_seconds (fsub t 7200) (Qred (t + 16))) = 7216%Q.
Proof.
  cbn [fabs fsub fadd total_seconds DateTime_Q Float_Q].
  transitivity (Qred 7216); [|reflexivity]. apply Qred_known.
  rewrite !Qred_correct.
  assert (Hd : (t - 7200 - (t + 16) == - (7216))%Q) by ring.
  rewrite Hd. reflexivity.
Qed.

Lemma one_hour_after_gps (t : Q) :
  fabs (total_seconds (fadd t 3600) (Qred (t + 16))) = 3584%Q.
Proof.
  cbn [fabs fsub fadd total_seconds DateTime_Q Float_Q].
  transitivity (Qred 3584); [|reflexivity]. apply Qred_known.
  rewrite !Qred_correct.
  assert (Hd : (t + 3600 - (t + 16) == 3584)%Q) by ring.
  rewrite Hd. reflexivity.
Qed.

End RationalTimes.

(** C5.  On numbers that are not NaN, the selector applied to a non-empty
    list returns a record of the list whose time difference to the epoch no
    other record's is below, and the first such record: every record before
    it is strictly farther.  [least_squares.py] measures [abs(n.t_oe - t)],
    [rover_position.py] measures [abs((n.date - n.utc2gps(t)).total_seconds())].
    Of two records dated 2 h before and 1 h after the epoch, both select the
    second. *)
Theorem nearest_record_selected :
  (forall (F : Type) (HF : Float F) (HO : FloatOrder F)
          (t : F) (nav_array : list (LeastSquares.NavGPS F)),
      nav_array <> [] ->
      exists i n,
        LeastSquares.nav_nearest_in_time t nav_array = Ok n /\
        nth_error nav_array i = Some n /\
        (forall m, In m nav_array ->
           flt (fabs (fsub (LeastSquares.t_oe m) t))
               (fabs (fsub (LeastSquares.t_oe n) t)) = false) /\
        (forall j m, (j < i)%nat -> nth_error nav_array j = Some m ->
           flt (fabs (fsub (LeastSquares.t_oe n) t))
               (fabs (fsub (LeastSquares.t_oe m) t)) = true)) /\
  (forall (F : Type) (HF : Float F) (HO : FloatOrder F) (T : Type) (HD : DateTime T F)
          (t : T) (nav_array : list (RoverPosition.NavGPS F T)),
      nav_array <> [] ->
      exists i n,
        RoverPosition.nav_nearest_in_time t nav_array = Ok n /\
        nth_error nav_array i = Some n /\
        (forall m, In m nav_array ->
           flt (fabs (total_seconds (RoverPosition.date m) (RoverPosition.utc2gps m t)))
               (fabs (total_seconds (RoverPosition.date n) (RoverPosition.utc2gps n t)))
             = false) /\
        (forall j m, (j < i)%nat -> nth_error nav_array j = Some m ->
           flt (fabs (total_seconds (RoverPosition.date n) (RoverPosition.utc2gps n t)))
               (fabs (total_seconds (RoverPosition.date m) (RoverPosition.utc2gps m t)))
             = true)) /\
  (forall t : Q,
      LeastSquares.nav_nearest_in_time t
        [Sample.LS.record (fsub t 7200) Sample.S1;
         Sample.LS.record (fadd t 3600) Sample.S1]
      = Ok (Sample.LS.record (fadd t 3600) Sample.S1)) /\
  (forall t : Q,
      RoverPosition.nav_nearest_in_time t
        [Sample.Rover.record (fsub t 7200) Sample.S1;
         Sample.Rover.record (fadd t 3600) Sample.S1]
      = Ok (Sample.Rover.record (fadd t 3600) Sample.S1)).
Proof.
  split; [|split; [|split]].
  - intros F HF HO t nav_array Hne.
    exact (first_minimal (fun n => fabs (fsub (LeastSquares.t_oe n) t)) Hne).
  - intros F HF HO T HD t nav_array Hne.
    exact (first_minimal
             (fun n => fabs (total_seconds (RoverPosition.date n)
                                           (RoverPosition.utc2gps n t))) Hne).
  - intros t. unfold LeastSquares.nav_nearest_in_time, LeastSquares.diff_array.
    cbn [map LeastSquares.t_oe Sample.LS.record].
    rewrite two_hours_before, one_hour_after. reflexivity.
  - intros t. unfold RoverPosition.nav_nearest_in_time, RoverPosition.diff_array.
    cbn [map RoverPosition.date RoverPosition.utc2gps Sample.Rover.record].
    rewrite two_hours_before_gps, one_hour_after_gps. reflexivity.
Qed.

Lemma nearest_record_selected_witness :
  Sample.LS.two_records Sample.now <> [] /\
  exists i n,
    LeastSquares.nav_nearest_in_time Sample.now (Sample.LS.two_records Sample.now) = Ok n /\
    nth_error (Sample.LS.two_records Sample.now) i = Some n.
Proof.
  assert (Hne : Sample.LS.two_records Sample.now <> []) by discriminate.
  split; [exact Hne|].
  destruct (proj1 nearest_record_selected Q _ _ Sample.now _ Hne)
    as (i & n & Hsel & Hnth & _).
  exists i, n. split; [exact Hsel|exact Hnth].
Defined.

Section WorkingSet.
Context {F : Type} `{Float F} `{!Collaborators F} {T : Type} `{!DateTime T F}.

(** In [least_squares.py]: a satellite that is usable and has the nearest
    record [nnt] is in the working set exactly when it is not below the
    mask. *)
Lemma ls_in_working_set obs navs init_pos log sats r nav_array nnt :
  LeastSquares.select_sats obs navs init_pos (LeastSquares.PRN_number obs) []
    = (log, Ok sats) ->
  In r (LeastSquares.PRN_number obs) ->
  LeastSquares.usable obs r = Ok true ->
  dict_get navs r = Ok nav_array ->
  LeastSquares.nav_nearest_in_time (LeastSquares.date obs) nav_array = Ok nnt ->
  (In r (map fst sats) <->
   LeastSquares.below_mask init_pos (LeastSquares.date obs) nnt = false) /\
  (In r (map fst sats) <-> In (r, nnt) sats).
Proof.
  intros Hsel Hin Hu Hd Hn.
  pose proof (ls_select_members obs navs init_pos _ _ Hsel) as Hmem.
  assert (Hpair : In (r, nnt) sats <->
                  LeastSquares.below_mask init_pos (LeastSquares.date obs) nnt = false).
  { rewrite (Hmem (r, nnt)). simpl. unfold LeastSquares.admitted. simpl. split.
    - intros [[]|[_ (_ & _ & Hb)]]. exact Hb.
    - intros Hb. right. split; [exact Hin|]. split; [exact Hu|]. split; [eauto|exact Hb]. }
  assert (Hname : In r (map fst sats) <-> In (r, nnt) sats).
  { split.
    - intros Hr. apply in_map_iff in Hr. destruct Hr as ([r' nnt'] & Hfst & Hs).
      simpl in Hfst. subst r'.
      pose proof (proj1 (Hmem _) Hs) as [[]|[_ (_ & (arr & Hd' & Hn') & _)]].
      simpl in Hd', Hn'. rewrite Hd in Hd'. inversion Hd'; subst arr.
      rewrite Hn in Hn'. inversion Hn'; subst nnt'. exact Hs.
    - intros Hs. apply in_map_iff. exists (r, nnt). auto. }
  split; [|exact Hname]. rewrite Hname. exact Hpair.
Qed.

Lemma rover_in_working_set (obs : RoverPosition.ObsGPS F T) navs init_pos log sats
    i r nav_array nnt :
  RoverPosition.select_sats obs navs init_pos 0 (RoverPosition.PRN_number obs) []
    = (log, Ok sats) ->
  nth_error (RoverPosition.PRN_number obs) i = Some r ->
  RoverPosition.usable obs i r = Ok true ->
  dict_get navs r = Ok nav_array ->
  RoverPosition.nav_nearest_in_time (RoverPosition.obs_date obs) nav_array = Ok nnt ->
  (In r (map fst sats) <->
   RoverPosition.below_mask init_pos (RoverPosition.obs_date obs) nnt = false) /\
  (In r (map fst sats) <-> In (r, nnt) sats).
Proof.
  intros Hsel Hin Hu Hd Hn.
  pose proof (rover_select_members obs navs init_pos 0 _ _ Hsel) as Hmem.
  assert (Hpair : In (r, nnt) sats <->
                  RoverPosition.below_mask init_pos (RoverPosition.obs_date obs) nnt
                  = false).
  { rewrite (Hmem (r, nnt)). simpl. unfold RoverPosition.admitted. simpl. split.
    - intros [[]|[j (_ & _ & _ & Hb)]]. exact Hb.
    - intros Hb. right. exists i. split; [exact Hin|]. split; [exact Hu|].
      split; [eauto|exact Hb]. }
  assert (Hname : In r (map fst sats) <-> In (r, nnt) sats).
  { split.
    - intros Hr. apply in_map_iff in Hr. destruct Hr as ([r' nnt'] & Hfst & Hs).
      simpl in Hfst. subst r'.
      pose proof (proj1 (Hmem _) Hs) as [[]|[j (_ & _ & (arr & Hd' & Hn') & _)]].
      simpl in Hd', Hn'. rewrite Hd in Hd'. inversion Hd'; subst arr.
      rewrite Hn in Hn'. inversion Hn'; subst nnt'. exact Hs.
    - intros Hs. apply in_map_iff. exists (r, nnt). auto. }
  split; [|exact Hname]. rewrite Hname. exact Hpair.
Qed.

(** C6.  Take a satellite of the epoch that has both code ranges, a 'G' in
    its name and a nearest record [nnt].  With an a-priori position it is
    left out of the working set exactly when [sat_elev] of that position
    and of the satellite's position at the epoch is below the mask (8 in
    [least_squares.py], 10 in [rover_position.py]); without one it is
    always in the working set. *)
Theorem elevation_mask_needs_a_priori_position :
  (forall obs navs init_pos log sats r nav_array nnt,
      LeastSquares.select_sats obs navs init_pos (LeastSquares.PRN_number obs) []
        = (log, Ok sats) ->
      In r (LeastSquares.PRN_number obs) ->
      LeastSquares.usable obs r = Ok true ->
      dict_get navs r = Ok nav_array ->
      LeastSquares.nav_nearest_in_time (LeastSquares.date obs) nav_array = Ok nnt ->
      match init_pos with
      | Some p =>
          ~ In r (map fst sats) <->
          flt (sat_elev true [vx p; vy p; vz p]
                        (LeastSquares.eph2pos nnt (LeastSquares.date obs)))
              (of_int 8) = true
      | None => In r (map fst sats)
      end) /\
  (forall (obs : RoverPosition.ObsGPS F T) navs init_pos log sats i r nav_array nnt,
      RoverPosition.select_sats obs navs init_pos 0 (RoverPosition.PRN_number obs) []
        = (log, Ok sats) ->
      nth_error (RoverPosition.PRN_number obs) i = Some r ->
      RoverPosition.usable obs i r = Ok true ->
      dict_get navs r = Ok nav_array ->
      RoverPosition.nav_nearest_in_time (RoverPosition.obs_date obs) nav_array = Ok nnt ->
      match init_pos with
      | RoverPosition.NoInit => In r (map fst sats)
      | RoverPosition.InitList p =>
          ~ In r (map fst sats) <->
          flt (sat_elev true [vx p; vy p; vz p]
                        (RoverPosition.eph2pos nnt (RoverPosition.obs_date obs)))
              (of_int 10) = true
      | RoverPosition.InitArray a =>
          ~ In r (map fst sats) <->
          flt (sat_elev true [x4 a; y4 a; z4 a; t4 a]
                        (RoverPosition.eph2pos nnt (RoverPosition.obs_date obs)))
              (of_int 10) = true
      end).
Proof.
  split.
  - intros obs navs init_pos log sats r nav_array nnt Hsel Hin Hu Hd Hn.
    destruct (@ls_in_working_set obs navs init_pos log sats r nav_array nnt
                Hsel Hin Hu Hd Hn) as [Hmask _].
    destruct init_pos as [p|]; simpl in Hmask.
    + rewrite Hmask. unfold list3.
      destruct (flt _ _); split; intros; congruence.
    + apply Hmask. reflexivity.
  - intros obs navs init_pos log sats i r nav_array nnt Hsel Hin Hu Hd Hn.
    destruct (@rover_in_working_set obs navs init_pos log sats i r nav_array nnt
                Hsel Hin Hu Hd Hn) as [Hmask _].
    destruct init_pos as [|p|a]; unfold RoverPosition.below_mask in Hmask;
      simpl in Hmask.
    + apply Hmask. reflexivity.
    + rewrite Hmask. destruct (flt _ _); split; intros; congruence.
    + rewrite Hmask. destruct (flt _ _); split; intros; congruence.
Qed.

End WorkingSet.

(** The satellite G05 of the sample, 5 degrees high: left out when an
    a-priori position is given (under the mask of 8 and under the mask of
    10), kept when none is. *)
Lemma elevation_mask_needs_a_priori_position_witness :
  (LeastSquares.select_sats Sample.LS.obs_five Sample.LS.navs (Some Sample.LS.origin)
     (LeastSquares.PRN_number Sample.LS.obs_five) []
     = ([], Ok Sample.LS.working_set) /\
   In "G05" (LeastSquares.PRN_number Sample.LS.obs_five) /\
   LeastSquares.usable Sample.LS.obs_five "G05" = Ok true /\
   dict_get Sample.LS.navs "G05" = Ok [Sample.LS.record Sample.now Sample.S5] /\
   LeastSquares.nav_nearest_in_time (LeastSquares.date Sample.LS.obs_five)
     [Sample.LS.record Sample.now Sample.S5]
     = Ok (Sample.LS.record Sample.now Sample.S5) /\
   sat_elev true [vx Sample.LS.origin; vy Sample.LS.origin; vz Sample.LS.origin]
     Sample.S5 = 5%Q /\
   ~ In "G05" (map fst Sample.LS.working_set)) /\
  (LeastSquares.select_sats Sample.LS.obs_five Sample.LS.navs None
     (LeastSquares.PRN_number Sample.LS.obs_five) []
     = ([], Ok (Sample.LS.working_set ++ [("G05", Sample.LS.record Sample.now Sample.S5)])) /\
   In "G05" (map fst (Sample.LS.working_set
                        ++ [("G05", Sample.LS.record Sample.now Sample.S5)]))) /\
  (RoverPosition.select_sats Sample.Rover.obs_five Sample.Rover.navs
     (RoverPosition.InitList Sample.Rover.origin) 0
     (RoverPosition.PRN_number Sample.Rover.obs_five) []
     = ([PrintExcluded "G05"], Ok Sample.Rover.working_set) /\
   nth_error (RoverPosition.PRN_number Sample.Rover.obs_five) 4 = Some "G05" /\
   RoverPosition.usable Sample.Rover.obs_five 4 "G05" = Ok true /\
   dict_get Sample.Rover.navs "G05" = Ok [Sample.Rover.record Sample.now Sample.S5] /\
   RoverPosition.nav_nearest_in_time (RoverPosition.obs_date Sample.Rover.obs_five)
     [Sample.Rover.record Sample.now Sample.S5]
     = Ok (Sample.Rover.record Sample.now Sample.S5) /\
   sat_elev true [vx Sample.Rover.origin; vy Sample.Rover.origin; vz Sample.Rover.origin]
     Sample.S5 = 5%Q /\
   ~ In "G05" (map fst Sample.Rover.working_set)).
Proof.
  assert (Hin : In "G05" (LeastSquares.PRN_number Sample.LS.obs_five))
    by (simpl; tauto).
  assert (Hu : LeastSquares.usable Sample.LS.obs_five "G05" = Ok true)
    by (vm_compute; reflexivity).
  assert (Hd : dict_get Sample.LS.navs "G05" = Ok [Sample.LS.record Sample.now Sample.S5])
    by reflexivity.
  assert (Hn : LeastSquares.nav_nearest_in_time (LeastSquares.date Sample.LS.obs_five)
                 [Sample.LS.record Sample.now Sample.S5]
               = Ok (Sample.LS.record Sample.now Sample.S5))
    by (vm_compute; reflexivity).
  split; [|split].
  - assert (Hsel : LeastSquares.select_sats Sample.LS.obs_five Sample.LS.navs
                     (Some Sample.LS.origin)
                     (LeastSquares.PRN_number Sample.LS.obs_five) []
                   = ([], Ok Sample.LS.working_set)) by (vm_compute; reflexivity).
    split; [exact Hsel|]. split; [exact Hin|]. split; [exact Hu|].
    split; [exact Hd|]. split; [exact Hn|]. split; [vm_compute; reflexivity|].
    apply (proj1 (@elevation_mask_needs_a_priori_position Q _ _ Q _)
             _ _ _ _ _ _ _ _ Hsel Hin Hu Hd Hn).
    vm_compute. reflexivity.
  - assert (Hsel : LeastSquares.select_sats Sample.LS.obs_five Sample.LS.navs None
                     (LeastSquares.PRN_number Sample.LS.obs_five) []
                   = ([], Ok (Sample.LS.working_set
                                ++ [("G05", Sample.LS.record Sample.now Sample.S5)])))
      by (vm_compute; reflexivity).
    split; [exact Hsel|].
    exact (proj1 (@elevation_mask_needs_a_priori_position Q _ _ Q _)
             _ _ _ _ _ _ _ _ Hsel Hin Hu Hd Hn).
  - assert (Hsel : RoverPosition.select_sats Sample.Rover.obs_five Sample.Rover.navs
                     (RoverPosition.InitList Sample.Rover.origin) 0
                     (RoverPosition.PRN_number Sample.Rover.obs_five) []
                   = ([PrintExcluded "G05"], Ok Sample.Rover.working_set))
      by (vm_compute; reflexivity).
    assert (Hi : nth_error (RoverPosition.PRN_number Sample.Rover.obs_five) 4
                 = Some "G05") by reflexivity.
    assert (Hur : RoverPosition.usable Sample.Rover.obs_five 4 "G05" = Ok true)
      by (vm_compute; reflexivity).
    assert (Hdr : dict_get Sample.Rover.navs "G05"
                  = Ok [Sample.Rover.record Sample.now Sample.S5]) by reflexivity.
    assert (Hnr : RoverPosition.nav_nearest_in_time
                    (RoverPosition.obs_date Sample.Rover.obs_five)
                    [Sample.Rover.record Sample.now Sample.S5]
                  = Ok (Sample.Rover.record Sample.now Sample.S5))
      by (vm_compute; reflexivity).
    split; [exact Hsel|]. split; [exact Hi|]. split; [exact Hur|].
    split; [exact Hdr|]. split; [exact Hnr|]. split; [vm_compute; reflexivity|].
    apply (proj2 (@elevation_mask_needs_a_priori_position Q _ _ Q _)
             _ _ _ _ _ _ _ _ _ Hsel Hi Hur Hdr Hnr).
    vm_compute. reflexivity.
Defined.

Section LogBounds.
Context {F : Type}.

Lemma iterations_bind {A B} (m : M F A) (k : A -> M F B) (n : nat) :
  (forall a, iterations (fst (k a)) <= n)%nat ->
  (iterations (fst (bind m k)) <= iterations (fst m) + n)%nat.
Proof.
  intros Hk. unfold bind. destruct m as [l [a|e]]; simpl; [|lia].
  specialize (Hk a). destruct (k a) as [l' r]. simpl in *.
  rewrite iterations_app. lia.
Qed.

End LogBounds.

Section BoundedLoop.
Context {F : Type} `{Float F} `{!Collaborators F} {T : Type} `{!DateTime T F}.

Lemma loop_exit_by_threshold {St : Type} (body : St -> M F (St * vec4 F))
    (threshold : F) (after : St -> vec4 F -> St) (st : St) :
  (forall s, iterations (fst (body s)) = 0%nat /\ corrections (fst (body s)) = []) ->
  let run := for_break body threshold after (range 10) st in
  (iterations (fst run) <= 10)%nat /\
  forall st' ex, snd run = Ok (st', ex) ->
    exists cs x,
      corrections (fst run) = cs ++ [x] /\
      iterations (fst run) = List.length (cs ++ [x]) /\
      Forall (fun y => flt (delta y) threshold = false) cs /\
      (ex = Broke <-> flt (delta x) threshold = true) /\
      (ex = RanOut -> List.length cs = 9%nat).
Proof.
  intros Hquiet run. split.
  - apply (for_break_iterations body threshold after Hquiet (range 10) st).
  - intros st' ex Hrun.
    assert (Hfull : run = (fst run, Ok (st', ex))).
    { destruct run as [log r]. simpl in Hrun. subst r. reflexivity. }
    destruct (for_break_ok body threshold after Hquiet _ _ Hfull) as [Hn Hex].
    destruct ex.
    + destruct Hex as (cs & x & Hcs & Hall & Hx & Hlen).
      exists cs, x. rewrite Hn, Hcs. repeat split; auto. discriminate.
    + destruct Hex as [Hlen Hall]. simpl in Hlen.
      destruct (exists_last (l := corrections (fst run))) as (cs & x & Hcs).
      { intros Hnil. rewrite Hnil in Hlen. discriminate. }
      exists cs, x. rewrite Hn, Hcs in *. rewrite length_app in Hlen. simpl in Hlen.
      apply Forall_app in Hall. destruct Hall as [Hcs' Hx'].
      inversion Hx' as [|? ? Hx ?]; subst.
      repeat split; auto; try discriminate; try lia.
      intros Hlt. congruence.
Qed.

(** C7.  The loop of either solver enters its body at most 10 times, on
    every input.  When it completes, it has computed corrections
    [cs ++ [x]], one per entry; it was left by [break] exactly when
    [delta x < threshold] for the last one, every earlier one was not
    below the threshold, and it ran out of iterations only after 10
    corrections.  [delta] is the norm of the first three components of a
    correction.  The threshold is 1 in [least_squares.py] and 10 in
    [rover_position.py]; a whole call of [least_squares.py] enters the body
    at most 10 times. *)
Theorem loop_bounded_and_left_below_threshold :
  (forall a b c d : F,
      delta (V4 a b c d) =
        fsqrt (fadd (fadd (fadd (of_int 0) (fmul a a)) (fmul b b)) (fmul c c))) /\
  (forall now vmf sats P st,
      let run := LeastSquares.gauss_newton now vmf sats P st in
      (iterations (fst run) <= 10)%nat /\
      forall st' ex, snd run = Ok (st', ex) ->
        exists cs x,
          corrections (fst run) = cs ++ [x] /\
          iterations (fst run) = List.length (cs ++ [x]) /\
          Forall (fun y => flt (delta y) (of_int 1) = false) cs /\
          (ex = Broke <-> flt (delta x) (of_int 1) = true) /\
          (ex = RanOut -> List.length cs = 9%nat)) /\
  (forall obs navs init_pos vmf,
      (iterations (fst (LeastSquares.least_squares obs navs init_pos vmf)) <= 10)%nat) /\
  (forall (now : T) sats P st,
      let run := RoverPosition.gauss_newton now sats P st in
      (iterations (fst run) <= 10)%nat /\
      forall st' ex, snd run = Ok (st', ex) ->
        exists cs x,
          corrections (fst run) = cs ++ [x] /\
          iterations (fst run) = List.length (cs ++ [x]) /\
          Forall (fun y => flt (delta y) (of_int 10) = false) cs /\
          (ex = Broke <-> flt (delta x) (of_int 10) = true) /\
          (ex = RanOut -> List.length cs = 9%nat)).
Proof.
  split; [reflexivity|]. split; [|split].
  - intros now vmf sats P st.
    apply loop_exit_by_threshold. apply ls_iteration_quiet.
  - intros obs navs init_pos vmf. unfold LeastSquares.least_squares.
    eapply Nat.le_trans; [apply iterations_bind with (n := 10%nat)|].
    + intros sats. destruct (3 <? List.length sats)%nat.
      * eapply Nat.le_trans; [apply iterations_bind with (n := 10%nat)|simpl; lia].
        intros P.
        eapply Nat.le_trans; [apply iterations_bind with (n := 0%nat)|].
        -- intros r. unfold LeastSquares.finish.
           destruct (LeastSquares.A_AT (fst r)) as [[A AT]|]; simpl; [|lia].
           destruct (matrix_inverse (mmul AT A)); simpl; lia.
        -- rewrite Nat.add_0_r.
           apply (for_break_iterations _ _ _ (ls_iteration_quiet _ _ _ _) (range 10)).
      * simpl. lia.
    + rewrite ls_select_silent. simpl. lia.
  - intros now sats P st.
    apply loop_exit_by_threshold. apply rover_iteration_quiet.
Qed.

End BoundedLoop.

Lemma loop_bounded_and_left_below_threshold_witness :
  snd (LeastSquares.gauss_newton Sample.now [] Sample.LS.working_set
         Sample.LS.ranges_swinging Sample.LS.start)
    = Ok (fst Sample.LS.loop_swinging, RanOut) /\
  exists cs x,
    corrections (fst (LeastSquares.gauss_newton Sample.now [] Sample.LS.working_set
                        Sample.LS.ranges_swinging Sample.LS.start)) = cs ++ [x] /\
    List.length cs = 9%nat /\
    flt (delta x) (of_int 1) = false.
Proof.
  assert (Hrun : snd (LeastSquares.gauss_newton Sample.now [] Sample.LS.working_set
                        Sample.LS.ranges_swinging Sample.LS.start)
                 = Ok (fst Sample.LS.loop_swinging, RanOut))
    by (vm_compute; reflexivity).
  split; [exact Hrun|].
  destruct (proj2 (proj1 (proj2 (@loop_bounded_and_left_below_threshold Q _ _ Q _))
                     Sample.now [] Sample.LS.working_set
                     Sample.LS.ranges_swinging Sample.LS.start) _ _ Hrun)
    as (cs & x & Hcs & _ & _ & Hbroke & Hlen).
  exists cs, x. split; [exact Hcs|]. split; [apply Hlen; reflexivity|].
  destruct (flt (delta x) (of_int 1)); [|reflexivity].
  destruct Hbroke as [_ Hb]. discriminate (Hb eq_refl).
Defined.

Section AfterTheLoop.
Context {F : Type} `{Float F} `{!Collaborators F} {T : Type} `{!DateTime T F}.

Lemma bind_rewrap {A : Type} (m : M F (option A)) :
  bind m (fun r => match r with
                   | None => ret None
                   | Some a => ret (Some a)
                   end) = m.
Proof.
  unfold bind, ret. destruct m as [l [[a|]|e]]; simpl; rewrite ?app_nil_r; reflexivity.
Qed.

Lemma ls_finish_ok now vmf sats P st log st' ex :
  LeastSquares.gauss_newton now vmf sats P st = (log, Ok (st', ex)) ->
  LeastSquares.finish st' = ([], Ok (Some (firstn3 (LeastSquares.xyzt st')))).
Proof.
  intros Hrun. destruct (ls_loop_invertible _ _ _ _ _ Hrun) as (A & AT & Q & HA & HQ).
  unfold LeastSquares.finish. rewrite HA, HQ. reflexivity.
Qed.

(** C8, as the code has it.  Once the filter has left at least 4
    satellites, the vector [P] can be built, and if the loop then
    completes, by [break] or by running out of iterations,
    [least_squares.py] returns the first three components of the estimate
    the loop ended with; the value carries nothing else.  One pass of
    [rover_position.py] ends with the whole estimate; the call returns it
    when an a-priori position was given, and otherwise returns what a
    second pass started from that estimate returns. *)
Theorem last_estimate_returned :
  (forall obs navs init_pos vmf log sats,
      LeastSquares.select_sats obs navs init_pos (LeastSquares.PRN_number obs) []
        = (log, Ok sats) ->
      (3 < List.length sats)%nat ->
      exists P,
        LeastSquares.pseudoranges obs sats = Ok P /\
        forall log' st' ex,
          LeastSquares.gauss_newton (LeastSquares.date obs) vmf sats P
            {| LeastSquares.xyzt := LeastSquares.initial_point init_pos;
               LeastSquares.XYZs := LeastSquares.positions sats (LeastSquares.date obs);
               LeastSquares.A_AT := None |}
            = (log', Ok (st', ex)) ->
          LeastSquares.least_squares obs navs init_pos vmf
            = (log ++ log',
               Ok (Some (V3 (x4 (LeastSquares.xyzt st'))
                            (y4 (LeastSquares.xyzt st'))
                            (z4 (LeastSquares.xyzt st')))))) /\
  (forall (obs : RoverPosition.ObsGPS F T) navs init_pos log sats log' st' ex,
      RoverPosition.select_sats obs navs init_pos 0 (RoverPosition.PRN_number obs) []
        = (log, Ok sats) ->
      (3 < List.length sats)%nat ->
      RoverPosition.gauss_newton (RoverPosition.obs_date obs) sats
        (RoverPosition.pseudoranges obs sats)
        {| RoverPosition.xyzt := RoverPosition.initial_point init_pos;
           RoverPosition.XYZs :=
             RoverPosition.positions sats (RoverPosition.obs_date obs) |}
        = (log', Ok (st', ex)) ->
      RoverPosition.solve obs navs init_pos
        = (log ++ log', Ok (Some (RoverPosition.xyzt st'))) /\
      match init_pos with
      | RoverPosition.NoInit =>
          RoverPosition.least_squares obs navs init_pos =
            ((log ++ log')
               ++ fst (RoverPosition.solve obs navs
                         (RoverPosition.InitArray (RoverPosition.xyzt st'))),
             snd (RoverPosition.solve obs navs
                    (RoverPosition.InitArray (RoverPosition.xyzt st'))))
      | _ =>
          RoverPosition.least_squares obs navs init_pos
            = (log ++ log', Ok (Some (RoverPosition.xyzt st')))
      end).
Proof.
  split.
  - intros obs navs init_pos vmf log sats Hsel Hlen.
    destruct (ls_pseudoranges_total obs sats) as [P HP].
    { intros s Hs.
      pose proof (proj1 (ls_select_members obs navs init_pos _ _ Hsel s) Hs)
        as [[]|[_ (Hu & _)]]. exact Hu. }
    exists P. split; [exact HP|].
    intros log' st' ex Hrun.
    unfold LeastSquares.least_squares.
    rewrite (bind_ok_run _ Hsel).
    assert (Hlt : (3 <? List.length sats)%nat = true) by (apply Nat.ltb_lt; lia).
    rewrite Hlt, HP, bind_lift_ok.
    rewrite (bind_ok_run _ Hrun). cbn [fst snd].
    rewrite (ls_finish_ok _ _ _ _ _ Hrun). cbn [fst snd].
    rewrite app_nil_r. reflexivity.
  - intros obs navs init_pos log sats log' st' ex Hsel Hlen Hrun.
    assert (Hsolve : RoverPosition.solve obs navs init_pos
                     = (log ++ log', Ok (Some (RoverPosition.xyzt st')))).
    { unfold RoverPosition.solve.
      rewrite (bind_ok_run _ Hsel).
      assert (Hlt : (3 <? List.length sats)%nat = true) by (apply Nat.ltb_lt; lia).
      rewrite Hlt. rewrite (bind_ok_run _ Hrun). cbn [fst snd ret].
      rewrite app_nil_r. reflexivity. }
    split; [exact Hsolve|].
    unfold RoverPosition.least_squares, RoverPosition.recursion_limit.
    change 1000%nat with (S (S 998)).
    rewrite rover_least_squares_unfold.
    rewrite (bind_ok_run _ Hsolve). cbn [fst snd].
    destruct init_pos as [|p|a]; cbn [RoverPosition.given ret fst snd].
    + rewrite rover_least_squares_unfold. cbn [RoverPosition.given].
      rewrite bind_rewrap. reflexivity.
    + rewrite app_nil_r. reflexivity.
    + rewrite app_nil_r. reflexivity.
Qed.

End AfterTheLoop.

(** The swinging epoch: the loop runs out of iterations and the starting
    point comes back as the result. *)
Lemma last_estimate_returned_witness :
  LeastSquares.select_sats Sample.LS.obs_swinging Sample.LS.navs None
    (LeastSquares.PRN_number Sample.LS.obs_swinging) []
    = ([], Ok Sample.LS.working_set) /\
  (3 < List.length Sample.LS.working_set)%nat /\
  LeastSquares.pseudoranges Sample.LS.obs_swinging Sample.LS.working_set
    = Ok Sample.LS.ranges_swinging /\
  snd (LeastSquares.gauss_newton Sample.now [] Sample.LS.working_set
         Sample.LS.ranges_swinging Sample.LS.start)
    = Ok (fst Sample.LS.loop_swinging, RanOut) /\
  snd (LeastSquares.least_squares Sample.LS.obs_swinging Sample.LS.navs None [])
    = Ok (Some (firstn3 (LeastSquares.xyzt (fst Sample.LS.loop_swinging)))).
Proof.
  assert (Hsel : LeastSquares.select_sats Sample.LS.obs_swinging Sample.LS.navs None
                   (LeastSquares.PRN_number Sample.LS.obs_swinging) []
                 = ([], Ok Sample.LS.working_set)) by (vm_compute; reflexivity).
  assert (Hlen : (3 < List.length Sample.LS.working_set)%nat) by (simpl; lia).
  assert (HP : LeastSquares.pseudoranges Sample.LS.obs_swinging Sample.LS.working_set
               = Ok Sample.LS.ranges_swinging) by (vm_compute; reflexivity).
  assert (Hrun : LeastSquares.gauss_newton Sample.now [] Sample.LS.working_set
                   Sample.LS.ranges_swinging Sample.LS.start
                 = (fst (LeastSquares.gauss_newton Sample.now [] Sample.LS.working_set
                           Sample.LS.ranges_swinging Sample.LS.start),
                    Ok (fst Sample.LS.loop_swinging, RanOut)))
    by (vm_compute; reflexivity).
  split; [exact Hsel|]. split; [exact Hlen|]. split; [exact HP|].
  split; [rewrite Hrun; reflexivity|].
  destruct (proj1 (@last_estimate_returned Q _ _ Q _) Sample.LS.obs_swinging
              Sample.LS.navs None [] [] Sample.LS.working_set Hsel Hlen)
    as (P & HP' & Hret).
  rewrite HP in HP'. inversion HP'; subst P.
  rewrite (Hret _ _ _ Hrun). reflexivity.
Defined.


(** Where the distant epoch starts, a step of less than 64 m in either
    direction is lost in the sum. *)
Lemma distant_estimate_absorbs :
  Forall (fun d => PrimFloat.add (Binary64.of_Z Distant.far) (Binary64.of_Z d)
                   = Binary64.of_Z Distant.far)
         [-63; -9; -1; 0; 1; 9; 63; 127]%Z.
Proof.
  repeat constructor.
Qed.

Section Absorbed.
Import Binary64.

(** C8, as the specification has it, fails.  [least_squares.py] is called
    twice with the a-priori position [(2^60, 2^60, 2^60)], in binary64.  On
    the stalled epoch it uses up its 10 iterations: every correction is
    about 9 m long and is lost when it is added to the estimate.  On the epoch at
    rest it leaves the loop at its first iteration.  Both calls return the
    a-priori position and print nothing, so nothing the caller receives
    tells the two apart.  With [rover_position.py] and no a-priori
    position, the epoch of the low satellites uses up the 10 iterations of
    its first pass, and the call then returns [None]. *)
Lemma exhausted_looks_like_converged :
  (List.length (corrections (fst Distant.run_stalled)) = 10%nat /\
   Forall (fun x => flt (delta x) (of_int 1) = false)
          (corrections (fst Distant.run_stalled)) /\
   List.length (corrections (fst Distant.run_at_rest)) = 1%nat /\
   Forall (fun x => flt (delta x) (of_int 1) = true)
          (corrections (fst Distant.run_at_rest)) /\
   snd Distant.run_stalled = Ok (Some Distant.a_priori) /\
   snd Distant.run_at_rest = Ok (Some Distant.a_priori) /\
   printed (fst Distant.run_stalled) = [] /\
   printed (fst Distant.run_at_rest) = [] /\
   ~ (exists told : res (option (vec3 binary64)) -> list (event binary64) -> bool,
         told (snd Distant.run_stalled) (printed (fst Distant.run_stalled)) = true /\
         told (snd Distant.run_at_rest) (printed (fst Distant.run_at_rest)) = false)) /\
  (List.length (corrections (fst Sample.Rover.run_low)) = 10%nat /\
   Forall (fun x => flt (delta x) (of_int 10) = false)
          (corrections (fst Sample.Rover.run_low)) /\
   snd Sample.Rover.run_low = Ok None).
Proof.
  assert (Hv1 : snd Distant.run_stalled = Ok (Some Distant.a_priori))
    by (vm_compute; reflexivity).
  assert (Hv2 : snd Distant.run_at_rest = Ok (Some Distant.a_priori))
    by (vm_compute; reflexivity).
  assert (Hp1 : printed (fst Distant.run_stalled) = []) by (vm_compute; reflexivity).
  assert (Hp2 : printed (fst Distant.run_at_rest) = []) by (vm_compute; reflexivity).
  assert (Hall : forallb (fun x => negb (flt (delta x) (of_int 1)))
                         (corrections (fst Distant.run_stalled)) = true)
    by (vm_compute; reflexivity).
  assert (Hone : forallb (fun x => flt (delta x) (of_int 1))
                         (corrections (fst Distant.run_at_rest)) = true)
    by (vm_compute; reflexivity).
  assert (Hlow : forallb (fun x => negb (flt (delta x) (of_int 10)))
                         (corrections (fst Sample.Rover.run_low)) = true)
    by (vm_compute; reflexivity).
  split.
  - split; [vm_compute; reflexivity|].
    split.
    { apply Forall_forall. intros x Hx.
      exact (proj1 (negb_true_iff _) (proj1 (forallb_forall _ _) Hall x Hx)). }
    split; [vm_compute; reflexivity|].
    split.
    { apply Forall_forall. intros x Hx.
      exact (proj1 (forallb_forall _ _) Hone x Hx). }
    split; [exact Hv1|]. split; [exact Hv2|]. split; [exact Hp1|]. split; [exact Hp2|].
    intros [told [Ht Hf]].
    rewrite Hv1, Hp1 in Ht. rewrite Hv2, Hp2, Ht in Hf. discriminate Hf.
  - split; [vm_compute; reflexivity|].
    split; [|vm_compute; reflexivity].
    apply Forall_forall. intros x Hx.
    exact (proj1 (negb_true_iff _) (proj1 (forallb_forall _ _) Hlow x Hx)).
Qed.

End Absorbed.

Section NoEphemeris.
Context {F : Type} `{Float F} `{!Collaborators F} {T : Type} `{!DateTime T F}.

Lemma ls_select_raises obs navs init_pos r :
  LeastSquares.usable obs r = Ok true ->
  dict_get navs r = Ok [] ->
  forall prns acc,
    In r prns ->
    exists e, snd (LeastSquares.select_sats obs navs init_pos prns acc) = Raise e.
Proof.
  intros Hu Hd prns. induction prns as [|r0 rest IH]; intros acc Hin; [destruct Hin|].
  rewrite ls_select_step.
  destruct (LeastSquares.usable obs r0) as [[|]|e] eqn:Hu0; [| |simpl; eauto].
  - destruct (dict_get navs r0) as [nav_array|e] eqn:Hd0; [|simpl; eauto].
    destruct (LeastSquares.nav_nearest_in_time (LeastSquares.date obs) nav_array)
      as [nnt|e] eqn:Hn0; [|simpl; eauto].
    assert (Hrest : In r rest).
    { destruct Hin as [Heq|Hin]; [|exact Hin]. subst r0.
      rewrite Hd in Hd0. inversion Hd0; subst nav_array. discriminate. }
    destruct (LeastSquares.below_mask init_pos (LeastSquares.date obs) nnt);
      apply IH; exact Hrest.
  - apply IH. destruct Hin as [Heq|Hin]; [|exact Hin]. subst r0. congruence.
Qed.

Lemma rover_select_raises (obs : RoverPosition.ObsGPS F T) navs init_pos r :
  dict_get navs r = Ok [] ->
  forall prns i0 acc j,
    nth_error prns j = Some r ->
    RoverPosition.usable obs (i0 + j) r = Ok true ->
    exists e, snd (RoverPosition.select_sats obs navs init_pos i0 prns acc) = Raise e.
Proof.
  intros Hd prns. induction prns as [|r0 rest IH]; intros i0 acc j Hj Hu;
    [destruct j; discriminate|].
  rewrite rover_select_step.
  assert (Hnext : forall acc', j <> 0%nat ->
             exists e, snd (RoverPosition.select_sats obs navs init_pos (S i0) rest acc')
                       = Raise e).
  { intros acc' Hj0. destruct j as [|j']; [congruence|].
    apply (IH (S i0) acc' j'); [exact Hj|].
    rewrite Nat.add_succ_r in Hu. exact Hu. }
  destruct (RoverPosition.usable obs i0 r0) as [[|]|e] eqn:Hu0; [| |simpl; eauto].
  - destruct (dict_get navs r0) as [nav_array|e] eqn:Hd0; [|simpl; eauto].
    destruct (RoverPosition.nav_nearest_in_time (RoverPosition.obs_date obs) nav_array)
      as [nnt|e] eqn:Hn0; [|simpl; eauto].
    assert (Hj0 : j <> 0%nat).
    { intros ->. simpl in Hj. inversion Hj; subst r0.
      rewrite Hd in Hd0. inversion Hd0; subst nav_array. discriminate. }
    destruct (RoverPosition.below_mask init_pos (RoverPosition.obs_date obs) nnt);
      simpl; apply Hnext; exact Hj0.
  - apply Hnext. intros ->. simpl in Hj. inversion Hj; subst r0.
    rewrite Nat.add_0_r in Hu. congruence.
Qed.

(** C9, as the code has it.  On an empty list of records the selector
    raises [ValueError] (from [min] of an empty sequence).  Nothing in
    [least_squares] catches it: when a satellite of the epoch is usable
    and its list of records is empty, the call raises an exception and
    returns nothing. *)
Theorem no_ephemeris_raises :
  (forall t : F, LeastSquares.nav_nearest_in_time t [] = Raise ValueError) /\
  (forall t : T,
      @RoverPosition.nav_nearest_in_time F _ T _ t [] = Raise ValueError) /\
  (forall obs navs init_pos vmf r,
      In r (LeastSquares.PRN_number obs) ->
      LeastSquares.usable obs r = Ok true ->
      dict_get navs r = Ok [] ->
      exists e, snd (LeastSquares.least_squares obs navs init_pos vmf) = Raise e) /\
  (forall (obs : RoverPosition.ObsGPS F T) navs init_pos i r,
      nth_error (RoverPosition.PRN_number obs) i = Some r ->
      RoverPosition.usable obs i r = Ok true ->
      dict_get navs r = Ok [] ->
      exists e, snd (RoverPosition.least_squares obs navs init_pos) = Raise e).
Proof.
  split; [reflexivity|]. split; [reflexivity|]. split.
  - intros obs navs init_pos vmf r Hin Hu Hd.
    destruct (@ls_select_raises obs navs init_pos r Hu Hd
                (LeastSquares.PRN_number obs) [] Hin) as [e He].
    exists e. unfold LeastSquares.least_squares.
    destruct (LeastSquares.select_sats obs navs init_pos
                (LeastSquares.PRN_number obs) []) as [l [sats|e']];
      simpl in He; [discriminate|]. simpl. congruence.
  - intros obs navs init_pos i r Hi Hu Hd.
    destruct (@rover_select_raises obs navs init_pos r Hd
                (RoverPosition.PRN_number obs) 0%nat [] i Hi Hu) as [e He].
    exists e. unfold RoverPosition.least_squares, RoverPosition.recursion_limit.
    cbn [RoverPosition.least_squares_at]. unfold RoverPosition.solve.
    destruct (RoverPosition.select_sats obs navs init_pos 0
                (RoverPosition.PRN_number obs) []) as [l [sats|e']];
      simpl in He; [discriminate|]. simpl. congruence.
Qed.

End NoEphemeris.

Lemma no_ephemeris_raises_witness :
  In "G02" (LeastSquares.PRN_number Sample.LS.obs_settled) /\
  LeastSquares.usable Sample.LS.obs_settled "G02" = Ok true /\
  dict_get Sample.LS.navs_gap "G02" = Ok [] /\
  exists e,
    snd (LeastSquares.least_squares Sample.LS.obs_settled Sample.LS.navs_gap None [])
      = Raise e.
Proof.
  assert (Hin : In "G02" (LeastSquares.PRN_number Sample.LS.obs_settled))
    by (simpl; tauto).
  assert (Hu : LeastSquares.usable Sample.LS.obs_settled "G02" = Ok true)
    by (vm_compute; reflexivity).
  assert (Hd : dict_get Sample.LS.navs_gap "G02" = Ok []) by reflexivity.
  split; [exact Hin|]. split; [exact Hu|]. split; [exact Hd|].
  exact (proj1 (proj2 (proj2 (@no_ephemeris_raises Q _ _ Q _)))
           Sample.LS.obs_settled Sample.LS.navs_gap None [] "G02" Hin Hu Hd).
Defined.

(** C9, as the specification has it, fails: with a usable satellite whose
    list of records is empty, [least_squares] hands no value back to its
    caller (there is no tagged result); the selector's [ValueError] leaves
    the function uncaught. *)
Lemma no_ephemeris_not_returned :
  LeastSquares.usable Sample.LS.obs_settled "G02" = Ok true /\
  dict_get Sample.LS.navs_gap "G02" = Ok [] /\
  LeastSquares.nav_nearest_in_time Sample.now (@nil (LeastSquares.NavGPS Q))
    = Raise ValueError /\
  LeastSquares.least_squares Sample.LS.obs_settled Sample.LS.navs_gap None []
    = ([], Raise ValueError) /\
  ~ (exists v,
        snd (LeastSquares.least_squares Sample.LS.obs_settled Sample.LS.navs_gap None [])
        = Ok v).
Proof.
  assert (Hrun : LeastSquares.least_squares Sample.LS.obs_settled Sample.LS.navs_gap
                   None [] = ([], Raise ValueError)) by (vm_compute; reflexivity).
  repeat split; try (vm_compute; reflexivity).
  rewrite Hrun. intros [v Hv]. discriminate.
Qed.

Section Admission.
Context {F : Type} `{Float F} `{!Collaborators F} {T : Type} `{!DateTime T F}.

Lemma admitted_both_codes :
  (forall obs navs init_pos log sats s,
      LeastSquares.select_sats obs navs init_pos (LeastSquares.PRN_number obs) []
        = (log, Ok sats) ->
      In s sats ->
      exists c1 p2,
        LeastSquares.cell obs "C1" (fst s) = Ok (Some c1) /\ feq c1 (of_int 0) = false /\
        LeastSquares.cell obs "P2" (fst s) = Ok (Some p2) /\ feq p2 (of_int 0) = false /\
        char_in "G"%char (fst s) = true) /\
  (forall (obs : LeastSquares.ObsGPS F) sats (P : list F),
      LeastSquares.pseudoranges obs sats = Ok P ->
      Forall2 (fun s p => LeastSquares.cell obs "C1" (fst s) = Ok (Some p)) sats P) /\
  (forall (obs : RoverPosition.ObsGPS F T) navs init_pos log sats s,
      RoverPosition.select_sats obs navs init_pos 0 (RoverPosition.PRN_number obs) []
        = (log, Ok sats) ->
      In s sats ->
      exists i c1 p2,
        nth_error (RoverPosition.PRN_number obs) i = Some (fst s) /\
        RoverPosition.cell obs "C1" i = Ok (Some c1) /\ feq c1 (of_int 0) = false /\
        RoverPosition.cell obs "P2" i = Ok (Some p2) /\ feq p2 (of_int 0) = false /\
        char_in "G"%char (fst s) = true).
Proof.
  split; [|split].
  - intros obs navs init_pos log sats s Hsel Hs.
    pose proof (proj1 (ls_select_members obs navs init_pos _ _ Hsel s) Hs)
      as [[]|[_ (Hu & _)]].
    exact (ls_usable_true obs (fst s) Hu).
  - intros obs sats P HP. exact (ls_pseudoranges_C1 obs sats HP).
  - intros obs navs init_pos log sats s Hsel Hs.
    pose proof (proj1 (rover_select_members obs navs init_pos 0 _ _ Hsel s) Hs)
      as [[]|[j (Hj & Hu & _)]].
    destruct (rover_usable_true obs j (fst s) Hu) as (c1 & p2 & Hrest).
    exists j, c1, p2. split; [exact Hj|exact Hrest].
Qed.

End Admission.

(** C10.  A satellite enters the working set only if its C1 cell and its P2
    cell both hold a non-zero number and its name contains 'G'
    ([least_squares.py] looks the cells up by [obs.prn(r)],
    [rover_position.py] by the satellite's index); the vector [P] of
    [least_squares.py] holds the C1 cells alone.  On the sample epoch whose
    G05 has a C1 range and a blank P2 cell, G05 is left out, nothing is
    printed, and a position is returned. *)
Theorem admission_needs_C1_and_P2 :
  (forall (F : Type) (HF : Float F) (HC : Collaborators F)
          (T : Type) (HD : DateTime T F),
      (forall obs navs init_pos log sats s,
          LeastSquares.select_sats obs navs init_pos (LeastSquares.PRN_number obs) []
            = (log, Ok sats) ->
          In s sats ->
          exists c1 p2 : F,
            LeastSquares.cell obs "C1" (fst s) = Ok (Some c1) /\
            feq c1 (of_int 0) = false /\
            LeastSquares.cell obs "P2" (fst s) = Ok (Some p2) /\
            feq p2 (of_int 0) = false /\
            char_in "G"%char (fst s) = true) /\
      (forall (obs : LeastSquares.ObsGPS F) sats (P : list F),
          LeastSquares.pseudoranges obs sats = Ok P ->
          Forall2 (fun s p => LeastSquares.cell obs "C1" (fst s) = Ok (Some p)) sats P) /\
      (forall (obs : RoverPosition.ObsGPS F T) navs init_pos log sats s,
          RoverPosition.select_sats obs navs init_pos 0 (RoverPosition.PRN_number obs) []
            = (log, Ok sats) ->
          In s sats ->
          exists i (c1 p2 : F),
            nth_error (RoverPosition.PRN_number obs) i = Some (fst s) /\
            RoverPosition.cell obs "C1" i = Ok (Some c1) /\
            feq c1 (of_int 0) = false /\
            RoverPosition.cell obs "P2" i = Ok (Some p2) /\
            feq p2 (of_int 0) = false /\
            char_in "G"%char (fst s) = true)) /\
  (LeastSquares.cell Sample.LS.obs_blank_P2 "C1" "G05" = Ok (Some 20000002%Q) /\
   LeastSquares.cell Sample.LS.obs_blank_P2 "P2" "G05" = Ok None /\
   LeastSquares.select_sats Sample.LS.obs_blank_P2 Sample.LS.navs None
     (LeastSquares.PRN_number Sample.LS.obs_blank_P2) []
     = ([], Ok Sample.LS.working_set) /\
   ~ In "G05" (map fst Sample.LS.working_set) /\
   printed (fst (LeastSquares.least_squares Sample.LS.obs_blank_P2 Sample.LS.navs None []))
     = [] /\
   snd (LeastSquares.least_squares Sample.LS.obs_blank_P2 Sample.LS.navs None [])
     = Ok (Some Sample.LS.origin)).
Proof.
  split.
  - intros F HF HC T HD. exact (@admitted_both_codes F HF HC T HD).
  - repeat split; try (vm_compute; reflexivity).
    simpl. intros [Hx|[Hx|[Hx|[Hx|[]]]]]; discriminate.
Qed.

Lemma admission_needs_C1_and_P2_witness :
  LeastSquares.select_sats Sample.LS.obs_five Sample.LS.navs (Some Sample.LS.origin)
    (LeastSquares.PRN_number Sample.LS.obs_five) []
    = ([], Ok Sample.LS.working_set) /\
  In ("G01", Sample.LS.record Sample.now Sample.S1) Sample.LS.working_set /\
  exists c1 p2 : Q,
    LeastSquares.cell Sample.LS.obs_five "C1" "G01" = Ok (Some c1) /\
    LeastSquares.cell Sample.LS.obs_five "P2" "G01" = Ok (Some p2).
Proof.
  assert (Hsel : LeastSquares.select_sats Sample.LS.obs_five Sample.LS.navs
                   (Some Sample.LS.origin)
                   (LeastSquares.PRN_number Sample.LS.obs_five) []
                 = ([], Ok Sample.LS.working_set)) by (vm_compute; reflexivity).
  assert (Hin : In ("G01", Sample.LS.record Sample.now Sample.S1) Sample.LS.working_set)
    by (simpl; tauto).
  split; [exact Hsel|]. split; [exact Hin|].
  destruct (proj1 (proj1 admission_needs_C1_and_P2 Q _ _ Q _) _ _ _ _ _ _ Hsel Hin)
    as (c1 & p2 & H1 & _ & H2 & _).
  exists c1, p2. split; [exact H1|exact H2].
Defined.


(** * Further properties of the two modules *)

(** ** The working set, in order *)

Section WorkingSetOrder.
Context {F : Type} `{Float F} `{!Collaborators F} {T : Type} `{!DateTime T F}.

Lemma ls_select_entries (obs : LeastSquares.ObsGPS F) navs init_pos prns acc log sats :
  LeastSquares.select_sats obs navs init_pos prns acc = (log, Ok sats) ->
  sats = acc ++ LeastSquares.entries obs navs init_pos prns.
Proof.
  revert acc. induction prns as [|r rest IH]; intros acc.
  - simpl. unfold ret. intros Heq. inversion Heq; subst. now rewrite app_nil_r.
  - rewrite ls_select_step. unfold LeastSquares.entries. cbn [flat_map].
    fold (LeastSquares.entries obs navs init_pos rest).
    unfold LeastSquares.examine.
    destruct (LeastSquares.usable obs r) as [[|]|e]; try discriminate.
    + destruct (dict_get navs r) as [nav_array|e]; try discriminate.
      destruct (LeastSquares.nav_nearest_in_time (LeastSquares.date obs) nav_array)
        as [nnt|e]; try discriminate.
      destruct (LeastSquares.below_mask init_pos (LeastSquares.date obs) nnt).
      * intros Hrun. apply IH in Hrun. exact Hrun.
      * intros Hrun. apply IH in Hrun. rewrite Hrun, <- app_assoc. reflexivity.
    + intros Hrun. apply IH in Hrun. exact Hrun.
Qed.

Lemma rover_select_entries (obs : RoverPosition.ObsGPS F T) navs init_pos prns i acc log sats :
  RoverPosition.select_sats obs navs init_pos i prns acc = (log, Ok sats) ->
  sats = acc ++ RoverPosition.entries obs navs init_pos i prns /\
  log = RoverPosition.exclusions obs navs init_pos i prns.
Proof.
  revert i acc log. induction prns as [|r rest IH]; intros i acc log.
  - simpl. unfold ret. intros Heq. inversion Heq; subst. now rewrite app_nil_r.
  - rewrite rover_select_step.
    cbn [RoverPosition.entries RoverPosition.exclusions].
    unfold RoverPosition.examine.
    destruct (RoverPosition.usable obs i r) as [[|]|e]; try discriminate.
    + destruct (dict_get navs r) as [nav_array|e]; try discriminate.
      destruct (RoverPosition.nav_nearest_in_time (RoverPosition.obs_date obs) nav_array)
        as [nnt|e]; try discriminate.
      destruct (RoverPosition.below_mask init_pos (RoverPosition.obs_date obs) nnt).
      * destruct (RoverPosition.select_sats obs navs init_pos (S i) rest acc)
          as [lr out] eqn:Hrest.
        simpl. intros Heq. inversion Heq; subst.
        destruct (IH _ _ _ Hrest) as [Hs Hl]. split; [exact Hs|]. now rewrite Hl.
      * intros Hrun. destruct (IH _ _ _ Hrun) as [Hs Hl].
        split; [|exact Hl]. rewrite Hs, <- app_assoc. reflexivity.
    + intros Hrun. apply IH in Hrun. exact Hrun.
Qed.

Lemma ls_entries_names (obs : LeastSquares.ObsGPS F) navs init_pos prns :
  map fst (LeastSquares.entries obs navs init_pos prns) =
  filter (fun r => match LeastSquares.examine obs navs init_pos r with
                   | Ok (Some _) => true
                   | _ => false
                   end) prns.
Proof.
  induction prns as [|r rest IH]; [reflexivity|].
  unfold LeastSquares.entries in *. cbn [flat_map filter].
  destruct (LeastSquares.examine obs navs init_pos r) as [[nnt|]|e]; simpl;
    rewrite IH; reflexivity.
Qed.

(** X1.  When the filter of [least_squares.py] completes, the working set
    holds one entry per pass of the loop that reached [sats += ...], in the
    order of [obs.PRN_number]: the names of its entries are
    [obs.PRN_number] with the satellites that were not admitted filtered
    out, so it is never longer than [obs.PRN_number], and it repeats a name
    only if [obs.PRN_number] does. *)
Theorem working_set_in_epoch_order :
  forall (obs : LeastSquares.ObsGPS F) navs init_pos log sats,
    LeastSquares.select_sats obs navs init_pos (LeastSquares.PRN_number obs) []
      = (log, Ok sats) ->
    map fst sats =
      filter (fun r => match LeastSquares.examine obs navs init_pos r with
                       | Ok (Some _) => true
                       | _ => false
                       end) (LeastSquares.PRN_number obs) /\
    (List.length sats <= List.length (LeastSquares.PRN_number obs))%nat /\
    (NoDup (LeastSquares.PRN_number obs) -> NoDup (map fst sats)).
Proof.
  intros obs navs init_pos log sats Hsel.
  apply ls_select_entries in Hsel. simpl in Hsel. subst sats.
  rewrite ls_entries_names. split; [reflexivity|]. split.
  - rewrite <- (length_map fst), ls_entries_names. apply filter_length_le.
  - intros Hnd. apply NoDup_filter. exact Hnd.
Qed.

Lemma rover_entries_exclusions_length (obs : RoverPosition.ObsGPS F T) navs init_pos prns i :
  (List.length (RoverPosition.entries obs navs init_pos i prns)
   + List.length (RoverPosition.exclusions obs navs init_pos i prns)
   <= List.length prns)%nat.
Proof.
  revert i. induction prns as [|r rest IH]; intros i; [simpl; lia|].
  cbn [RoverPosition.entries RoverPosition.exclusions].
  specialize (IH (S i)).
  destruct (RoverPosition.examine obs navs init_pos i r) as [[| |nnt]|e]; simpl; lia.
Qed.

(** X2.  When the filter of [rover_position.py] completes, its working set
    is the list of the satellites that reached [sats += ...], in the order
    of [obs.PRN_number], and what it has printed is one "Satellite r
    excluded" line per satellite below the mask, in that order and nothing
    else; entries and lines together are no more than the satellites of the
    epoch.  Without an a-priori position nothing is printed. *)
Theorem rover_working_set_and_exclusions :
  forall (obs : RoverPosition.ObsGPS F T) navs init_pos log sats,
    RoverPosition.select_sats obs navs init_pos 0 (RoverPosition.PRN_number obs) []
      = (log, Ok sats) ->
    sats = RoverPosition.entries obs navs init_pos 0 (RoverPosition.PRN_number obs) /\
    log = RoverPosition.exclusions obs navs init_pos 0 (RoverPosition.PRN_number obs) /\
    (List.length sats + List.length log
       <= List.length (RoverPosition.PRN_number obs))%nat /\
    (init_pos = RoverPosition.NoInit -> log = []).
Proof.
  intros obs navs init_pos log sats Hsel.
  destruct (rover_select_entries _ _ _ _ _ _ Hsel) as [Hs Hl]. simpl in Hs.
  split; [exact Hs|]. split; [exact Hl|]. split.
  - rewrite Hs, Hl. apply rover_entries_exclusions_length.
  - intros ->. rewrite Hl. clear.
    generalize 0%nat. induction (RoverPosition.PRN_number obs) as [|r rest IH];
      intros i; [reflexivity|].
    cbn [RoverPosition.exclusions]. unfold RoverPosition.examine.
    destruct (RoverPosition.usable obs i r) as [[|]|e]; auto.
    destruct (dict_get navs r) as [nav_array|e]; auto.
    destruct (RoverPosition.nav_nearest_in_time (RoverPosition.obs_date obs) nav_array)
      as [nnt|e]; auto.
    unfold RoverPosition.below_mask. simpl. auto.
Qed.

End WorkingSetOrder.

Lemma working_set_in_epoch_order_witness :
  LeastSquares.select_sats Sample.LS.obs_five Sample.LS.navs (Some Sample.LS.origin)
    (LeastSquares.PRN_number Sample.LS.obs_five) []
    = ([], Ok Sample.LS.working_set) /\
  map fst Sample.LS.working_set = ["G01"; "G02"; "G03"; "G04"] /\
  (List.length Sample.LS.working_set
     <= List.length (LeastSquares.PRN_number Sample.LS.obs_five))%nat.
Proof.
  assert (Hsel : LeastSquares.select_sats Sample.LS.obs_five Sample.LS.navs
                   (Some Sample.LS.origin)
                   (LeastSquares.PRN_number Sample.LS.obs_five) []
                 = ([], Ok Sample.LS.working_set)) by (vm_compute; reflexivity).
  split; [exact Hsel|]. split; [reflexivity|].
  exact (proj1 (proj2 (@working_set_in_epoch_order Q _ _ _ _ _ _ _ Hsel))).
Defined.

Lemma rover_working_set_and_exclusions_witness :
  RoverPosition.select_sats Sample.Rover.obs_five Sample.Rover.navs
    (RoverPosition.InitList Sample.Rover.origin) 0
    (RoverPosition.PRN_number Sample.Rover.obs_five) []
    = ([PrintExcluded "G05"], Ok Sample.Rover.working_set) /\
  [PrintExcluded "G05"]
    = RoverPosition.exclusions Sample.Rover.obs_five Sample.Rover.navs
        (RoverPosition.InitList Sample.Rover.origin) 0
        (RoverPosition.PRN_number Sample.Rover.obs_five).
Proof.
  assert (Hsel : RoverPosition.select_sats Sample.Rover.obs_five Sample.Rover.navs
                   (RoverPosition.InitList Sample.Rover.origin) 0
                   (RoverPosition.PRN_number Sample.Rover.obs_five) []
                 = ([PrintExcluded "G05"], Ok Sample.Rover.working_set))
    by (vm_compute; reflexivity).
  split; [exact Hsel|].
  exact (proj1 (proj2 (@rover_working_set_and_exclusions Q _ _ Q _ _ _ _ _ _ Hsel))).
Defined.

(** ** Every entry carries the nearest record *)

Section EntryInvariant.
Context {F : Type} `{FloatOrder F} `{!Collaborators F} {T : Type} `{!DateTime T F}.

Lemma ls_nearest_minimal (t : F) (nav_array : list (LeastSquares.NavGPS F)) n :
  LeastSquares.nav_nearest_in_time t nav_array = Ok n ->
  In n nav_array /\
  forall m, In m nav_array ->
    flt (fabs (fsub (LeastSquares.t_oe m) t)) (fabs (fsub (LeastSquares.t_oe n) t)) = false.
Proof.
  intros Hsel.
  assert (Hne : nav_array <> []) by (intros ->; discriminate).
  destruct (first_minimal (fun n => fabs (fsub (LeastSquares.t_oe n) t)) Hne)
    as (i & n' & Hrun & Hnth & Hmin & _).
  unfold LeastSquares.nav_nearest_in_time, LeastSquares.diff_array in Hsel.
  rewrite Hrun in Hsel. inversion Hsel; subst n'.
  split; [eapply nth_error_In; exact Hnth|exact Hmin].
Qed.

Lemma rover_nearest_minimal (t : T) (nav_array : list (RoverPosition.NavGPS F T)) n :
  RoverPosition.nav_nearest_in_time t nav_array = Ok n ->
  In n nav_array /\
  forall m, In m nav_array ->
    flt (fabs (total_seconds (RoverPosition.date m) (RoverPosition.utc2gps m t)))
        (fabs (total_seconds (RoverPosition.date n) (RoverPosition.utc2gps n t))) = false.
Proof.
  intros Hsel.
  assert (Hne : nav_array <> []) by (intros ->; discriminate).
  destruct (first_minimal
              (fun n => fabs (total_seconds (RoverPosition.date n)
                                            (RoverPosition.utc2gps n t))) Hne)
    as (i & n' & Hrun & Hnth & Hmin & _).
  unfold RoverPosition.nav_nearest_in_time, RoverPosition.diff_array in Hsel.
  rewrite Hrun in Hsel. inversion Hsel; subst n'.
  split; [eapply nth_error_In; exact Hnth|exact Hmin].
Qed.

(** X3.  On numbers that are not NaN, every entry [(r, nnt)] of a working
    set that came out of the filter pairs the satellite with a record of
    [navs[r]], and no record of [navs[r]] is nearer in time to the epoch of
    the observation (as each file measures it) than [nnt]. *)
Theorem entry_has_nearest_record :
  (forall (obs : LeastSquares.ObsGPS F) navs init_pos log sats r nnt,
      LeastSquares.select_sats obs navs init_pos (LeastSquares.PRN_number obs) []
        = (log, Ok sats) ->
      In (r, nnt) sats ->
      exists nav_array,
        dict_get navs r = Ok nav_array /\
        In nnt nav_array /\
        forall m, In m nav_array ->
          flt (fabs (fsub (LeastSquares.t_oe m) (LeastSquares.date obs)))
              (fabs (fsub (LeastSquares.t_oe nnt) (LeastSquares.date obs))) = false) /\
  (forall (obs : RoverPosition.ObsGPS F T) navs init_pos log sats r nnt,
      RoverPosition.select_sats obs navs init_pos 0 (RoverPosition.PRN_number obs) []
        = (log, Ok sats) ->
      In (r, nnt) sats ->
      exists nav_array,
        dict_get navs r = Ok nav_array /\
        In nnt nav_array /\
        forall m, In m nav_array ->
          flt (fabs (total_seconds (RoverPosition.date m)
                       (RoverPosition.utc2gps m (RoverPosition.obs_date obs))))
              (fabs (total_seconds (RoverPosition.date nnt)
                       (RoverPosition.utc2gps nnt (RoverPosition.obs_date obs)))) = false).
Proof.
  split.
  - intros obs navs init_pos log sats r nnt Hsel Hin.
    pose proof (proj1 (ls_select_members obs navs init_pos _ _ Hsel (r, nnt)) Hin)
      as [[]|[_ (_ & (arr & Hd & Hn) & _)]].
    simpl in Hd, Hn. exists arr. split; [exact Hd|].
    exact (ls_nearest_minimal _ _ Hn).
  - intros obs navs init_pos log sats r nnt Hsel Hin.
    pose proof (proj1 (rover_select_members obs navs init_pos 0 _ _ Hsel (r, nnt)) Hin)
      as [[]|[j (_ & _ & (arr & Hd & Hn) & _)]].
    simpl in Hd, Hn. exists arr. split; [exact Hd|].
    exact (rover_nearest_minimal _ _ Hn).
Qed.

End EntryInvariant.

Lemma entry_has_nearest_record_witness :
  LeastSquares.select_sats Sample.LS.obs_five Sample.LS.navs (Some Sample.LS.origin)
    (LeastSquares.PRN_number Sample.LS.obs_five) []
    = ([], Ok Sample.LS.working_set) /\
  In ("G01", Sample.LS.record Sample.now Sample.S1) Sample.LS.working_set /\
  exists nav_array,
    dict_get Sample.LS.navs "G01" = Ok nav_array /\
    In (Sample.LS.record Sample.now Sample.S1) nav_array.
Proof.
  assert (Hsel : LeastSquares.select_sats Sample.LS.obs_five Sample.LS.navs
                   (Some Sample.LS.origin)
                   (LeastSquares.PRN_number Sample.LS.obs_five) []
                 = ([], Ok Sample.LS.working_set)) by (vm_compute; reflexivity).
  assert (Hin : In ("G01", Sample.LS.record Sample.now Sample.S1) Sample.LS.working_set)
    by (simpl; tauto).
  split; [exact Hsel|]. split; [exact Hin|].
  destruct (proj1 (@entry_has_nearest_record Q _ _ _ Q _) _ _ _ _ _ _ _ Hsel Hin)
    as (arr & Hd & Hmem & _).
  exists arr. split; [exact Hd|exact Hmem].
Defined.

(** ** What the filter raises, and when it cannot *)

Section FilterErrors.
Context {F : Type} `{FloatOrder F} `{!Collaborators F}.

Lemma dict_get_raises {V : Type} (d : list (string * V)) (k : string) (e : exn) :
  dict_get d k = Raise e -> e = KeyError.
Proof.
  induction d as [|[k' v] d IH]; simpl.
  - intros Heq. inversion Heq. reflexivity.
  - destruct (String.eqb k' k); [discriminate|exact IH].
Qed.

Lemma ls_cell_raises (obs : LeastSquares.ObsGPS F) (code r : string) (e : exn) :
  LeastSquares.cell obs code r = Raise e -> e = KeyError \/ e = IndexError.
Proof.
  unfold LeastSquares.cell.
  destruct (dict_get (LeastSquares.obs_data obs) code) as [col|e'] eqn:Hd.
  - unfold py_getitem. destruct (nth_error col (LeastSquares.prn obs r)); [discriminate|].
    intros Heq. inversion Heq. auto.
  - intros Heq. inversion Heq; subst e'. left. exact (dict_get_raises _ _ Hd).
Qed.

Lemma ls_usable_raises (obs : LeastSquares.ObsGPS F) (r : string) (e : exn) :
  LeastSquares.usable obs r = Raise e -> e = KeyError \/ e = IndexError.
Proof.
  unfold LeastSquares.usable.
  destruct (LeastSquares.cell obs "C1" r) as [c1|e1] eqn:H1.
  - destruct (truthy c1); [|discriminate].
    destruct (LeastSquares.cell obs "P2" r) as [p2|e2] eqn:H2.
    + destruct (truthy p2); discriminate.
    + intros Heq. inversion Heq; subst e2. exact (ls_cell_raises _ _ _ H2).
  - intros Heq. inversion Heq; subst e1. exact (ls_cell_raises _ _ _ H1).
Qed.

Lemma ls_nearest_raises (t : F) (nav_array : list (LeastSquares.NavGPS F)) (e : exn) :
  LeastSquares.nav_nearest_in_time t nav_array = Raise e ->
  nav_array = [] /\ e = ValueError.
Proof.
  destruct nav_array as [|n rest].
  - intros Heq. inversion Heq. auto.
  - intros Hraise.
    assert (Hne : n :: rest <> []) by discriminate.
    destruct (first_minimal (fun n => fabs (fsub (LeastSquares.t_oe n) t)) Hne)
      as (i & n' & Hrun & _).
    unfold LeastSquares.nav_nearest_in_time, LeastSquares.diff_array in Hraise.
    rewrite Hrun in Hraise. discriminate.
Qed.

(** X4.  On numbers that are not NaN, an exception out of the filter of
    [least_squares.py] is one of three: [KeyError] or [IndexError] from
    reading the C1 or P2 cell of a satellite of the epoch; [KeyError] from
    [navs[r]] for a usable satellite that [navs] does not know; or
    [ValueError] for a usable satellite whose list of records is empty. *)
Theorem filter_exceptions :
  forall (obs : LeastSquares.ObsGPS F) navs init_pos prns acc log e,
    LeastSquares.select_sats obs navs init_pos prns acc = (log, Raise e) ->
    exists r, In r prns /\
      ((LeastSquares.usable obs r = Raise e /\ (e = KeyError \/ e = IndexError)) \/
       (LeastSquares.usable obs r = Ok true /\
        dict_get navs r = Raise KeyError /\ e = KeyError) \/
       (LeastSquares.usable obs r = Ok true /\
        dict_get navs r = Ok [] /\ e = ValueError)).
Proof.
  intros obs navs init_pos prns. induction prns as [|r rest IH]; intros acc log e.
  - simpl. unfold ret. discriminate.
  - rewrite ls_select_step.
    assert (Hrest : forall acc',
               LeastSquares.select_sats obs navs init_pos rest acc' = (log, Raise e) ->
               exists r0, In r0 (r :: rest) /\
                 ((LeastSquares.usable obs r0 = Raise e /\
                   (e = KeyError \/ e = IndexError)) \/
                  (LeastSquares.usable obs r0 = Ok true /\
                   dict_get navs r0 = Raise KeyError /\ e = KeyError) \/
                  (LeastSquares.usable obs r0 = Ok true /\
                   dict_get navs r0 = Ok [] /\ e = ValueError))).
    { intros acc' Hrun. destruct (IH _ _ _ Hrun) as (r0 & Hin & Hcase).
      exists r0. split; [now right|exact Hcase]. }
    destruct (LeastSquares.usable obs r) as [[|]|e0] eqn:Hu.
    + destruct (dict_get navs r) as [nav_array|e0] eqn:Hd.
      * destruct (LeastSquares.nav_nearest_in_time (LeastSquares.date obs) nav_array)
          as [nnt|e0] eqn:Hn.
        -- destruct (LeastSquares.below_mask init_pos (LeastSquares.date obs) nnt);
             apply Hrest.
        -- intros Heq. inversion Heq; subst.
           destruct (ls_nearest_raises _ _ Hn) as [-> ->].
           exists r. split; [now left|]. right. right. auto.
      * intros Heq. inversion Heq; subst.
        pose proof (dict_get_raises _ _ Hd) as ->.
        exists r. split; [now left|]. right. left. auto.
    + apply Hrest.
    + intros Heq. inversion Heq; subst.
      exists r. split; [now left|]. left. split; [exact Hu|].
      exact (ls_usable_raises _ _ Hu).
Qed.

(** X5.  On numbers that are not NaN, the filter of [least_squares.py]
    completes, and prints nothing, whenever the C1 and P2 cells of every
    satellite of the epoch can be read as far as the [and] chain reads them
    and every usable satellite has at least one record in [navs]. *)
Theorem filter_completes :
  forall (obs : LeastSquares.ObsGPS F) navs init_pos,
    (forall r, In r (LeastSquares.PRN_number obs) ->
       exists usable, LeastSquares.usable obs r = Ok usable) ->
    (forall r, In r (LeastSquares.PRN_number obs) ->
       LeastSquares.usable obs r = Ok true ->
       exists nav_array, dict_get navs r = Ok nav_array /\ nav_array <> []) ->
    exists sats,
      LeastSquares.select_sats obs navs init_pos (LeastSquares.PRN_number obs) []
        = ([], Ok sats).
Proof.
  intros obs navs init_pos Hcells Hnavs.
  pose proof (ls_select_silent obs navs init_pos (LeastSquares.PRN_number obs) [])
    as Hsilent.
  destruct (LeastSquares.select_sats obs navs init_pos (LeastSquares.PRN_number obs) [])
    as [log [sats|e]] eqn:Hrun; simpl in Hsilent; subst log.
  - exists sats. reflexivity.
  - exfalso. destruct (filter_exceptions _ _ _ _ _ Hrun) as (r & Hin & Hcase).
    destruct Hcase as [[Hu _]|[(Hu & Hd & _)|(Hu & Hd & _)]].
    + destruct (Hcells r Hin) as [b Hb]. congruence.
    + destruct (Hnavs r Hin Hu) as (arr & Harr & _). congruence.
    + destruct (Hnavs r Hin Hu) as (arr & Harr & Hne). congruence.
Qed.

(** X6.  [least_squares.py] looks a satellite up in [navs] only after its C1
    cell, its P2 cell and its name have passed the test, in that order.  So
    on an epoch where every satellite has a blank or zero C1 cell, or has
    both cells readable and a blank or zero P2 cell or no 'G' in its name,
    the call prints "too few satellites: 0" and returns [None], whatever
    [navs] holds. *)
Theorem no_usable_satellite_no_lookup :
  forall (obs : LeastSquares.ObsGPS F) navs init_pos vmf,
    (forall r, In r (LeastSquares.PRN_number obs) ->
       (exists c1, LeastSquares.cell obs "C1" r = Ok c1 /\ truthy c1 = false) \/
       (exists c1 p2, LeastSquares.cell obs "C1" r = Ok c1 /\
                      LeastSquares.cell obs "P2" r = Ok p2 /\
                      (truthy p2 = false \/ char_in "G"%char r = false))) ->
    LeastSquares.least_squares obs navs init_pos vmf = ([WarnTooFew 0], Ok None).
Proof.
  intros obs navs init_pos vmf Hall.
  assert (Hu : forall r, In r (LeastSquares.PRN_number obs) ->
                         LeastSquares.usable obs r = Ok false).
  { intros r Hin. unfold LeastSquares.usable.
    destruct (Hall r Hin) as [(c1 & H1 & Ht)|(c1 & p2 & H1 & H2 & Hor)].
    - rewrite H1, Ht. reflexivity.
    - rewrite H1, H2. destruct (truthy c1); [|reflexivity].
      destruct Hor as [Ht|Hg]; [rewrite Ht; reflexivity|].
      rewrite Hg. destruct (truthy p2); reflexivity. }
  assert (Hsel : forall prns acc,
             (forall r, In r prns -> LeastSquares.usable obs r = Ok false) ->
             LeastSquares.select_sats obs navs init_pos prns acc = ([], Ok acc)).
  { induction prns as [|r rest IH]; intros acc Hf; [reflexivity|].
    rewrite ls_select_step, (Hf r (or_introl eq_refl)).
    apply IH. intros r' Hr'. apply Hf. now right. }
  unfold LeastSquares.least_squares.
  rewrite (bind_ok_run _ (Hsel _ [] Hu)). reflexivity.
Qed.

End FilterErrors.

Lemma filter_exceptions_witness :
  LeastSquares.select_sats Sample.LS.obs_settled Sample.LS.navs_gap None
    (LeastSquares.PRN_number Sample.LS.obs_settled) [] = ([], Raise ValueError) /\
  exists r, In r (LeastSquares.PRN_number Sample.LS.obs_settled).
Proof.
  assert (Hrun : LeastSquares.select_sats Sample.LS.obs_settled Sample.LS.navs_gap None
                   (LeastSquares.PRN_number Sample.LS.obs_settled) []
                 = ([], Raise ValueError)) by (vm_compute; reflexivity).
  split; [exact Hrun|].
  destruct (@filter_exceptions Q _ _ _ _ _ _ _ _ _ _ Hrun) as (r & Hin & _).
  exists r. exact Hin.
Defined.

Lemma filter_completes_witness :
  (forall r, In r (LeastSquares.PRN_number Sample.LS.obs_three) ->
     exists usable, LeastSquares.usable Sample.LS.obs_three r = Ok usable) /\
  (forall r, In r (LeastSquares.PRN_number Sample.LS.obs_three) ->
     LeastSquares.usable Sample.LS.obs_three r = Ok true ->
     exists nav_array, dict_get Sample.LS.navs r = Ok nav_array /\ nav_array <> []) /\
  exists sats,
    LeastSquares.select_sats Sample.LS.obs_three Sample.LS.navs None
      (LeastSquares.PRN_number Sample.LS.obs_three) [] = ([], Ok sats).
Proof.
  assert (H1 : forall r, In r (LeastSquares.PRN_number Sample.LS.obs_three) ->
                 exists usable, LeastSquares.usable Sample.LS.obs_three r = Ok usable).
  { intros r [<-|[<-|[<-|[]]]]; exists true; vm_compute; reflexivity. }
  assert (H2 : forall r, In r (LeastSquares.PRN_number Sample.LS.obs_three) ->
                 LeastSquares.usable Sample.LS.obs_three r = Ok true ->
                 exists nav_array,
                   dict_get Sample.LS.navs r = Ok nav_array /\ nav_array <> []).
  { intros r [<-|[<-|[<-|[]]]] _; eexists; (split; [reflexivity|discriminate]). }
  split; [exact H1|]. split; [exact H2|].
  exact (@filter_completes Q _ _ _ Sample.LS.obs_three Sample.LS.navs None H1 H2).
Defined.

(** An epoch without any C1 range and an epoch of GLONASS satellites, both
    with an empty [navs]. *)
Lemma no_usable_satellite_no_lookup_witness :
  LeastSquares.least_squares Sample.LS.obs_no_C1 [] None [] = ([WarnTooFew 0], Ok None) /\
  LeastSquares.least_squares Sample.LS.obs_glonass [] None [] = ([WarnTooFew 0], Ok None).
Proof.
  split.
  - apply (@no_usable_satellite_no_lookup Q _ _ _).
    intros r [<-|[<-|[<-|[<-|[]]]]]; left; eexists; (split; [reflexivity|reflexivity]).
  - apply (@no_usable_satellite_no_lookup Q _ _ _).
    intros r [<-|[<-|[<-|[<-|[]]]]]; right; eexists; eexists;
      (split; [reflexivity|split; [reflexivity|right; reflexivity]]).
Defined.

(** ** What a call returns and prints *)

Section Outcomes.
Context {F : Type} `{Float F} `{!Collaborators F} {T : Type} `{!DateTime T F}.

Lemma for_break_printed {St : Type} (body : St -> M F (St * vec4 F))
    (threshold : F) (after : St -> vec4 F -> St) :
  (forall st, printed (fst (body st)) = []) ->
  forall itrs st, printed (fst (for_break body threshold after itrs st)) = [].
Proof.
  intros Hbody itrs. induction itrs as [|itr rest IH]; intros st; [reflexivity|].
  simpl. unfold bind, emit, ret. specialize (Hbody st).
  destruct (body st) as [lb [r|e]]; simpl in *; [|exact Hbody].
  destruct (flt (delta (snd r)) threshold); simpl.
  - rewrite printed_app, Hbody. reflexivity.
  - specialize (IH (after (fst r) (snd r))).
    destruct (for_break body threshold after rest (after (fst r) (snd r))) as [lr out].
    simpl in *. rewrite printed_app, Hbody. simpl. exact IH.
Qed.

Lemma ls_iteration_prints_nothing now vmf sats P (st : LeastSquares.locals F) :
  printed (fst (LeastSquares.iteration now vmf sats P st)) = [].
Proof.
  unfold LeastSquares.iteration.
  destruct (x_hat_of LeastSquares.c (LeastSquares.A_of st)
              (transpose (LeastSquares.A_of st))
              (LeastSquares.l_of now vmf sats P st)); reflexivity.
Qed.

(** X7.  A call of [least_squares.py] returns [None] exactly when its filter
    completed with fewer than 4 satellites.  When it returns a position the
    filter had left at least 4 satellites, the loop body was entered between
    1 and 10 times, and nothing was printed. *)
Theorem none_only_for_too_few :
  forall (obs : LeastSquares.ObsGPS F) navs init_pos vmf,
    (snd (LeastSquares.least_squares obs navs init_pos vmf) = Ok None <->
     exists sats,
       LeastSquares.select_sats obs navs init_pos (LeastSquares.PRN_number obs) []
         = ([], Ok sats) /\
       (List.length sats < 4)%nat) /\
    (forall p,
        snd (LeastSquares.least_squares obs navs init_pos vmf) = Ok (Some p) ->
        printed (fst (LeastSquares.least_squares obs navs init_pos vmf)) = [] /\
        (1 <= iterations (fst (LeastSquares.least_squares obs navs init_pos vmf)) <= 10)%nat /\
        exists sats,
          LeastSquares.select_sats obs navs init_pos (LeastSquares.PRN_number obs) []
            = ([], Ok sats) /\
          (4 <= List.length sats)%nat).
Proof.
  intros obs navs init_pos vmf.
  pose proof (ls_select_silent obs navs init_pos (LeastSquares.PRN_number obs) [])
    as Hsilent.
  unfold LeastSquares.least_squares.
  destruct (LeastSquares.select_sats obs navs init_pos (LeastSquares.PRN_number obs) [])
    as [log [sats|e]] eqn:Hsel; simpl in Hsilent; subst log.
  - rewrite (bind_ok_run _ (eq_refl ([], Ok sats))). cbn [app].
    destruct (3 <? List.length sats)%nat eqn:Hlt.
    + apply Nat.ltb_lt in Hlt.
      destruct (LeastSquares.pseudoranges obs sats) as [P|e].
      * rewrite bind_lift_ok.
        set (st0 := {| LeastSquares.xyzt := LeastSquares.initial_point init_pos;
                       LeastSquares.XYZs :=
                         LeastSquares.positions sats (LeastSquares.date obs);
                       LeastSquares.A_AT := None |}).
        pose proof (for_break_iterations _ (of_int 1)
                      (LeastSquares.reevaluate (LeastSquares.date obs) sats)
                      (ls_iteration_quiet (LeastSquares.date obs) vmf sats P)
                      (range 10) st0) as Hmax.
        pose proof (for_break_printed _ (of_int 1)
                      (LeastSquares.reevaluate (LeastSquares.date obs) sats)
                      (ls_iteration_prints_nothing (LeastSquares.date obs) vmf sats P)
                      (range 10) st0) as Hquiet.
        fold (LeastSquares.gauss_newton (LeastSquares.date obs) vmf sats P st0)
          in Hmax, Hquiet.
        destruct (LeastSquares.gauss_newton (LeastSquares.date obs) vmf sats P st0)
          as [lg [[st' ex]|e]] eqn:Hrun.
        -- rewrite (bind_ok_run _ (eq_refl (lg, Ok (st', ex)))). cbn [fst snd].
           rewrite (ls_finish_ok _ _ _ _ _ Hrun). cbn [fst snd].
           rewrite app_nil_r. simpl in Hmax, Hquiet. split.
           ++ split; [discriminate|]. intros (s' & Hs' & Hlen').
              inversion Hs'; subst s'. lia.
           ++ intros p _. split; [exact Hquiet|]. split.
              ** split; [|exact Hmax].
                 destruct (for_break_ok _ _ _
                             (ls_iteration_quiet (LeastSquares.date obs) vmf sats P)
                             _ _ Hrun) as [Hn Hex].
                 rewrite Hn. destruct ex.
                 --- destruct Hex as (cs & x & Hcs & _). rewrite Hcs, length_app.
                     simpl. lia.
                 --- destruct Hex as [Hlen _]. rewrite Hlen. simpl. lia.
              ** exists sats. split; [reflexivity|lia].
        -- simpl. split.
           ++ split; [discriminate|]. intros (s' & Hs' & Hlen').
              inversion Hs'; subst s'. lia.
           ++ intros p Hp. discriminate.
      * simpl. split.
        -- split; [discriminate|]. intros (s' & Hs' & Hlen').
           inversion Hs'; subst s'. lia.
        -- intros p Hp. discriminate.
    + apply Nat.ltb_ge in Hlt. simpl. split.
      * split; [|reflexivity]. intros _. exists sats. split; [reflexivity|lia].
      * intros p Hp. discriminate.
  - simpl. split.
    + split; [discriminate|]. intros (s' & Hs' & _). discriminate.
    + intros p Hp. discriminate.
Qed.

(** X8.  When the normal matrix of the first iteration cannot be inverted,
    the exception of the inverse leaves the call: the loop body has been
    entered once, no estimate is returned and nothing is tried again.  This
    is so in both files. *)
Theorem singular_geometry_raises :
  (forall (obs : LeastSquares.ObsGPS F) navs init_pos vmf log sats e,
      LeastSquares.select_sats obs navs init_pos (LeastSquares.PRN_number obs) []
        = (log, Ok sats) ->
      (3 < List.length sats)%nat ->
      let st0 := {| LeastSquares.xyzt := LeastSquares.initial_point init_pos;
                    LeastSquares.XYZs :=
                      LeastSquares.positions sats (LeastSquares.date obs);
                    LeastSquares.A_AT := None |} in
      matrix_inverse (mmul (transpose (LeastSquares.A_of st0)) (LeastSquares.A_of st0))
        = Raise e ->
      LeastSquares.least_squares obs navs init_pos vmf
        = (log ++ [Iteration 0], Raise e)) /\
  (forall (obs : RoverPosition.ObsGPS F T) navs init_pos log sats e,
      RoverPosition.select_sats obs navs init_pos 0 (RoverPosition.PRN_number obs) []
        = (log, Ok sats) ->
      (3 < List.length sats)%nat ->
      let st0 := {| RoverPosition.xyzt := RoverPosition.initial_point init_pos;
                    RoverPosition.XYZs :=
                      RoverPosition.positions sats (RoverPosition.obs_date obs) |} in
      matrix_inverse (mmul (transpose (RoverPosition.A_of st0)) (RoverPosition.A_of st0))
        = Raise e ->
      RoverPosition.least_squares obs navs init_pos
        = (log ++ [Iteration 0], Raise e)).
Proof.
  split.
  - intros obs navs init_pos vmf log sats e Hsel Hlen st0 Hinv.
    destruct (ls_pseudoranges_total obs sats) as [P HP].
    { intros s Hs.
      pose proof (proj1 (ls_select_members obs navs init_pos _ _ Hsel s) Hs)
        as [[]|[_ (Hu & _)]]. exact Hu. }
    unfold LeastSquares.least_squares.
    rewrite (bind_ok_run _ Hsel).
    assert (Hlt : (3 <? List.length sats)%nat = true) by (apply Nat.ltb_lt; lia).
    rewrite Hlt, HP, bind_lift_ok.
    fold st0. unfold LeastSquares.gauss_newton.
    change (range 10) with (0%nat :: seq 1 9).
    rewrite (for_break_step _ _ _ 0 (seq 1 9) st0).
    unfold LeastSquares.iteration, x_hat_of. rewrite Hinv. reflexivity.
  - intros obs navs init_pos log sats e Hsel Hlen st0 Hinv.
    unfold RoverPosition.least_squares, RoverPosition.recursion_limit.
    rewrite rover_least_squares_unfold.
    unfold RoverPosition.solve.
    rewrite (bind_ok_run _ Hsel).
    assert (Hlt : (3 <? List.length sats)%nat = true) by (apply Nat.ltb_lt; lia).
    rewrite Hlt.
    fold st0. unfold RoverPosition.gauss_newton.
    change (range 10) with (0%nat :: seq 1 9).
    rewrite (for_break_step _ _ _ 0 (seq 1 9) st0).
    unfold RoverPosition.iteration, x_hat_of. rewrite Hinv. reflexivity.
Qed.

Lemma rover_solve_iterations (obs : RoverPosition.ObsGPS F T) navs init_pos :
  (iterations (fst (RoverPosition.solve obs navs init_pos)) <= 10)%nat.
Proof.
  unfold RoverPosition.solve.
  eapply Nat.le_trans; [apply iterations_bind with (n := 10%nat)|].
  - intros sats. destruct (3 <? List.length sats)%nat.
    + eapply Nat.le_trans; [apply iterations_bind with (n := 0%nat)|].
      * intros r. simpl. lia.
      * rewrite Nat.add_0_r.
        apply (for_break_iterations _ _ _ (rover_iteration_quiet _ _ _) (range 10)).
    + destruct ((List.length sats <=? 3)%nat && RoverPosition.given init_pos)%bool;
        simpl; lia.
  - rewrite (proj1 (rover_select_quiet obs navs init_pos 0 _ [])). simpl. lia.
Qed.

(** X9.  [rover_position.py] calls itself at most once: any allowance of two
    or more nested calls gives the result of the call.  With an a-priori
    position a call is one pass of the function body; without one it is at
    most two passes, so the loop body is entered at most 20 times in all (10
    with an a-priori position). *)
Theorem rover_recursion_is_two_deep :
  forall (obs : RoverPosition.ObsGPS F T) navs init_pos,
    (forall depth,
        RoverPosition.least_squares_at (S (S depth)) obs navs init_pos
        = RoverPosition.least_squares obs navs init_pos) /\
    (RoverPosition.given init_pos = true ->
       RoverPosition.least_squares obs navs init_pos
       = RoverPosition.solve obs navs init_pos) /\
    (iterations (fst (RoverPosition.least_squares obs navs init_pos)) <= 20)%nat /\
    (RoverPosition.given init_pos = true ->
       (iterations (fst (RoverPosition.least_squares obs navs init_pos)) <= 10)%nat).
Proof.
  intros obs navs init_pos.
  assert (Hinner : forall depth a,
             RoverPosition.least_squares_at (S depth) obs navs
               (RoverPosition.InitArray a)
             = RoverPosition.solve obs navs (RoverPosition.InitArray a)).
  { intros depth a. rewrite rover_least_squares_unfold.
    cbn [RoverPosition.given]. apply bind_rewrap. }
  assert (Htwo' : forall depth,
             RoverPosition.least_squares_at (S (S depth)) obs navs init_pos
             = RoverPosition.least_squares_at 2 obs navs init_pos).
  { intros depth. rewrite rover_least_squares_unfold.
    rewrite (rover_least_squares_unfold 1).
    unfold bind. destruct (RoverPosition.solve obs navs init_pos) as [l [[x|]|e]];
      reflexivity. }
  assert (Hls : RoverPosition.least_squares obs navs init_pos
                = RoverPosition.least_squares_at 2 obs navs init_pos).
  { unfold RoverPosition.least_squares, RoverPosition.recursion_limit.
    exact (Htwo' 998%nat). }
  assert (Hone : RoverPosition.given init_pos = true ->
                 RoverPosition.least_squares obs navs init_pos
                 = RoverPosition.solve obs navs init_pos).
  { intros Hg. rewrite Hls, rover_least_squares_unfold, Hg. apply bind_rewrap. }
  split; [intros depth; rewrite Hls; apply Htwo'|].
  split; [exact Hone|]. split.
  - rewrite Hls, rover_least_squares_unfold.
    eapply Nat.le_trans; [apply iterations_bind with (n := 10%nat)|].
    + intros [x|]; [|simpl; lia].
      destruct (RoverPosition.given init_pos); [simpl; lia|].
      rewrite (Hinner 0%nat). apply rover_solve_iterations.
    + pose proof (rover_solve_iterations obs navs init_pos). lia.
  - intros Hg. rewrite (Hone Hg). apply rover_solve_iterations.
Qed.

End Outcomes.

Lemma none_only_for_too_few_witness :
  snd (LeastSquares.least_squares Sample.LS.obs_settled Sample.LS.navs None [])
    = Ok (Some Sample.LS.origin) /\
  printed (fst (LeastSquares.least_squares Sample.LS.obs_settled Sample.LS.navs None []))
    = [].
Proof.
  assert (Hv : snd (LeastSquares.least_squares Sample.LS.obs_settled Sample.LS.navs
                      None []) = Ok (Some Sample.LS.origin))
    by (vm_compute; reflexivity).
  split; [exact Hv|].
  exact (proj1 (proj2 (@none_only_for_too_few Q _ _ Sample.LS.obs_settled
                         Sample.LS.navs None []) _ Hv)).
Defined.

(** Four satellites in one place. *)
Lemma singular_geometry_raises_witness :
  LeastSquares.select_sats Sample.LS.obs_settled Sample.LS.navs_coincident None
    (LeastSquares.PRN_number Sample.LS.obs_settled) []
    = ([], Ok Sample.LS.working_set_coincident) /\
  (3 < List.length Sample.LS.working_set_coincident)%nat /\
  LeastSquares.least_squares Sample.LS.obs_settled Sample.LS.navs_coincident None []
    = ([Iteration 0], Raise LinAlgError).
Proof.
  assert (Hsel : LeastSquares.select_sats Sample.LS.obs_settled
                   Sample.LS.navs_coincident None
                   (LeastSquares.PRN_number Sample.LS.obs_settled) []
                 = ([], Ok Sample.LS.working_set_coincident))
    by (vm_compute; reflexivity).
  assert (Hlen : (3 < List.length Sample.LS.working_set_coincident)%nat)
    by (simpl; lia).
  split; [exact Hsel|]. split; [exact Hlen|].
  apply (proj1 (@singular_geometry_raises Q _ _ Q _) _ _ _ _ _ _ _ Hsel Hlen).
  vm_compute. reflexivity.
Defined.

Lemma rover_recursion_is_two_deep_witness :
  RoverPosition.given (RoverPosition.InitList Sample.Rover.origin) = true /\
  RoverPosition.least_squares Sample.Rover.obs_five Sample.Rover.navs
    (RoverPosition.InitList Sample.Rover.origin)
  = RoverPosition.solve Sample.Rover.obs_five Sample.Rover.navs
      (RoverPosition.InitList Sample.Rover.origin).
Proof.
  split; [reflexivity|].
  exact (proj1 (proj2 (@rover_recursion_is_two_deep Q _ _ Q _ Sample.Rover.obs_five
                         Sample.Rover.navs
                         (RoverPosition.InitList Sample.Rover.origin))) eq_refl).
Defined.

(** ** Shapes, epochs and the returned estimate *)

Section LoopStates.
Context {F : Type} `{Float F} `{!Collaborators F} {T : Type} `{!DateTime T F}.

Lemma ls_pseudoranges_length (obs : LeastSquares.ObsGPS F) sats P :
  LeastSquares.pseudoranges obs sats = Ok P -> List.length P = List.length sats.
Proof.
  intros HP. apply ls_pseudoranges_C1 in HP.
  induction HP; simpl; congruence.
Qed.

Lemma ls_l_vector_length now vmf xyzt lla
    (sats : list (string * LeastSquares.NavGPS F)) P rho XYZs :
  List.length P = List.length sats ->
  List.length rho = List.length sats ->
  List.length XYZs = List.length sats ->
  List.length (LeastSquares.l_vector now vmf xyzt lla sats P rho XYZs)
    = List.length sats.
Proof.
  revert P rho XYZs.
  induction sats as [|s sats IH]; intros [|p P] [|r rho] [|X XYZs]; simpl;
    try discriminate; try reflexivity.
  intros HP Hr HX. f_equal. apply IH; lia.
Qed.

(** X10.  In [least_squares.py], from the start of the loop on and after
    every iteration and every re-evaluation, there is one satellite
    position per entry of the working set; and in such a state the design
    matrix has one row of 4 numbers per entry and the l-vector one number
    per entry. *)
Theorem design_system_shape :
  forall (obs : LeastSquares.ObsGPS F) (sats : list (string * LeastSquares.NavGPS F))
         (P : list F) (init_pos : option (vec3 F)) (vmf : list F),
    LeastSquares.pseudoranges obs sats = Ok P ->
    let now := LeastSquares.date obs in
    let shaped (st : LeastSquares.locals F) :=
      List.length (LeastSquares.XYZs st) = List.length sats in
    shaped {| LeastSquares.xyzt := LeastSquares.initial_point init_pos;
              LeastSquares.XYZs := LeastSquares.positions sats now;
              LeastSquares.A_AT := None |} /\
    (forall st lb st' x_hat,
        shaped st ->
        LeastSquares.iteration now vmf sats P st = (lb, Ok (st', x_hat)) ->
        shaped st' /\ shaped (LeastSquares.reevaluate now sats st' x_hat)) /\
    (forall st,
        shaped st ->
        List.length (LeastSquares.A_of st) = List.length sats /\
        Forall (fun row => List.length row = 4%nat) (LeastSquares.A_of st) /\
        List.length (LeastSquares.l_of now vmf sats P st) = List.length sats).
Proof.
  intros obs sats P init_pos vmf HP now shaped. unfold shaped.
  split; [|split].
  - simpl. unfold LeastSquares.positions. apply length_map.
  - intros st lb st' x_hat Hst Hrun. apply ls_iteration_ok in Hrun.
    destruct Hrun as (_ & _ & _ & HX & _). split.
    + rewrite HX. exact Hst.
    + simpl. unfold LeastSquares.positions. apply length_map.
  - intros st Hst.
    assert (Hrho : List.length (LeastSquares.rho_of st) = List.length sats).
    { unfold LeastSquares.rho_of. rewrite length_map. exact Hst. }
    split; [|split].
    + unfold LeastSquares.A_of. rewrite length_map, length_combine, Hrho, Hst.
      apply Nat.min_id.
    + unfold LeastSquares.A_of. apply Forall_forall. intros row Hrow.
      apply in_map_iff in Hrow. destruct Hrow as (p & <- & _). reflexivity.
    + unfold LeastSquares.l_of. apply ls_l_vector_length; auto.
      exact (ls_pseudoranges_length _ _ HP).
Qed.

Lemma for_break_last_after {St X : Type} (body : St -> M F (St * vec4 F))
    (threshold : F) (after : St -> vec4 F -> St) (g : St -> X) (h : vec4 F -> X) :
  (forall st, iterations (fst (body st)) = 0%nat /\ corrections (fst (body st)) = []) ->
  (forall st lb st' x, body st = (lb, Ok (st', x)) -> g st' = g st) ->
  (forall st x, g (after st x) = h x) ->
  forall itrs st log st' ex,
    for_break body threshold after itrs st = (log, Ok (st', ex)) ->
    match ex with
    | RanOut =>
        (corrections log = [] /\ g st' = g st) \/
        (exists cs x, corrections log = cs ++ [x] /\ g st' = h x)
    | Broke =>
        (exists x, corrections log = [x] /\ g st' = g st) \/
        (exists cs y x, corrections log = cs ++ [y; x] /\ g st' = h y)
    end.
Proof.
  intros Hquiet Hbody Hafter itrs. induction itrs as [|itr rest IH];
    intros st log st' ex.
  - simpl. unfold ret. intros Heq. inversion Heq; subst. left. auto.
  - rewrite (for_break_step body threshold after itr rest st).
    destruct (Hquiet st) as [_ Hc].
    destruct (body st) as [lb [[st1 x]|e]] eqn:Hb; simpl in Hc; [|discriminate].
    pose proof (Hbody _ _ _ _ Hb) as Hg. cbn [fst snd].
    destruct (flt (delta x) threshold).
    + intros Heq. inversion Heq; subst. left. exists x. split; [|exact Hg].
      simpl. rewrite corrections_app, Hc. reflexivity.
    + destruct (for_break body threshold after rest (after st1 x)) as [lr out] eqn:Hrest.
      cbn [fst snd]. intros Heq. inversion Heq; subst out log.
      specialize (IH _ _ _ _ Hrest).
      assert (Hlog : corrections (Iteration itr :: lb ++ Correction x :: lr)
                     = x :: corrections lr).
      { simpl. rewrite corrections_app, Hc. reflexivity. }
      rewrite Hlog. destruct ex.
      * right. destruct IH as [(x' & Hx' & Hg')|(cs & y & x' & Hcs & Hg')].
        -- exists [], x, x'. rewrite Hx'. split; [reflexivity|].
           rewrite Hg', Hafter. reflexivity.
        -- exists (x :: cs), y, x'. rewrite Hcs. split; [reflexivity|exact Hg'].
      * right. destruct IH as [[Hnil Hg']|(cs & x' & Hcs & Hg')].
        -- exists [], x. rewrite Hnil. split; [reflexivity|].
           rewrite Hg', Hafter. reflexivity.
        -- exists (x :: cs), x'. rewrite Hcs. split; [reflexivity|exact Hg'].
Qed.

(** X11.  The satellite positions an iteration works with are those it was
    handed at the start of the loop when it is the first, and otherwise
    [eph2pos] at the epoch plus the clock component of the previous
    correction alone.  Hence a loop left by [break] ends with the positions
    its last iteration used (those of the start, or those for the correction
    before the last), and a loop that ran out ends with the positions for
    its last correction.  This is so in both files. *)
Theorem positions_follow_last_correction :
  (forall (now : F) vmf sats P (st : LeastSquares.locals F) log st' ex,
      LeastSquares.gauss_newton now vmf sats P st = (log, Ok (st', ex)) ->
      match ex with
      | RanOut =>
          exists cs x,
            corrections log = cs ++ [x] /\
            LeastSquares.XYZs st' = LeastSquares.positions sats (fadd now (t4 x))
      | Broke =>
          (exists x, corrections log = [x] /\
                     LeastSquares.XYZs st' = LeastSquares.XYZs st) \/
          (exists cs y x,
              corrections log = cs ++ [y; x] /\
              LeastSquares.XYZs st' = LeastSquares.positions sats (fadd now (t4 y)))
      end) /\
  (forall (now : T) sats P (st : RoverPosition.locals F) log st' ex,
      RoverPosition.gauss_newton now sats P st = (log, Ok (st', ex)) ->
      match ex with
      | RanOut =>
          exists cs x,
            corrections log = cs ++ [x] /\
            RoverPosition.XYZs st'
              = RoverPosition.positions sats (plus_seconds now (t4 x))
      | Broke =>
          (exists x, corrections log = [x] /\
                     RoverPosition.XYZs st' = RoverPosition.XYZs st) \/
          (exists cs y x,
              corrections log = cs ++ [y; x] /\
              RoverPosition.XYZs st'
                = RoverPosition.positions sats (plus_seconds now (t4 y)))
      end).
Proof.
  split.
  - intros now vmf sats P st log st' ex Hrun. unfold LeastSquares.gauss_newton in Hrun.
    assert (Hb : forall s lb s' x,
               LeastSquares.iteration now vmf sats P s = (lb, Ok (s', x)) ->
               LeastSquares.XYZs s' = LeastSquares.XYZs s).
    { intros s lb s' x Hrun'. apply ls_iteration_ok in Hrun'. tauto. }
    pose proof (@for_break_last_after (LeastSquares.locals F) (list (vec3 F))
                  (LeastSquares.iteration now vmf sats P) (of_int 1)
                  (LeastSquares.reevaluate now sats)
                  (@LeastSquares.XYZs F)
                  (fun x => LeastSquares.positions sats (fadd now (t4 x)))
                  (ls_iteration_quiet now vmf sats P) Hb (fun s x => eq_refl)
                  (range 10) st log st' ex Hrun) as Hlast.
    destruct ex; [exact Hlast|].
    destruct Hlast as [[Hnil _]|Hlast]; [|exact Hlast].
    exfalso. destruct (for_break_ok _ _ _ (ls_iteration_quiet now vmf sats P) _ _ Hrun)
      as [_ [Hlen _]]. rewrite Hnil in Hlen. discriminate.
  - intros now sats P st log st' ex Hrun. unfold RoverPosition.gauss_newton in Hrun.
    assert (Hb : forall s lb s' x,
               RoverPosition.iteration now sats P s = (lb, Ok (s', x)) ->
               RoverPosition.XYZs s' = RoverPosition.XYZs s).
    { intros s lb s' x Hrun'. apply rover_iteration_ok in Hrun'. tauto. }
    pose proof (@for_break_last_after (RoverPosition.locals F) (list (vec3 F))
                  (RoverPosition.iteration now sats P) (of_int 10)
                  (RoverPosition.reevaluate now sats)
                  (@RoverPosition.XYZs F)
                  (fun x => RoverPosition.positions sats (plus_seconds now (t4 x)))
                  (rover_iteration_quiet now sats P) Hb (fun s x => eq_refl)
                  (range 10) st log st' ex Hrun) as Hlast.
    destruct ex; [exact Hlast|].
    destruct Hlast as [[Hnil _]|Hlast]; [|exact Hlast].
    exfalso. destruct (for_break_ok _ _ _ (rover_iteration_quiet now sats P) _ _ Hrun)
      as [_ [Hlen _]]. rewrite Hnil in Hlen. discriminate.
Qed.

(** X12.  The position a call of [least_squares.py] returns is the position
    part of its starting point, [(1e-10, 1e-10, 1e-10)] or the a-priori
    position, with clock bias [0.], to which every correction the loop
    computed has been added in turn. *)
Theorem returned_position_is_start_plus_corrections :
  forall (obs : LeastSquares.ObsGPS F) navs init_pos vmf p,
    snd (LeastSquares.least_squares obs navs init_pos vmf) = Ok (Some p) ->
    p = firstn3 (fold_left vadd4
                   (corrections (fst (LeastSquares.least_squares obs navs init_pos vmf)))
                   (match init_pos with
                    | None => V4 f1em10 f1em10 f1em10 (of_int 0)
                    | Some a => V4 (vx a) (vy a) (vz a) (of_int 0)
                    end)).
Proof.
  intros obs navs init_pos vmf p.
  pose proof (ls_select_silent obs navs init_pos (LeastSquares.PRN_number obs) [])
    as Hsilent.
  unfold LeastSquares.least_squares.
  destruct (LeastSquares.select_sats obs navs init_pos (LeastSquares.PRN_number obs) [])
    as [log [sats|e]] eqn:Hsel; simpl in Hsilent; subst log; [|discriminate].
  rewrite (bind_ok_run _ (eq_refl ([], Ok sats))). cbn [app].
  destruct (3 <? List.length sats)%nat; [|discriminate].
  destruct (LeastSquares.pseudoranges obs sats) as [P|e]; [|discriminate].
  rewrite bind_lift_ok.
  set (st0 := {| LeastSquares.xyzt := LeastSquares.initial_point init_pos;
                 LeastSquares.XYZs := LeastSquares.positions sats (LeastSquares.date obs);
                 LeastSquares.A_AT := None |}).
  destruct (LeastSquares.gauss_newton (LeastSquares.date obs) vmf sats P st0)
    as [lg [[st' ex]|e]] eqn:Hrun; [|discriminate].
  rewrite (bind_ok_run _ (eq_refl (lg, Ok (st', ex)))). cbn [fst snd].
  rewrite (ls_finish_ok _ _ _ _ _ Hrun). cbn [fst snd]. rewrite app_nil_r.
  intros Heq. inversion Heq; subst p.
  unfold LeastSquares.gauss_newton in Hrun.
  assert (Hest : LeastSquares.xyzt st'
                 = fold_left vadd4 (corrections lg) (LeastSquares.xyzt st0)).
  { eapply for_break_estimate with (get := @LeastSquares.xyzt F); [| | |exact Hrun].
    - apply ls_iteration_quiet.
    - intros s lb s' x Hb. apply ls_iteration_ok in Hb. tauto.
    - reflexivity. }
  rewrite Hest. destruct init_pos; reflexivity.
Qed.

End LoopStates.

Section Distance.
Context {F : Type} `{Float F}.

(** X13.  [distance] is symmetric on vectors of equal length, given that the
    square of a difference does not depend on the order of its operands (as
    it is for IEEE numbers); and the geometric range the loop computes for a
    satellite is [distance] between the satellite and the position part of
    the estimate. *)
Theorem distance_symmetric :
  (forall x y : F, fmul (fsub x y) (fsub x y) = fmul (fsub y x) (fsub y x)) ->
  (forall R1 R2 : list F,
      List.length R1 = List.length R2 ->
      LeastSquares.distance R1 R2 = LeastSquares.distance R2 R1) /\
  (forall (xyzt : vec4 F) (XYZ : vec3 F),
      geometric_range xyzt XYZ
      = LeastSquares.distance [vx XYZ; vy XYZ; vz XYZ] [x4 xyzt; y4 xyzt; z4 xyzt]).
Proof.
  intros Hsq. split; [|reflexivity].
  intros R1 R2 _. unfold LeastSquares.distance. f_equal. f_equal.
  revert R2. induction R1 as [|a R1 IH]; intros [|b R2]; simpl; try reflexivity.
  unfold fsq at 1 3. rewrite (Hsq a b), IH. reflexivity.
Qed.

End Distance.

Lemma design_system_shape_witness :
  LeastSquares.pseudoranges Sample.LS.obs_settled Sample.LS.working_set
    = Ok Sample.LS.ranges_settled /\
  List.length (LeastSquares.XYZs Sample.LS.start) = List.length Sample.LS.working_set /\
  List.length (LeastSquares.A_of Sample.LS.start) = 4%nat /\
  List.length (LeastSquares.l_of Sample.now [] Sample.LS.working_set
                 Sample.LS.ranges_settled Sample.LS.start) = 4%nat.
Proof.
  assert (HP : LeastSquares.pseudoranges Sample.LS.obs_settled Sample.LS.working_set
               = Ok Sample.LS.ranges_settled) by (vm_compute; reflexivity).
  assert (Hst : List.length (LeastSquares.XYZs Sample.LS.start)
                = List.length Sample.LS.working_set) by reflexivity.
  split; [exact HP|]. split; [exact Hst|].
  destruct (proj2 (proj2 (@design_system_shape Q _ _ Sample.LS.obs_settled
                            Sample.LS.working_set Sample.LS.ranges_settled None [] HP))
              Sample.LS.start Hst) as (HA & _ & Hl).
  split; [exact HA|exact Hl].
Defined.

Lemma positions_follow_last_correction_witness :
  snd (LeastSquares.gauss_newton Sample.now [] Sample.LS.working_set
         Sample.LS.ranges_swinging Sample.LS.start)
    = Ok (fst Sample.LS.loop_swinging, RanOut) /\
  exists cs x,
    corrections (fst (LeastSquares.gauss_newton Sample.now [] Sample.LS.working_set
                        Sample.LS.ranges_swinging Sample.LS.start)) = cs ++ [x] /\
    LeastSquares.XYZs (fst Sample.LS.loop_swinging)
      = LeastSquares.positions Sample.LS.working_set (fadd Sample.now (t4 x)).
Proof.
  assert (Hrun : LeastSquares.gauss_newton Sample.now [] Sample.LS.working_set
                   Sample.LS.ranges_swinging Sample.LS.start
                 = (fst (LeastSquares.gauss_newton Sample.now [] Sample.LS.working_set
                           Sample.LS.ranges_swinging Sample.LS.start),
                    Ok (fst Sample.LS.loop_swinging, RanOut)))
    by (vm_compute; reflexivity).
  split; [rewrite Hrun; reflexivity|].
  exact (proj1 (@positions_follow_last_correction Q _ _ Q _) _ _ _ _ _ _ _ _ Hrun).
Defined.

Lemma returned_position_is_start_plus_corrections_witness :
  snd (LeastSquares.least_squares Sample.LS.obs_settled Sample.LS.navs None [])
    = Ok (Some Sample.LS.origin) /\
  Sample.LS.origin
    = firstn3 (fold_left vadd4
                 (corrections (fst (LeastSquares.least_squares Sample.LS.obs_settled
                                      Sample.LS.navs None [])))
                 (V4 f1em10 f1em10 f1em10 (of_int 0))).
Proof.
  assert (Hv : snd (LeastSquares.least_squares Sample.LS.obs_settled Sample.LS.navs
                      None []) = Ok (Some Sample.LS.origin))
    by (vm_compute; reflexivity).
  split; [exact Hv|].
  exact (@returned_position_is_start_plus_corrections Q _ _ Sample.LS.obs_settled
           Sample.LS.navs None [] _ Hv).
Defined.

Lemma distance_symmetric_witness :
  (forall x y : Q, fmul (fsub x y) (fsub x y) = fmul (fsub y x) (fsub y x)) /\
  LeastSquares.distance [3; 4; 0]%Q [0; 0; 0]%Q
    = LeastSquares.distance [0; 0; 0]%Q [3; 4; 0]%Q.
Proof.
  assert (Hsq : forall x y : Q, fmul (fsub x y) (fsub x y) = fmul (fsub y x) (fsub y x)).
  { intros x y. cbn [fmul fsub Float_Q]. apply Qred_complete.
    rewrite !Qred_correct. ring. }
  split; [exact Hsq|].
  exact (proj1 (@distance_symmetric Q _ Hsq) [3; 4; 0]%Q [0; 0; 0]%Q eq_refl).
Defined.
